(** * qubicdb-ui: the graph visualisation components

    A shallow embedding of the four graph components of the dashboard
    (BrainViz: SVG + d3-force; NeuralGraph3D: react-force-graph-3d;
    NeoGraph: cytoscape; NeuralGraph: react-force-graph-2d canvas) and the
    properties of the visualisation engine checked against them.

    JavaScript numbers are modelled as exact rationals [Q]: every constant
    of the source (0.3, 0.5, 200, ...) is a rational, and the sources only
    add, multiply, divide by a non-zero constant, compare and round.  NaN and
    the infinities have no counterpart; a field that the source guards with
    [??] or [?.] is an [option].  Strings are sequences of characters, one
    per UTF-16 code unit of the JavaScript string. *)

From Stdlib Require Import QArith Qround Qminmax ZArith List String Bool Lia Lqa.
Import ListNotations.

Open Scope Q_scope.

(** ** JavaScript operators used by the components *)

Module JS.

(** [a ?? b] *)
Definition nullish {A : Type} (a : option A) (b : A) : A :=
  match a with Some v => v | None => b end.

(** [a?.[i]] on an optional array; an index past the end is [undefined]. *)
Definition index {A : Type} (a : option (list A)) (i : nat) : option A :=
  match a with Some l => nth_error l i | None => None end.

(** Truthiness of an optional number: [undefined] and [0] are falsy. *)
Definition truthy (a : option Q) : bool :=
  match a with Some q => negb (Qeq_bool q 0) | None => false end.

(** [Math.ceil], [Math.floor], [Math.round] (half rounds up). *)
Definition ceil (q : Q) : Z := Qceiling q.
Definition floor (q : Q) : Z := Qfloor q.
Definition round (q : Q) : Z := Qfloor (q + (1 # 2)).

(** [a > b] *)
Definition gt (a b : Q) : bool := negb (Qle_bool a b).

(** [s?.slice(0, n)] on an optional string. *)
Definition slice0 (s : option string) (n : nat) : option string :=
  option_map (substring 0 n) s.

(** String coercion of an optional string under [+]: [undefined]
    becomes the text "undefined". *)
Definition toString (s : option string) : string :=
  match s with Some v => v | None => "undefined"%string end.

(** [a === b] between a [string | null] state and a string. *)
Definition strictEq (a : option string) (b : string) : bool :=
  match a with Some v => String.eqb v b | None => false end.

End JS.

Infix "??" := JS.nullish (at level 45, left associativity).

(** ** api/client.ts: the snapshot records *)

Module Client.

Record GraphNode := {
  id : string;
  content : option string;
  energy : option Q;
  depth : option Q;
  accessCount : option Q;
  position : option (list Q)
}.

Record GraphEdge := {
  source : string;
  target : string;
  weight : Q;
  coFireCount : Q
}.

End Client.

(** A colour as the components produce it: a CSS [rgb(r, g, b)] text with
    integer channels, or a hexadecimal literal. *)
Inductive Color :=
| Rgb (r g b : Z)
| Hex (code : string).

(** ** components/BrainViz.tsx: the SVG renderer *)

Module BrainViz.
Import Client.

Record SimNode := {
  data : GraphNode;
  x : Q;
  y : Q;
  vx : option Q;
  vy : option Q;
  fx : option Q;
  fy : option Q
}.

Record SimLink := {
  source : string;
  target : string;
  weight : Q;
  coFireCount : Q
}.

Record Dimensions := { width : Q; height : Q }.

(** Channels of a colour before they are rounded for printing. *)
Record Channels := { red : Q; green : Q; blue : Q }.

(** Modelled from the spec: [d3.interpolateRgb(a, b)(t)] belongs to
    d3-interpolate, which is not under src/; it is the two-point
    interpolation, linear in [t], of every channel, [a + t * (b - a)] (the
    default gamma 1), printed as [rgb(r, g, b)] with every channel rounded
    and clamped to 0..255. *)
Definition mix (a b t : Q) : Q := a + t * (b - a).

(** Modelled from the spec: the channel-wise interpolation of
    d3-interpolate (not under src/). *)
Definition interpolate (a b : Channels) (t : Q) : Channels :=
  {| red := mix (red a) (red b) t;
     green := mix (green a) (green b) t;
     blue := mix (blue a) (blue b) t |}.

(** Modelled from the spec: the printing of a colour by d3-color (not
    under src/): every channel is rounded and clamped. *)
Definition clampi (q : Q) : Z := Z.max 0 (Z.min 255 (JS.round q)).

Definition formatRgb (c : Channels) : Color :=
  Rgb (clampi (red c)) (clampi (green c)) (clampi (blue c)).

(** Modelled from the spec: [d3.interpolateRgb] (not under src/). *)
Definition interpolateRgb (a b : Channels) (t : Q) : Color :=
  formatRgb (interpolate a b t).

(** '#22c55e' and '#ef4444' *)
Definition green500 : Channels := {| red := 34; green := 197; blue := 94 |}.
Definition red500 : Channels := {| red := 239; green := 68; blue := 68 |}.

Definition energyColor (energy : Q) : Color :=
  interpolateRgb green500 red500 (1 - energy).

(** The alpha of [linkColor]'s [rgba(100, 200, 255, alpha)]. *)
Definition linkColor (weight : Q) : Q := 0.2 + weight * 0.6.

(** "Prepare data" *)
Definition simNode (dims : Dimensions) (n : GraphNode) : SimNode :=
  {| data := n;
     x := width dims / 2 + (JS.index (position n) 0 ?? 0) * 200;
     y := height dims / 2 + (JS.index (position n) 1 ?? 0) * 200;
     vx := None; vy := None; fx := None; fy := None |}.

Definition simNodes (dims : Dimensions) (nodes : list GraphNode) : list SimNode :=
  map (simNode dims) nodes.

Definition simLink (e : GraphEdge) : SimLink :=
  {| source := Client.source e;
     target := Client.target e;
     weight := Client.weight e;
     coFireCount := Client.coFireCount e |}.

Definition simLinks (edges : list GraphEdge) : list SimLink :=
  map simLink edges.

(** Force parameters of a link and the collision radius of a node. *)
Definition linkDistance (d : SimLink) : Q := 80 - weight d * 30.
Definition linkStrength (d : SimLink) : Q := 0.3 + weight d * 0.5.
Definition collisionRadius (d : SimNode) : Q :=
  15 + (accessCount (data d) ?? 0) * 2.

(** Links: one [line] element is joined to every element of [simLinks]. *)
Record Line := { stroke_width : Q; stroke_opacity : Q; gradient : nat }.

Definition strokeWidth (d : SimLink) : Q := 1 + weight d * 4.
Definition strokeOpacity (d : SimLink) : Q := 0.3 + weight d * 0.5.

Fixpoint joinLines (i : nat) (links : list SimLink) : list Line :=
  match links with
  | [] => []
  | d :: rest =>
      {| stroke_width := strokeWidth d;
         stroke_opacity := strokeOpacity d;
         gradient := i |} :: joinLines (S i) rest
  end.

Definition link (links : list SimLink) : list Line := joinLines 0 links.

(** The stats badge: "{nodes.length} neurons, {edges.length} synapses". *)
Definition synapseCount (edges : list GraphEdge) : nat := List.length edges.

(** The gradient update of the tick handler: the gradient of edge [i] is
    moved only when [simNodes.find] finds both of its end points. *)
Definition findNode (nodes : list SimNode) (i : string) : option SimNode :=
  find (fun n => String.eqb (id (data n)) i) nodes.

Definition bothFound (nodes : list SimNode) (e : GraphEdge) : bool :=
  match findNode nodes (Client.source e), findNode nodes (Client.target e) with
  | Some _, Some _ => true
  | _, _ => false
  end.

Definition gradientUpdates (nodes : list SimNode) (edges : list GraphEdge)
  : list GraphEdge :=
  filter (bothFound nodes) edges.

(** Particles *)
Definition numParticles (linkData : SimLink) : Z :=
  Z.min (JS.ceil (coFireCount linkData / 2)) 5.

(** Labels *)
Definition label (d : SimNode) : string :=
  (JS.toString (JS.slice0 (content (data d)) 20) ++ "...")%string.

(** Node circles *)
Definition radius (d : SimNode) : Q := 8 + (accessCount (data d) ?? 0) * 1.5.
Definition fill (d : SimNode) : Color := energyColor (energy (data d) ?? 0.5).
Definition glowFilter (d : SimNode) : bool :=
  JS.gt (energy (data d) ?? 0) 0.8.

(** *** The simulation object and the drag behaviour *)

(** [d3.forceSimulation(simNodes)] with its link force: the working set,
    the cooling temperature and its target, and whether the internal
    timer is running. *)
Record Simulation := {
  nodes : list SimNode;
  links : list SimLink;
  alpha : Q;
  alphaTarget : Q;
  running : bool
}.

(** [d3.forceSimulation(nodes)] belongs to d3-force, which is not under
    src/; modelled from its documented behaviour: a node object with a fixed
    coordinate is put there, a node object that lacks a velocity component
    gets the velocity zero, and the simulation starts its timer. *)
Definition initializeNode (d : SimNode) : SimNode :=
  let still := match vx d, vy d with
               | Some _, Some _ => false
               | _, _ => true
               end in
  {| data := data d;
     x := fx d ?? x d;
     y := fy d ?? y d;
     vx := if still then Some 0 else vx d;
     vy := if still then Some 0 else vy d;
     fx := fx d; fy := fy d |}.

Definition forceSimulation (ns : list SimNode) (ls : list SimLink) : Simulation :=
  {| nodes := map initializeNode ns; links := ls;
     alpha := 1; alphaTarget := 0; running := true |}.

(** [simulation.stop()] *)
Definition stop (s : Simulation) : Simulation :=
  {| nodes := nodes s; links := links s; alpha := alpha s;
     alphaTarget := alphaTarget s; running := false |}.

(** [simulation.alphaTarget(t).restart()] and [simulation.alphaTarget(t)] *)
Definition alphaTargetRestart (t : Q) (s : Simulation) : Simulation :=
  {| nodes := nodes s; links := links s; alpha := alpha s;
     alphaTarget := t; running := true |}.

Definition setAlphaTarget (t : Q) (s : Simulation) : Simulation :=
  {| nodes := nodes s; links := links s; alpha := alpha s;
     alphaTarget := t; running := running s |}.

Definition setNodes (ns : list SimNode) (s : Simulation) : Simulation :=
  {| nodes := ns; links := links s; alpha := alpha s;
     alphaTarget := alphaTarget s; running := running s |}.

(** The node objects are shared between the simulation and the circles:
    a handler that writes to its datum [d] writes to the [i]-th node of the
    simulation. *)
Fixpoint update {A : Type} (i : nat) (f : A -> A) (l : list A) : list A :=
  match l, i with
  | [], _ => []
  | a :: rest, O => f a :: rest
  | a :: rest, S j => a :: update j f rest
  end.

Definition setFixed (px py : option Q) (d : SimNode) : SimNode :=
  {| data := data d; x := x d; y := y d; vx := vx d; vy := vy d;
     fx := px; fy := py |}.

(** The three handlers of [d3.drag]; [active] is [event.active]. *)
Definition dragStart (active : nat) (i : nat) (s : Simulation) : Simulation :=
  let s1 := if Nat.eqb active 0 then alphaTargetRestart 0.3 s else s in
  setNodes (update i (fun d => setFixed (Some (x d)) (Some (y d)) d) (nodes s1)) s1.

Definition dragMove (ex ey : Q) (i : nat) (s : Simulation) : Simulation :=
  setNodes (update i (setFixed (Some ex) (Some ey)) (nodes s)) s.

Definition dragEnd (active : nat) (i : nat) (s : Simulation) : Simulation :=
  let s1 := if Nat.eqb active 0 then setAlphaTarget 0 s else s in
  setNodes (update i (setFixed None None) (nodes s1)) s1.

(** *** Selection *)

Inductive Click :=
| ClickNode (id : string)   (* the click listener of a node circle *)
| ClickCanvas               (* a click on the svg outside every circle *)
| ClickClose.               (* the close button of the detail panel *)

(** [setSelectedNode(prev => prev === d.id ? null : d.id)]; the svg and
    its group carry the zoom behaviour only and no click listener. *)
Definition click (ev : Click) (prev : option string) : option string :=
  match ev with
  | ClickNode d => if JS.strictEq prev d then None else Some d
  | ClickCanvas => prev
  | ClickClose => None
  end.

(** "Update selected node styling": the values that the two attr callbacks
    of the styling effect compute for the datum [d].  They are written to
    the circles only when that effect runs, which it does when
    [selectedNode] changes. *)
Definition stroke (selectedNode : option string) (d : SimNode) : string * Z :=
  if JS.strictEq selectedNode (id (data d))
  then ("#22c55e"%string, 4%Z) else ("#fff"%string, 2%Z).

(** The stroke attributes a node circle carries on screen. *)
Record Stroked := { datum : SimNode; stroke_colour : string; stroke_wide : Z }.

(** "Nodes (neurons)": every circle is created with a white stroke of
    width 2, whatever the selection is. *)
Definition createCircle (d : SimNode) : Stroked :=
  {| datum := d; stroke_colour := "#fff"; stroke_wide := 2 |}.

(** The styling effect: both attributes of every circle are set from
    [stroke]. *)
Definition styleCircles (selectedNode : option string) (cs : list Stroked)
  : list Stroked :=
  map (fun c => {| datum := datum c;
                   stroke_colour := fst (stroke selectedNode (datum c));
                   stroke_wide := snd (stroke selectedNode (datum c)) |}) cs.

(** *** The main effect, its timers and its cleanup *)

(** A callback handed to [setTimeout] (or chained on a transition end).
    [run] numbers the run of the main effect that created the closure: the
    closure keeps that run's [linkData] and node objects alive. *)
Inductive Callback :=
| animateParticle (run linkIndex p : nat)
| zoomToFit (run : nat).

Record Timer := { delay : Q; callback : Callback }.

(** The simulation objects created so far, one per run of the main effect
    that got past its guard, oldest first; the callbacks that are set and
    have not fired; [simulationRef.current], as the number of its run; and
    the run whose cleanup React holds for the next change of the
    dependencies or the unmount, if the latest run returned one. *)
Record Page := {
  runs : list Simulation;
  timers : list Timer;
  ref : option nat;
  pendingCleanup : option nat
}.

Definition emptyPage : Page :=
  {| runs := []; timers := []; ref := None; pendingCleanup := None |}.

(** "Animated particles along links": [numParticles] circles per link,
    each with [setTimeout(animateParticle, 1000 + p * 200)]. *)
Definition particleTimers (run i : nat) (linkData : SimLink) : list Timer :=
  map (fun p => {| delay := 1000 + inject_Z (Z.of_nat p) * 200;
                   callback := animateParticle run i p |})
      (seq 0 (Z.to_nat (numParticles linkData))).

Fixpoint forEachLink (run i : nat) (ls : list SimLink) : list Timer :=
  match ls with
  | [] => []
  | linkData :: rest => particleTimers run i linkData ++ forEachLink run (S i) rest
  end.

(** Modelled from the spec: the link force belongs to d3-force, which is
    not under src/.  It resolves the two end point ids of a relation to the
    entities of the working set: [linkData.source] and [linkData.target]
    become the node objects with these ids (the last one, when an id occurs
    twice). *)
Definition nodeById (ns : list SimNode) (i : string) : option SimNode :=
  findNode (rev ns) i.

(** The link force belongs to d3-force, which is not under src/; modelled
    from its documented behaviour: when the force is given to the simulation
    it looks up both end points of every link, and raises the error "node
    not found" for an id that names no node.  [resolves] tells whether every
    end point is found. *)
Definition resolved (ns : list SimNode) (l : SimLink) : bool :=
  match nodeById ns (source l), nodeById ns (target l) with
  | Some _, Some _ => true
  | _, _ => false
  end.

Definition resolves (ns : list SimNode) (ls : list SimLink) : bool :=
  forallb (resolved ns) ls.

(** The body of the main effect.  With no node the component renders its
    empty state and the effect returns at its guard, without a cleanup.
    Otherwise the simulation is created and started; when an end point of a
    relation names no node, giving it the link force raises an error and the
    effect ends there: the simulation stays as it is, running and with no
    force, no line is joined, no timer is set, [simulationRef] is not
    assigned and no cleanup is returned. *)
Definition mainEffect (dims : Dimensions) (ns : list GraphNode)
  (edges : list GraphEdge) (page : Page) : Page :=
  match ns with
  | [] => {| runs := runs page; timers := timers page; ref := ref page;
             pendingCleanup := None |}
  | _ :: _ =>
      let run := List.length (runs page) in
      let ls := simLinks edges in
      if resolves (simNodes dims ns) ls
      then {| runs := runs page ++ [forceSimulation (simNodes dims ns) ls];
              timers := timers page ++ forEachLink run 0 ls
                        ++ [{| delay := 1500; callback := zoomToFit run |}];
              ref := Some run;
              pendingCleanup := Some run |}
      else {| runs := runs page ++ [forceSimulation (simNodes dims ns) []];
              timers := timers page;
              ref := ref page;
              pendingCleanup := None |}
  end.

(** The lines and the circles on screen after a run of the main effect:
    the svg is emptied first, and the links and the nodes are joined only
    when the run gets that far. *)
Definition renderedLines (dims : Dimensions) (ns : list GraphNode)
  (edges : list GraphEdge) : list Line :=
  match ns with
  | [] => []
  | _ :: _ => if resolves (simNodes dims ns) (simLinks edges)
              then link (simLinks edges) else []
  end.

Definition renderedCircles (dims : Dimensions) (ns : list GraphNode)
  (edges : list GraphEdge) : list Stroked :=
  match ns with
  | [] => []
  | _ :: _ => if resolves (simNodes dims ns) (simLinks edges)
              then map createCircle (map initializeNode (simNodes dims ns)) else []
  end.

(** Whether a run of the main effect on a snapshot reaches its end: it
    returns at the guard when there is no node, and otherwise every end
    point has to be found. *)
Definition completes (dims : Dimensions) (ns : list GraphNode)
  (edges : list GraphEdge) : bool :=
  match ns with
  | [] => true
  | _ :: _ => resolves (simNodes dims ns) (simLinks edges)
  end.

(** The cleanup returned by run [run]: [simulation.stop()]. *)
Definition cleanup (run : nat) (page : Page) : Page :=
  {| runs := update run stop (runs page); timers := timers page;
     ref := ref page; pendingCleanup := None |}.

(** React runs the cleanup it holds, if any. *)
Definition lastRun (page : Page) : Page :=
  match pendingCleanup page with
  | None => page
  | Some run => cleanup run page
  end.

(** React runs the cleanup of the previous run, then the effect again,
    when [nodes], [edges] or [dimensions] change; unmounting runs the
    cleanup alone. *)
Definition rerender (dims : Dimensions) (ns : list GraphNode)
  (edges : list GraphEdge) (page : Page) : Page :=
  mainEffect dims ns edges (lastRun page).

Definition unmount (page : Page) : Page := lastRun page.

(** The selection and the node circles of the SVG renderer over time.  A
    new snapshot runs the main effect, which removes every element and
    creates the circles anew; the styling effect does not run then, since
    [selectedNode] did not change.  A click sets the selection, and the
    styling effect runs when the selection has changed. *)
Record View := { selectedNode : option string; circles : list Stroked }.

Inductive ViewEvent :=
| Snapshot (dims : Dimensions) (ns : list GraphNode) (edges : list GraphEdge)
| Clicked (c : Click).

(** Whether React sees the same state (Object.is on a string or null). *)
Definition sameSelection (s1 s2 : option string) : bool :=
  match s1, s2 with
  | None, None => true
  | Some u, Some v => String.eqb u v
  | _, _ => false
  end.

Definition viewStep (v : View) (e : ViewEvent) : View :=
  match e with
  | Snapshot dims ns edges =>
      {| selectedNode := selectedNode v;
         circles := renderedCircles dims ns edges |}
  | Clicked c =>
      let sel := click c (selectedNode v) in
      {| selectedNode := sel;
         circles := if sameSelection sel (selectedNode v) then circles v
                    else styleCircles sel (circles v) |}
  end.

(** The first render: nothing is selected, and both effects run, the main
    effect first. *)
Definition mountView (dims : Dimensions) (ns : list GraphNode)
  (edges : list GraphEdge) : View :=
  {| selectedNode := None;
     circles := styleCircles None (renderedCircles dims ns edges) |}.

Inductive Outcome :=
| Skipped
| Animated (linkData : SimLink) (source target : SimNode)
| Fitted.

Definition removeAt {A : Type} (k : nat) (l : list A) : list A :=
  firstn k l ++ skipn (S k) l.

(** What [animateParticle] of run [run] does when it is called: it reads
    [linkData] and the current coordinates of its two node objects; when
    [source.x] or [target.x] is falsy it returns, otherwise the particle is
    sent to the target and back and [animateParticle] is chained on the end
    of the return journey.  [r1] and [r2] are the two draws of
    [Math.random()]. *)
Definition runAnimateParticle (r1 r2 : Q) (run i p : nat) (page : Page)
  : Outcome * list Timer :=
  match nth_error (runs page) run with
  | None => (Skipped, [])
  | Some s =>
      match nth_error (links s) i with
      | None => (Skipped, [])
      | Some linkData =>
          match nodeById (nodes s) (source linkData),
                nodeById (nodes s) (target linkData) with
          | Some src, Some tgt =>
              if JS.truthy (Some (x src)) && JS.truthy (Some (x tgt))
              then (Animated linkData src tgt,
                    [{| delay := (2000 + r1 * 1000) + inject_Z (Z.of_nat p) * 400
                                 + (2000 + r2 * 1000);
                        callback := animateParticle run i p |}])
              else (Skipped, [])
          | _, _ => (Skipped, [])
          end
      end
  end.

(** The [k]-th pending callback fires: it leaves the pending set and runs. *)
Definition fire (r1 r2 : Q) (k : nat) (page : Page) : option (Outcome * Page) :=
  match nth_error (timers page) k with
  | None => None
  | Some t =>
      let rest := removeAt k (timers page) in
      match callback t with
      | zoomToFit _ =>
          Some (Fitted, {| runs := runs page; timers := rest; ref := ref page;
                           pendingCleanup := pendingCleanup page |})
      | animateParticle run i p =>
          let (o, chained) := runAnimateParticle r1 r2 run i p page in
          Some (o, {| runs := runs page; timers := rest ++ chained;
                      ref := ref page; pendingCleanup := pendingCleanup page |})
      end
  end.

(** [simulationRef.current]: the simulation of the latest run that
    assigned it. *)
Definition simulationRef (page : Page) : option Simulation :=
  match ref page with
  | Some run => nth_error (runs page) run
  | None => None
  end.

(** Node [i] of the simulation has both fixed coordinates set; with
    [still], its velocity is zero as well. *)
Definition pinnedAt (still : bool) (i : nat) (s : Simulation) : Prop :=
  exists d, nth_error (nodes s) i = Some d /\
            fx d <> None /\ fy d <> None /\
            (still = true -> vx d = Some 0 /\ vy d = Some 0).

(** *** The layout simulator's step *)

(** The effect of the forces of one tick on one node: a translation of its
    position and a change of its velocity. *)
Record Push := { dx : Q; dy : Q; dvx : Q; dvy : Q }.

Section LayoutSimulator.

Variables alphaDecay alphaMin velocityDecay : Q.

(** What one tick's force accumulation (link, charge, centre, collision)
    does to a node, from the temperature and the whole working set: the
    centre force translates positions, the other forces change velocities. *)
Variable force : Q -> list SimNode -> SimNode -> Push.

(** Modelled from the spec: the step of the Layout Simulator is the tick of
    d3-force, which is not under src/.  One call is one iteration of force
    accumulation, integration and cooling; a pinned entity (fx, fy set) is
    excluded from the position update, its position is the externally given
    one and its velocity is zero, while it still is in the working set the
    forces of the others are computed from.  A free entity keeps the
    translation the centre force gave it, its velocity is the accumulated
    one times the velocity decay, and it moves on by that velocity. *)
Definition integrate (pos : Q) (vel fixed : option Q) (dpos dv : Q) : Q * Q :=
  match fixed with
  | Some f => (f, 0)
  | None => let v := ((vel ?? 0) + dv) * velocityDecay in (pos + dpos + v, v)
  end.

(** Modelled from the spec: the force accumulation and integration of one
    node (d3-force, not under src/). *)
Definition stepNode (a : Q) (ns : list SimNode) (d : SimNode) : SimNode :=
  let f := force a ns d in
  let px := integrate (x d) (vx d) (fx d) (dx f) (dvx f) in
  let py := integrate (y d) (vy d) (fy d) (dy f) (dvy f) in
  {| data := data d; x := fst px; y := fst py;
     vx := Some (snd px); vy := Some (snd py); fx := fx d; fy := fy d |}.

(** Modelled from the spec: one tick (d3-force, not under src/): the
    temperature moves towards its target, then every node is stepped. *)
Definition tick (s : Simulation) : Simulation :=
  let a := alpha s + (alphaTarget s - alpha s) * alphaDecay in
  {| nodes := map (stepNode a (nodes s)) (nodes s); links := links s;
     alpha := a; alphaTarget := alphaTarget s; running := running s |}.

(** Modelled from the spec: the timer callback of the simulation (d3-force,
    not under src/): a tick while it is running, and the simulation stops
    once it has cooled below [alphaMin]. *)
Definition step (s : Simulation) : Simulation :=
  if running s
  then let s' := tick s in
       if negb (Qle_bool alphaMin (alpha s')) then stop s' else s'
  else s.

(** What happens between the start and the end of a drag gesture. *)
Inductive GestureEvent :=
| Move (ex ey : Q)
| Tick.

Definition during (i : nat) (s : Simulation) (e : GestureEvent) : Simulation :=
  match e with
  | Move ex ey => dragMove ex ey i s
  | Tick => tick s
  end.

(** A whole gesture on node [i]; [a1] and [a2] are [event.active] at its
    start and at its end. *)
Definition gesture (a1 a2 : nat) (i : nat) (evs : list GestureEvent)
  (s : Simulation) : Simulation :=
  dragEnd a2 i (fold_left (during i) evs (dragStart a1 i s)).

End LayoutSimulator.

(** The page after the component was rendered with each snapshot of a list
    in turn, from its first render on. *)
Definition rendered (snaps : list (Dimensions * list GraphNode * list GraphEdge))
  : Page :=
  fold_left (fun page snap => rerender (fst (fst snap)) (snd (fst snap)) (snd snap) page)
            snaps emptyPage.

(** *** Circles, glows, labels and hover *)

(** The attributes of a node circle that the pointer handlers change. *)
Record Circle := { attr_r : Q; attr_filter : option string }.

(** "Nodes (neurons)": the attributes a circle is created with. *)
Definition nodeCircle (d : SimNode) : Circle :=
  {| attr_r := 8 + (accessCount (data d) ?? 0) * 1.5;
     attr_filter := if JS.gt (energy (data d) ?? 0) 0.8
                    then Some "url(#glow)"%string else None |}.

(** The targets of the transitions started by 'mouseover' and 'mouseout';
    a later transition on the circle replaces the one in flight. *)
Definition mouseover (d : SimNode) (c : Circle) : Circle :=
  {| attr_r := 12 + (accessCount (data d) ?? 0) * 1.5;
     attr_filter := Some "url(#pulse-glow)"%string |}.

Definition mouseout (d : SimNode) (c : Circle) : Circle :=
  {| attr_r := 8 + (accessCount (data d) ?? 0) * 1.5;
     attr_filter := if JS.gt (energy (data d) ?? 0) 0.8
                    then Some "url(#glow)"%string else None |}.

(** "Node outer glow (for high energy)": a second circle is drawn behind
    every node, whatever its energy, with the glow filter; its radius and
    its opacity. *)
Definition glowRadius (d : SimNode) : Q := 12 + (accessCount (data d) ?? 0) * 1.5 + 8.
Definition glowOpacity (d : SimNode) : Q := (energy (data d) ?? 0.5) * 0.3.

Record GlowCircle := {
  glow_r : Q; glow_fill : Color; glow_opacity : Q; glow_filter : option string
}.

Definition nodeGlow (d : SimNode) : GlowCircle :=
  {| glow_r := glowRadius d;
     glow_fill := energyColor (energy (data d) ?? 0.5);
     glow_opacity := glowOpacity d;
     glow_filter := Some "url(#glow)"%string |}.

(** "Labels": the vertical offset of the label under the node centre. *)
Definition labelDy (d : SimNode) : Q := 20 + (accessCount (data d) ?? 0) * 1.5.

(** *** Link gradients *)

(** "Create gradient for each link based on weight": the gradient
    [link-gradient-i] of edge [i] and the alpha of its three stops. *)
Record Gradient := { gradientId : nat; stop0 : Q; stop50 : Q; stop100 : Q }.

Definition linkGradient (i : nat) (edge : GraphEdge) : Gradient :=
  {| gradientId := i;
     stop0 := linkColor (Client.weight edge);
     stop50 := 0.3 + Client.weight edge * 0.5;
     stop100 := linkColor (Client.weight edge) |}.

Fixpoint linkGradients (i : nat) (edges : list GraphEdge) : list Gradient :=
  match edges with
  | [] => []
  | edge :: rest => linkGradient i edge :: linkGradients (S i) rest
  end.

(** *** The detail panel *)

(** [nodes.find(n => n.id === selectedNode)] *)
Definition selectedNodeData (ns : list GraphNode) (selectedNode : option string)
  : option GraphNode :=
  find (fun n => JS.strictEq selectedNode (id n)) ns.

(** "Connections":
    [edges.filter(e => e.source === selectedNode || e.target === selectedNode).length] *)
Definition connections (edges : list GraphEdge) (selectedNode : option string) : nat :=
  List.length
    (List.filter (fun e => JS.strictEq selectedNode (Client.source e)
                           || JS.strictEq selectedNode (Client.target e)) edges).

(** *** Initial zoom to fit *)

(** [g.node()?.getBBox()] and a zoom transform: a point p of the drawing is
    shown at k * p + (tx, ty). *)
Record BBox := { bbox_x : Q; bbox_y : Q; bbox_width : Q; bbox_height : Q }.
Record Transform := { k : Q; tx : Q; ty : Q }.

(** [d3.zoomIdentity.translate(translate[0], translate[1]).scale(scale)]
    as the "Initial zoom to fit" callback computes it. *)
Definition fitTransform (dims : Dimensions) (bounds : BBox) : Transform :=
  let fullWidth := bbox_width bounds in
  let fullHeight := bbox_height bounds in
  let midX := bbox_x bounds + fullWidth / 2 in
  let midY := bbox_y bounds + fullHeight / 2 in
  let scale := 0.8 / Qmax (fullWidth / width dims) (fullHeight / height dims) in
  {| k := scale;
     tx := width dims / 2 - scale * midX;
     ty := height dims / 2 - scale * midY |}.

Definition applyX (t : Transform) (px : Q) : Q := k t * px + tx t.
Definition applyY (t : Transform) (py : Q) : Q := k t * py + ty t.

End BrainViz.

(** ** components/NeuralGraph3D.tsx: the 3D renderer *)

Module NeuralGraph3D.
Import Client.

(** A node of [graphData.nodes]: the snapshot record and the fixed
    coordinates computed from its position. *)
Record ForceGraphNode := {
  data : GraphNode;
  fx : option Q;
  fy : option Q;
  fz : option Q
}.

(** The parameter type of the link callbacks: both fields are optional. *)
Record Link := {
  source : string;
  target : string;
  weight : option Q;
  coFireCount : option Q
}.

(** [n.position?.[i] ? n.position[i] * 100 : undefined] *)
Definition fixedAt (n : GraphNode) (i : nat) : option Q :=
  if JS.truthy (JS.index (position n) i)
  then option_map (fun v => v * 100) (JS.index (position n) i)
  else None.

Definition graphNode (n : GraphNode) : ForceGraphNode :=
  {| data := n; fx := fixedAt n 0; fy := fixedAt n 1; fz := fixedAt n 2 |}.

Definition graphLink (e : GraphEdge) : Link :=
  {| source := Client.source e;
     target := Client.target e;
     weight := Some (Client.weight e);
     coFireCount := Some (Client.coFireCount e) |}.

Record GraphData := { nodes : list ForceGraphNode; links : list Link }.

Definition graphData (ns : list GraphNode) (edges : list GraphEdge) : GraphData :=
  {| nodes := map graphNode ns; links := map graphLink edges |}.

(** "Node color based on energy and depth" *)
Definition getNodeColor (selectedNode : option string) (node : ForceGraphNode) : Color :=
  let energy := energy (data node) ?? 0.5 in
  let depth := depth (data node) ?? 0 in
  if JS.strictEq selectedNode (id (data node)) then Hex "#ffffff"
  else if Qeq_bool depth 0 then
    Rgb (JS.floor (50 + (1 - energy) * 200)) (JS.floor (200 + energy * 55)) 80
  else if Qeq_bool depth 1 then
    Rgb 80 150 (JS.floor (150 + energy * 105))
  else
    Rgb (JS.floor (120 + energy * 80)) 80 200.

(** "Node size based on access count and energy" *)
Definition getNodeSize (node : ForceGraphNode) : Q :=
  4 + Qmin ((accessCount (data node) ?? 0) / 5) 3 + (energy (data node) ?? 0.5) * 2.

(** "Link color based on weight": the brightness and the alpha of
    [rgba(brightness, 220, 255, alpha)]. *)
Definition getLinkColor (link : Link) : Z * Q :=
  let weight := weight link ?? 0.5 in
  (JS.floor (100 + weight * 155), 0.3 + weight * 0.7).

(** "Link width based on weight and co-fire count" *)
Definition getLinkWidth (link : Link) : Q :=
  let weight := weight link ?? 0.5 in
  let coFire := Qmin (coFireCount link ?? 1) 15 in
  0.5 + weight * 2 + coFire * 0.1.

(** The [linkOpacity] property of the graph. *)
Definition linkOpacity : Q := 0.8.

(** "Animated link particles" *)
Definition getLinkParticles (link : Link) : Z :=
  let coFire := coFireCount link ?? 0 in
  Z.min (JS.floor (coFire / 3) + 1) 5.

(** The selection and the auto-rotate flag. *)
Record State := { selectedNode : option string; autoRotate : bool }.

Inductive Click :=
| ClickNode (id : string)   (* onNodeClick *)
| ClickCanvas               (* no onBackgroundClick is given to the graph *)
| ClickClose.

Definition click (ev : Click) (st : State) : State :=
  match ev with
  | ClickNode d =>
      {| selectedNode := if JS.strictEq (selectedNode st) d then None else Some d;
         autoRotate := false |}
  | ClickCanvas => st
  | ClickClose => {| selectedNode := None; autoRotate := autoRotate st |}
  end.

(** "Custom node object with glow": whether the outer glow sphere is added,
    and its radius. *)
Definition hasGlow (node : ForceGraphNode) : bool :=
  JS.gt (energy (data node) ?? 0) 0.8.

Definition glowSize (node : ForceGraphNode) : Q := getNodeSize node * 1.5.

(** "Node label": the first line of the tooltip,
    [content.length > 60 ? content.slice(0, 60) + '...' : content] with
    [content = node.content ?? '']. *)
Definition truncated (node : ForceGraphNode) : string :=
  let content := Client.content (data node) ?? EmptyString in
  if Nat.ltb 60 (String.length content)
  then (substring 0 60 content ++ "...")%string
  else content.

(** "Auto-rotate camera": the effect with the dependency [autoRotate].
    [intervals] holds, for every interval that is set and not cleared,
    oldest first, the number of times its callback has run: its [angle]
    variable starts at 0 and every callback adds 0.005 to it in
    floating-point arithmetic, so the angle is the result of that many
    rounded additions.  [armed] tells whether the latest run of the effect
    returned its cleanup, which clears the interval that run set. *)
Record Rotor := { rotate : bool; intervals : list nat; armed : bool }.

Definition rotateCleanup (r : Rotor) : Rotor :=
  if armed r
  then {| rotate := rotate r; intervals := removelast (intervals r); armed := false |}
  else r.

(** The body of the effect; [hasGraph] tells whether [fgRef.current] is
    set, which it is not while the empty state is rendered. *)
Definition rotateEffect (hasGraph : bool) (r : Rotor) : Rotor :=
  if hasGraph && rotate r
  then {| rotate := rotate r; intervals := intervals r ++ [0%nat]; armed := true |}
  else {| rotate := rotate r; intervals := intervals r; armed := false |}.

(** [setAutoRotate(b)]: when the value changes, React runs the cleanup of
    the previous run and then the effect. *)
Definition setAutoRotate (hasGraph b : bool) (r : Rotor) : Rotor :=
  if Bool.eqb b (rotate r) then r
  else rotateEffect hasGraph
         {| rotate := b; intervals := intervals (rotateCleanup r);
            armed := armed (rotateCleanup r) |}.

(** The first render: [autoRotate] starts as [true]. *)
Definition mountRotor (hasGraph : bool) : Rotor :=
  rotateEffect hasGraph {| rotate := true; intervals := []; armed := false |}.

(** The interval callback: [angle += 0.005], once more, in every interval
    that is set. *)
Definition intervalFired (r : Rotor) : Rotor :=
  {| rotate := rotate r;
     intervals := map S (intervals r);
     armed := armed r |}.

Inductive RotorEvent :=
| NodeClicked       (* handleNodeClick: setAutoRotate(false) *)
| RotatePressed     (* the Rotate button: setAutoRotate(!autoRotate) *)
| IntervalFired.

Definition rotorStep (r : Rotor) (ev : bool * RotorEvent) : Rotor :=
  match snd ev with
  | NodeClicked => setAutoRotate (fst ev) false r
  | RotatePressed => setAutoRotate (fst ev) (negb (rotate r)) r
  | IntervalFired => intervalFired r
  end.

End NeuralGraph3D.

(** ** The cytoscape renderer (NeoGraph) *)

Module NeoGraph.
Import Client.

Record NodeData := {
  id : string;
  label : string;
  fullContent : option string;
  energy : Q;
  accessCount : Q;
  depth : Q
}.

Record EdgeData := {
  edgeId : nat;     (* the element id is the text e{i} *)
  source : string;
  target : string;
  weight : Q;
  coFireCount : Q
}.

(** [n.content?.slice(0, 25) + (n.content && n.content.length > 25 ? '...' : '')] *)
Definition nodeLabel (n : GraphNode) : string :=
  (JS.toString (JS.slice0 (content n) 25)
   ++ match content n with
      | Some c => if Nat.ltb 25 (String.length c) then "..." else EmptyString
      | None => EmptyString
      end)%string.

Definition nodeData (n : GraphNode) : NodeData :=
  {| id := Client.id n;
     label := nodeLabel n;
     fullContent := content n;
     energy := Client.energy n ?? 1;
     accessCount := Client.accessCount n ?? 0;
     depth := Client.depth n ?? 0 |}.

Definition edgeElement (i : nat) (e : GraphEdge) : EdgeData :=
  {| edgeId := i;
     source := Client.source e;
     target := Client.target e;
     weight := Client.weight e;
     coFireCount := Client.coFireCount e |}.

Fixpoint edgeElements (i : nat) (edges : list GraphEdge) : list EdgeData :=
  match edges with
  | [] => []
  | e :: rest => edgeElement i e :: edgeElements (S i) rest
  end.

Definition elements (ns : list GraphNode) (edges : list GraphEdge)
  : list NodeData * list EdgeData :=
  (map nodeData ns, edgeElements 0 edges).


(** The 'width' and 'opacity' of the edge style. *)
Definition edgeWidth (ele : EdgeData) : Q := 1 + weight ele * 4.
Definition edgeOpacity (ele : EdgeData) : Q := 0.4 + weight ele * 0.5.


Definition lineWidth (selected : bool) (ele : EdgeData) : Q :=
  if selected then 4 else edgeWidth ele.

Inductive Tap :=
| TapNode (id : string)   (* a tap whose target is the node with this id *)
| TapCanvas               (* a tap whose target is the core *)
| ClickClose.

(** The two tap handlers; the state holds the selected snapshot record. *)
Definition tap (ns : list GraphNode) (ev : Tap) (prev : option GraphNode)
  : option GraphNode :=
  match ev with
  | TapNode i =>
      match find (fun n => String.eqb (Client.id n) i) ns with
      | Some nodeData => Some nodeData
      | None => prev
      end
  | TapCanvas => None
  | ClickClose => None
  end.

(** The 'line-color' and 'target-arrow-color' of the edge style. *)
Definition lineColor (ele : EdgeData) : Color :=
  if JS.gt (weight ele) 0.7 then Hex "#22d3ee"
  else if JS.gt (weight ele) 0.4 then Hex "#67e8f9"
  else Hex "#a5f3fc".

Definition targetArrowColor (ele : EdgeData) : Color :=
  if JS.gt (weight ele) 0.7 then Hex "#22d3ee"
  else if JS.gt (weight ele) 0.4 then Hex "#67e8f9"
  else Hex "#a5f3fc".

(** With the 'edge:selected' entry of the style list. *)
Definition lineFill (selected : bool) (ele : EdgeData) : Color :=
  if selected then Hex "#f472b6" else lineColor ele.

Definition arrowFill (selected : bool) (ele : EdgeData) : Color :=
  if selected then Hex "#f472b6" else targetArrowColor ele.

End NeoGraph.

(** ** The canvas renderer (NeuralGraph, react-force-graph-2d) *)

Module NeuralGraph.
Import Client.

Record ForceGraphLink := {
  source : string;
  target : string;
  weight : option Q;
  coFireCount : option Q
}.

Definition graphLink (e : GraphEdge) : ForceGraphLink :=
  {| source := Client.source e;
     target := Client.target e;
     weight := Some (Client.weight e);
     coFireCount := Some (Client.coFireCount e) |}.

Definition graphLinks (edges : list GraphEdge) : list ForceGraphLink :=
  map graphLink edges.

Definition nodeColor (node : GraphNode) : Color :=
  let energy := energy node ?? 0.5 in
  let depth := depth node ?? 0 in
  if Qeq_bool depth 0 then Rgb 34 (JS.floor (150 + energy * 105)) 85
  else if Qeq_bool depth 1 then Rgb 59 130 (JS.floor (150 + energy * 105))
  else Rgb (JS.floor (100 + energy * 55)) 80 200.

(** The alpha of [rgba(100, 200, 255, alpha)]. *)
Definition linkColor (link : ForceGraphLink) : Q :=
  0.3 + (weight link ?? 0.5) * 0.7.

Definition linkWidth (link : ForceGraphLink) : Q :=
  let base := 1 + (weight link ?? 0.5) * 3 in
  let boost := Qmin (coFireCount link ?? 0) 10 * 0.2 in
  base + boost.

(** The label drawn on the canvas: [node.content?.slice(0, 15) ?? '']. *)
Definition canvasLabel (node : GraphNode) : string :=
  JS.slice0 (content node) 15 ?? EmptyString.

(** "Node label": the first line of the tooltip. *)
Definition truncated (node : GraphNode) : string :=
  let content := Client.content node ?? EmptyString in
  if Nat.ltb 50 (String.length content)
  then (substring 0 50 content ++ "...")%string
  else content.

(** [nodeCanvasObject]: what is drawn for a node at zoom [globalScale]. *)
Definition fontSize (globalScale : Q) : Q := 10 / globalScale.
Definition nodeSize (node : GraphNode) : Q := Qmax 4 ((energy node ?? 0.5) * 12).
Definition hasGlow (node : GraphNode) : bool := JS.gt (energy node ?? 0) 0.8.
Definition borderWidth (globalScale : Q) : Q := 1 / globalScale.
Definition labelDrawn (globalScale : Q) : bool := JS.gt globalScale 0.8.

(** The vertical position of the label of a node drawn at [y]. *)
Definition labelY (node : GraphNode) (y globalScale : Q) : Q :=
  y + nodeSize node + fontSize globalScale.

End NeuralGraph.

(** ** The registry page (Users): filter result paging *)

Module Users.

Definition PAGE_SIZE : Z := 10.

(** [array.slice(start, end)] for integer arguments: a negative argument
    counts from the end, and both are clamped to the array. *)
Definition sliceIndex (len i : Z) : Z :=
  if (i <? 0)%Z then Z.max (len + i) 0 else Z.min i len.

Definition slice {A : Type} (l : list A) (first last : Z) : list A :=
  let len := Z.of_nat (List.length l) in
  let from := sliceIndex len first in
  let to := sliceIndex len last in
  firstn (Z.to_nat (Z.max (to - from) 0)) (skipn (Z.to_nat from) l).

(** [Math.max(1, Math.ceil(filtered.length / PAGE_SIZE))] *)
Definition totalPages {A : Type} (filtered : list A) : Z :=
  Z.max 1 (JS.ceil (inject_Z (Z.of_nat (List.length filtered)) / inject_Z PAGE_SIZE)).

(** [Math.min(page, totalPages - 1)] *)
Definition safePage {A : Type} (filtered : list A) (page : Z) : Z :=
  Z.min page (totalPages filtered - 1).

(** [filtered.slice(safePage * PAGE_SIZE, (safePage + 1) * PAGE_SIZE)] *)
Definition paged {A : Type} (filtered : list A) (page : Z) : list A :=
  let safe := safePage filtered page in
  slice filtered (safe * PAGE_SIZE) ((safe + 1) * PAGE_SIZE).

(** The two paging buttons: the page they set, and whether they are
    disabled. *)
Definition previous {A : Type} (filtered : list A) (page : Z) : Z :=
  Z.max 0 (safePage filtered page - 1).

Definition next {A : Type} (filtered : list A) (page : Z) : Z :=
  Z.min (totalPages filtered - 1) (safePage filtered page + 1).

Definition previousDisabled {A : Type} (filtered : list A) (page : Z) : bool :=
  (safePage filtered page =? 0)%Z.

Definition nextDisabled {A : Type} (filtered : list A) (page : Z) : bool :=
  (totalPages filtered - 1 <=? safePage filtered page)%Z.

(** The pager is shown when [totalPages > 1]. *)
Definition pagerShown {A : Type} (filtered : list A) : bool :=
  (1 <? totalPages filtered)%Z.

End Users.

(** ** Snapshots used as concrete inputs *)

Module Examples.
Import Client.

Definition neuron (i : string) (c : option string) (e d : Q)
  (pos : option (list Q)) : GraphNode :=
  {| id := i; content := c; energy := Some e; depth := Some d;
     accessCount := Some 0; position := pos |}.

Definition synapse (s t : string) (w c : Q) : GraphEdge :=
  {| source := s; target := t; weight := w; coFireCount := c |}.

Definition dims : BrainViz.Dimensions :=
  {| BrainViz.width := 800; BrainViz.height := 500 |}.

(** The single-edge scenario: a (energy 1) and b (energy 0), one synapse
    of weight 1 that fired 10 times. *)
Definition a : GraphNode := neuron "a" (Some "alpha"%string) 1 0 None.
Definition b : GraphNode := neuron "b" (Some "beta"%string) 0 0 None.
Definition ab : GraphEdge := synapse "a" "b" 1 10.

(** The dangling-edge scenario. *)
Definition dangling : GraphEdge := synapse "a" "missing" 1 10.

(** Nodes with a long content, without content and at position [0, 1, 2]. *)
Definition long : GraphNode :=
  neuron "long" (Some "abcdefghijklmnopqrstuvwxyz0123"%string) 1 0 None.
Definition blank : GraphNode := neuron "blank" None 1 0 None.

(** A node whose content has 72 characters. *)
Definition text : string :=
  "0123456789abcdefghijklmnopqrstuvwxyz0123456789abcdefghijklmnopqrstuvwxyz"%string.
Definition essay : GraphNode := neuron "essay" (Some text) 1 0 None.
Definition placed : GraphNode :=
  neuron "placed" (Some "placed"%string) 1 0 (Some [0; 1; 2]).

(** The same energy at consolidation depth 1. *)
Definition deep : GraphNode := neuron "deep" (Some "deep"%string) 1 1 None.

(** A weak synapse that fired often and a stronger one that never fired. *)
Definition weakBusy : GraphEdge := synapse "a" "b" 0 15.
Definition strongIdle : GraphEdge := synapse "a" "b" 0.5 0.

(** Synapses of weight 0.8 and 0.3. *)
Definition firm : GraphEdge := synapse "a" "b" 0.8 3.
Definition faint : GraphEdge := synapse "a" "b" 0.3 1.

(** The page after a was shown alone and dragged from (400, 250) to
    (410, 260), and the simulation while a drifts with velocity (3, 0). *)
Definition draggedNode : BrainViz.SimNode :=
  {| BrainViz.data := a; BrainViz.x := 410; BrainViz.y := 260;
     BrainViz.vx := Some 0; BrainViz.vy := Some 0;
     BrainViz.fx := None; BrainViz.fy := None |}.

Definition dragged : BrainViz.Page :=
  {| BrainViz.runs :=
       [{| BrainViz.nodes := [draggedNode]; BrainViz.links := [];
           BrainViz.alpha := 0.3; BrainViz.alphaTarget := 0;
           BrainViz.running := true |}];
     BrainViz.timers :=
       [{| BrainViz.delay := 1500; BrainViz.callback := BrainViz.zoomToFit 0 |}];
     BrainViz.ref := Some 0%nat;
     BrainViz.pendingCleanup := Some 0%nat |}.

Definition drifting : BrainViz.Simulation :=
  {| BrainViz.nodes :=
       [{| BrainViz.data := a; BrainViz.x := 400; BrainViz.y := 250;
           BrainViz.vx := Some 3; BrainViz.vy := Some 0;
           BrainViz.fx := None; BrainViz.fy := None |}];
     BrainViz.links := [];
     BrainViz.alpha := 0.3; BrainViz.alphaTarget := 0;
     BrainViz.running := true |}.

(** The single-edge scenario on screen. *)
Definition shown : BrainViz.Page :=
  BrainViz.mainEffect dims [a; b] [ab] BrainViz.emptyPage.

End Examples.

(** * Properties *)

(** ** Helper lemmas *)

Lemma substring_short (s : string) (n : nat) :
  (String.length s <= n)%nat -> substring 0 n s = s.
Proof.
  revert n; induction s as [|c s IH]; intros [|n] H; simpl in *;
    try reflexivity; try lia.
  f_equal; apply IH; lia.
Qed.

Lemma substring_length_min (s : string) (n : nat) :
  String.length (substring 0 n s) = Nat.min n (String.length s).
Proof.
  revert n; induction s as [|c s IH]; intros [|n]; simpl; try reflexivity.
  f_equal; apply IH.
Qed.

Lemma append_length (s t : string) :
  String.length (s ++ t) = (String.length s + String.length t)%nat.
Proof.
  induction s as [|c s IH]; simpl; [reflexivity | now rewrite IH].
Qed.

Lemma truthy_zero (v : Q) : v == 0 -> JS.truthy (Some v) = false.
Proof.
  intros H; unfold JS.truthy.
  apply Qeq_bool_iff in H; now rewrite H.
Qed.

Lemma truthy_nonzero (v : Q) : ~ v == 0 -> JS.truthy (Some v) = true.
Proof.
  intros H; unfold JS.truthy.
  destruct (Qeq_bool v 0) eqn:E; [|reflexivity].
  apply Qeq_bool_iff in E; contradiction.
Qed.

Lemma gt_iff (a b : Q) : JS.gt a b = true <-> b < a.
Proof.
  unfold JS.gt. rewrite negb_true_iff, <- not_true_iff_false, Qle_bool_iff.
  split; [apply Qnot_le_lt | apply Qlt_not_le].
Qed.


(** ** Labels (C9) *)

(** C9: in the SVG renderer every label is the first 20 characters of the
    content followed by "...", whatever the length of the content: a content
    of 20 characters or fewer is shown whole with the ellipsis appended, and
    an undefined content gives "undefined...".  The cytoscape renderer
    appends the ellipsis only when the content is longer than its 25
    characters. *)
Theorem label_unconditional_ellipsis (d : BrainViz.SimNode) (n : Client.GraphNode) :
  (forall c, Client.content (BrainViz.data d) = Some c ->
     BrainViz.label d = (substring 0 20 c ++ "...")%string /\
     String.length (BrainViz.label d) = (Nat.min 20 (String.length c) + 3)%nat /\
     ((String.length c <= 20)%nat -> BrainViz.label d = (c ++ "...")%string)) /\
  (Client.content (BrainViz.data d) = None ->
     BrainViz.label d = "undefined..."%string) /\
  (forall c, Client.content n = Some c ->
     ((String.length c <= 25)%nat -> NeoGraph.nodeLabel n = c) /\
     ((25 < String.length c)%nat ->
        NeoGraph.nodeLabel n = (substring 0 25 c ++ "...")%string)).
Proof.
  unfold BrainViz.label, NeoGraph.nodeLabel.
  split; [|split].
  - intros c ->; simpl. split; [reflexivity|]. split.
    + rewrite append_length, substring_length_min; reflexivity.
    + intros H; now rewrite substring_short.
  - intros ->; reflexivity.
  - intros c ->; simpl. split; intros H.
    + destruct (Nat.ltb_spec 25 (String.length c)); [lia|].
      rewrite substring_short by assumption.
      clear; induction c as [|a c IH]; simpl; [reflexivity | now rewrite IH].
    + destruct (Nat.ltb_spec 25 (String.length c)); [reflexivity | lia].
Qed.

(** ** Fixed coordinates of the 3D renderer (C10) *)

(** C10: in the 3D renderer every node of the graph data carries the
    snapshot record and a fixed coordinate per axis: a coordinate of the
    position that is absent or equal to 0 leaves its axis free (no fixed
    coordinate), and a non-zero coordinate fixes the axis at 100 times its
    value; a node at [0, 1, 2] is fixed on y and z and free on x. *)
Theorem zero_coordinate_left_free (n : Client.GraphNode) :
  NeuralGraph3D.data (NeuralGraph3D.graphNode n) = n /\
  ((JS.index (Client.position n) 0 = None ->
      NeuralGraph3D.fx (NeuralGraph3D.graphNode n) = None) /\
   (forall v, JS.index (Client.position n) 0 = Some v ->
      (v == 0 -> NeuralGraph3D.fx (NeuralGraph3D.graphNode n) = None) /\
      (~ v == 0 -> NeuralGraph3D.fx (NeuralGraph3D.graphNode n) = Some (v * 100)))) /\
  ((JS.index (Client.position n) 1 = None ->
      NeuralGraph3D.fy (NeuralGraph3D.graphNode n) = None) /\
   (forall v, JS.index (Client.position n) 1 = Some v ->
      (v == 0 -> NeuralGraph3D.fy (NeuralGraph3D.graphNode n) = None) /\
      (~ v == 0 -> NeuralGraph3D.fy (NeuralGraph3D.graphNode n) = Some (v * 100)))) /\
  ((JS.index (Client.position n) 2 = None ->
      NeuralGraph3D.fz (NeuralGraph3D.graphNode n) = None) /\
   (forall v, JS.index (Client.position n) 2 = Some v ->
      (v == 0 -> NeuralGraph3D.fz (NeuralGraph3D.graphNode n) = None) /\
      (~ v == 0 -> NeuralGraph3D.fz (NeuralGraph3D.graphNode n) = Some (v * 100)))) /\
  (Client.position n = Some [0; 1; 2] ->
     NeuralGraph3D.fx (NeuralGraph3D.graphNode n) = None /\
     NeuralGraph3D.fy (NeuralGraph3D.graphNode n) = Some (1 * 100) /\
     NeuralGraph3D.fz (NeuralGraph3D.graphNode n) = Some (2 * 100)) /\
  (forall (ns : list Client.GraphNode) (edges : list Client.GraphEdge) (k : nat),
     nth_error ns k = Some n ->
     nth_error (NeuralGraph3D.nodes (NeuralGraph3D.graphData ns edges)) k
     = Some (NeuralGraph3D.graphNode n)).
Proof.
  assert (A : forall i,
    (JS.index (Client.position n) i = None -> NeuralGraph3D.fixedAt n i = None) /\
    (forall v, JS.index (Client.position n) i = Some v ->
       (v == 0 -> NeuralGraph3D.fixedAt n i = None) /\
       (~ v == 0 -> NeuralGraph3D.fixedAt n i = Some (v * 100)))).
  { intros i; unfold NeuralGraph3D.fixedAt; split.
    - intros ->; reflexivity.
    - intros v ->; split; intros H.
      + now rewrite truthy_zero.
      + now rewrite truthy_nonzero. }
  split; [reflexivity|].
  split; [exact (A 0%nat)|]. split; [exact (A 1%nat)|]. split; [exact (A 2%nat)|].
  split.
  - unfold NeuralGraph3D.graphNode, NeuralGraph3D.fixedAt; simpl.
    intros ->; simpl; repeat split.
  - intros ns edges k H; unfold NeuralGraph3D.graphData; simpl.
    now rewrite nth_error_map, H.
Qed.

Lemma label_unconditional_ellipsis_witness :
  BrainViz.label (BrainViz.simNode Examples.dims Examples.a) = "alpha..."%string /\
  BrainViz.label (BrainViz.simNode Examples.dims Examples.blank) = "undefined..."%string /\
  NeoGraph.nodeLabel Examples.a = "alpha"%string /\
  NeoGraph.nodeLabel Examples.long = "abcdefghijklmnopqrstuvwxy..."%string.
Proof.
  pose proof (label_unconditional_ellipsis
                (BrainViz.simNode Examples.dims Examples.a) Examples.a) as [Ha [_ Hc]].
  pose proof (label_unconditional_ellipsis
                (BrainViz.simNode Examples.dims Examples.blank) Examples.long) as [_ [Hb Hl]].
  destruct (Ha "alpha"%string eq_refl) as [_ [_ H1]].
  destruct (Hc "alpha"%string eq_refl) as [H2 _].
  destruct (Hl "abcdefghijklmnopqrstuvwxyz0123"%string eq_refl) as [_ H3].
  split; [apply H1; simpl; lia|].
  split; [apply Hb; reflexivity|].
  split; [apply H2; simpl; lia|].
  apply H3; simpl; lia.
Defined.

Lemma zero_coordinate_left_free_witness :
  NeuralGraph3D.fx (NeuralGraph3D.graphNode Examples.placed) = None /\
  NeuralGraph3D.fy (NeuralGraph3D.graphNode Examples.placed) = Some (1 * 100) /\
  NeuralGraph3D.fz (NeuralGraph3D.graphNode Examples.placed) = Some (2 * 100) /\
  NeuralGraph3D.fz (NeuralGraph3D.graphNode Examples.a) = None /\
  nth_error (NeuralGraph3D.nodes
               (NeuralGraph3D.graphData [Examples.a; Examples.placed] [])) 1
  = Some (NeuralGraph3D.graphNode Examples.placed).
Proof.
  pose proof (zero_coordinate_left_free Examples.placed)
    as [_ [[_ Hx] [[_ Hy] [[_ Hz] [_ Hk]]]]].
  pose proof (zero_coordinate_left_free Examples.a) as [_ [_ [_ [[Ha _] _]]]].
  destruct (Hx 0 eq_refl) as [Hx0 _].
  destruct (Hy 1 eq_refl) as [_ Hy1].
  destruct (Hz 2 eq_refl) as [_ Hz2].
  split; [apply Hx0; reflexivity|].
  split; [apply Hy1; intros E; discriminate E|].
  split; [apply Hz2; intros E; discriminate E|].
  split; [apply Ha; reflexivity|].
  apply (Hk [Examples.a; Examples.placed] [] 1%nat); reflexivity.
Defined.

(** ** Dangling relations (C1) *)

Lemma joinLines_length (i : nat) (ls : list BrainViz.SimLink) :
  List.length (BrainViz.joinLines i ls) = List.length ls.
Proof.
  revert i; induction ls as [|d ls IH]; intros i; simpl;
    [reflexivity | now rewrite IH].
Qed.

Lemma found_rev {A : Type} (f : A -> bool) (l : list A) :
  match find f (rev l) with Some _ => true | None => false end
  = match find f l with Some _ => true | None => false end.
Proof.
  destruct (find f (rev l)) eqn:E1, (find f l) eqn:E2; try reflexivity.
  - apply find_some in E1; destruct E1 as [Hin Hf].
    apply in_rev in Hin.
    now rewrite (find_none _ _ E2 _ Hin) in Hf.
  - apply find_some in E2; destruct E2 as [Hin Hf].
    apply in_rev in Hin.
    now rewrite (find_none _ _ E1 _ Hin) in Hf.
Qed.

Lemma resolved_bothFound (ns : list BrainViz.SimNode) (e : Client.GraphEdge) :
  BrainViz.resolved ns (BrainViz.simLink e) = BrainViz.bothFound ns e.
Proof.
  unfold BrainViz.resolved, BrainViz.bothFound, BrainViz.nodeById, BrainViz.findNode.
  cbn [BrainViz.simLink BrainViz.source BrainViz.target].
  pose proof (found_rev (fun n => (Client.id (BrainViz.data n) =? Client.source e)%string) ns) as H1.
  pose proof (found_rev (fun n => (Client.id (BrainViz.data n) =? Client.target e)%string) ns) as H2.
  destruct (find _ (rev ns)), (find _ ns); try discriminate H1;
    destruct (find _ (rev ns)), (find _ ns); try discriminate H2; reflexivity.
Qed.

Lemma resolves_bothFound (ns : list BrainViz.SimNode) (edges : list Client.GraphEdge) :
  BrainViz.resolves ns (BrainViz.simLinks edges) = forallb (BrainViz.bothFound ns) edges.
Proof.
  unfold BrainViz.resolves, BrainViz.simLinks.
  induction edges as [|e edges IH]; simpl; [reflexivity|].
  now rewrite resolved_bothFound, IH.
Qed.

(** The lines on screen are all or nothing: one per relation when both end
    points of every relation are in the node set, and none otherwise. *)
Lemma lines_all_or_nothing (dims : BrainViz.Dimensions) (n : Client.GraphNode)
  (ns : list Client.GraphNode) (edges : list Client.GraphEdge) :
  List.length (BrainViz.renderedLines dims (n :: ns) edges)
  = if forallb (BrainViz.bothFound (BrainViz.simNodes dims (n :: ns))) edges
    then List.length edges else 0%nat.
Proof.
  unfold BrainViz.renderedLines.
  rewrite resolves_bothFound.
  destruct (forallb _ edges); [|reflexivity].
  unfold BrainViz.link, BrainViz.simLinks.
  now rewrite joinLines_length, length_map.
Qed.

(** C1 on the code: no component filters the relations of a snapshot by
    their end points.  With the nodes a and b, the relation from a to b and
    the relation from a to the absent id "missing", one relation has both
    end points in the node set; the SVG renderer hands both relations to the
    link force, which does not find "missing" and raises an error, so the
    main effect ends before any line is joined: no line is on screen (not
    one), the badge counts 2 synapses, no timer is set, [simulationRef] is
    not assigned, and the simulation that was started has no cleanup, so it
    still runs after the unmount.  The only test for end points in the
    component, the one of the gradient update in the tick handler, would
    skip the dangling relation, but that handler is registered later in the
    effect.  The 3D, canvas and cytoscape renderers hand both relations to
    their libraries as well. *)
Theorem dangling_relation_aborts_effect :
  List.length
    (filter (BrainViz.bothFound
               (BrainViz.simNodes Examples.dims [Examples.a; Examples.b]))
            [Examples.ab; Examples.dangling]) = 1%nat /\
  BrainViz.simLinks [Examples.ab; Examples.dangling]
    = [BrainViz.simLink Examples.ab; BrainViz.simLink Examples.dangling] /\
  BrainViz.resolves (BrainViz.simNodes Examples.dims [Examples.a; Examples.b])
    (BrainViz.simLinks [Examples.ab; Examples.dangling]) = false /\
  BrainViz.renderedLines Examples.dims [Examples.a; Examples.b]
    [Examples.ab; Examples.dangling] = [] /\
  List.length (BrainViz.renderedLines Examples.dims [Examples.a; Examples.b]
                 [Examples.ab]) = 1%nat /\
  BrainViz.synapseCount [Examples.ab; Examples.dangling] = 2%nat /\
  (let page := BrainViz.mainEffect Examples.dims [Examples.a; Examples.b]
                 [Examples.ab; Examples.dangling] BrainViz.emptyPage in
   BrainViz.timers page = [] /\
   BrainViz.simulationRef page = None /\
   BrainViz.pendingCleanup page = None /\
   map BrainViz.running (BrainViz.runs page) = [true] /\
   map BrainViz.links (BrainViz.runs page) = [[]] /\
   map BrainViz.running (BrainViz.runs (BrainViz.unmount page)) = [true]) /\
  BrainViz.gradientUpdates
    (BrainViz.simNodes Examples.dims [Examples.a; Examples.b])
    [Examples.ab; Examples.dangling] = [Examples.ab] /\
  map NeuralGraph.target (NeuralGraph.graphLinks [Examples.ab; Examples.dangling])
    = ["b"%string; "missing"%string] /\
  map NeuralGraph3D.target
    (NeuralGraph3D.links
       (NeuralGraph3D.graphData [Examples.a; Examples.b]
          [Examples.ab; Examples.dangling])) = ["b"%string; "missing"%string] /\
  map NeoGraph.target
    (snd (NeoGraph.elements [Examples.a; Examples.b]
            [Examples.ab; Examples.dangling])) = ["b"%string; "missing"%string].
Proof.
  split; [reflexivity|]. split; [reflexivity|]. split; [reflexivity|].
  split.
  { pose proof (lines_all_or_nothing Examples.dims Examples.a [Examples.b]
                  [Examples.ab; Examples.dangling]) as H.
    destruct (BrainViz.renderedLines _ _ _); [reflexivity | discriminate H]. }
  split; [reflexivity|]. split; [reflexivity|].
  split; [cbv zeta; repeat split|].
  split; [reflexivity|]. split; [reflexivity|].
  split; reflexivity.
Qed.

(** ** Particles per edge (C3) *)

Lemma half_nonneg (c : Q) : 0 <= c -> 0 <= c / 2.
Proof. intros H; apply Qle_shift_div_l; lra. Qed.

Lemma particleTimers_length (run i : nat) (d : BrainViz.SimLink) :
  List.length (BrainViz.particleTimers run i d) = Z.to_nat (BrainViz.numParticles d).
Proof.
  unfold BrainViz.particleTimers; now rewrite length_map, length_seq.
Qed.

(** C3, as stated, fails: an edge with coFireCount = 10 gets 4 particles in
    the 3D renderer, not min(ceil(10 / 2), 5) = 5. *)
Lemma particles_3d_counterexample :
  NeuralGraph3D.getLinkParticles (NeuralGraph3D.graphLink Examples.ab) = 4%Z /\
  NeuralGraph3D.getLinkParticles (NeuralGraph3D.graphLink Examples.ab)
    <> Z.min (JS.ceil (Client.coFireCount Examples.ab / 2)) 5.
Proof.
  split; [reflexivity | intros H; discriminate H].
Qed.

(** C3 (amended): in the SVG renderer the particle count of an edge is
    min(ceil(coFireCount / 2), 5), and that many particles are scheduled on
    it when coFireCount is not negative (5 for coFireCount = 10); in the 3D
    renderer it is min(floor(coFireCount / 3) + 1, 5) (4 for
    coFireCount = 10). *)
Theorem particle_counts (run i : nat) (e : Client.GraphEdge) :
  BrainViz.numParticles (BrainViz.simLink e)
    = Z.min (Qceiling (Client.coFireCount e / 2)) 5 /\
  (0 <= Client.coFireCount e ->
     Z.of_nat (List.length (BrainViz.particleTimers run i (BrainViz.simLink e)))
       = Z.min (Qceiling (Client.coFireCount e / 2)) 5) /\
  (Client.coFireCount e == 10 ->
     List.length (BrainViz.particleTimers run i (BrainViz.simLink e)) = 5%nat) /\
  NeuralGraph3D.getLinkParticles (NeuralGraph3D.graphLink e)
    = Z.min (Qfloor (Client.coFireCount e / 3) + 1) 5 /\
  (Client.coFireCount e == 10 ->
     NeuralGraph3D.getLinkParticles (NeuralGraph3D.graphLink e) = 4%Z).
Proof.
  split; [reflexivity|].
  split.
  { intros H; rewrite particleTimers_length.
    unfold BrainViz.numParticles, JS.ceil; simpl.
    apply half_nonneg, Qceiling_resp_le in H.
    change (Qceiling 0) with 0%Z in H. lia. }
  split.
  { intros H; rewrite particleTimers_length.
    unfold BrainViz.numParticles, JS.ceil; simpl.
    rewrite (Qceiling_comp _ (10 / 2)) by now rewrite H.
    reflexivity. }
  split; [reflexivity|].
  intros H; unfold NeuralGraph3D.getLinkParticles, JS.floor.
  cbn [NeuralGraph3D.graphLink NeuralGraph3D.coFireCount JS.nullish].
  rewrite (Qfloor_comp _ (10 / 3)) by now rewrite H.
  reflexivity.
Qed.

Lemma particle_counts_witness :
  Z.of_nat (List.length (BrainViz.particleTimers 0 0 (BrainViz.simLink Examples.ab))) = 5%Z /\
  List.length (BrainViz.particleTimers 0 0 (BrainViz.simLink Examples.ab)) = 5%nat /\
  NeuralGraph3D.getLinkParticles (NeuralGraph3D.graphLink Examples.ab) = 4%Z.
Proof.
  destruct (particle_counts 0 0 Examples.ab) as [_ [H1 [H2 [_ H3]]]].
  split; [apply H1; unfold Qle; simpl; lia|].
  split; [apply H2; reflexivity | apply H3; reflexivity].
Defined.

(** ** Stroke width and opacity against weight (C5) *)

(** C5, as stated, fails: in the 3D and canvas renderers a synapse of
    weight 0 that fired 15 times is drawn wider than one of weight 0.5 that
    never fired. *)
Lemma width_not_monotone_counterexample :
  Client.weight Examples.weakBusy < Client.weight Examples.strongIdle /\
  ~ NeuralGraph3D.getLinkWidth (NeuralGraph3D.graphLink Examples.weakBusy)
      <= NeuralGraph3D.getLinkWidth (NeuralGraph3D.graphLink Examples.strongIdle) /\
  ~ NeuralGraph.linkWidth (NeuralGraph.graphLink Examples.weakBusy)
      <= NeuralGraph.linkWidth (NeuralGraph.graphLink Examples.strongIdle).
Proof.
  split; [reflexivity|].
  split; intros H; apply Qle_bool_iff in H; discriminate H.
Qed.

(** C5 (amended): for edges e1, e2 with weight(e1) < weight(e2), the SVG
    renderer gives e1 a stroke width and an opacity that are at most those
    of e2, and so does the cytoscape renderer for two edges in the same
    selection state (a selected edge has the fixed width 4); in the 3D and
    canvas renderers the colour alpha of e1 is at most that of e2 (the 3D
    linkOpacity is the constant 0.8), and the width of e1 is at most that of
    e2 when moreover coFireCount(e1) <= coFireCount(e2). *)
Theorem stroke_monotone (e1 e2 : Client.GraphEdge) (i j : nat)
  (Hw : Client.weight e1 < Client.weight e2) :
  (BrainViz.strokeWidth (BrainViz.simLink e1) <= BrainViz.strokeWidth (BrainViz.simLink e2) /\
   BrainViz.strokeOpacity (BrainViz.simLink e1) <= BrainViz.strokeOpacity (BrainViz.simLink e2)) /\
  ((forall selected : bool,
      NeoGraph.lineWidth selected (NeoGraph.edgeElement i e1)
        <= NeoGraph.lineWidth selected (NeoGraph.edgeElement j e2)) /\
   NeoGraph.edgeOpacity (NeoGraph.edgeElement i e1)
     <= NeoGraph.edgeOpacity (NeoGraph.edgeElement j e2)) /\
  (snd (NeuralGraph3D.getLinkColor (NeuralGraph3D.graphLink e1))
     <= snd (NeuralGraph3D.getLinkColor (NeuralGraph3D.graphLink e2)) /\
   NeuralGraph.linkColor (NeuralGraph.graphLink e1)
     <= NeuralGraph.linkColor (NeuralGraph.graphLink e2)) /\
  (Client.coFireCount e1 <= Client.coFireCount e2 ->
     NeuralGraph3D.getLinkWidth (NeuralGraph3D.graphLink e1)
       <= NeuralGraph3D.getLinkWidth (NeuralGraph3D.graphLink e2) /\
     NeuralGraph.linkWidth (NeuralGraph.graphLink e1)
       <= NeuralGraph.linkWidth (NeuralGraph.graphLink e2)).
Proof.
  unfold BrainViz.strokeWidth, BrainViz.strokeOpacity, NeuralGraph3D.getLinkColor,
    NeuralGraph.linkColor, NeuralGraph3D.getLinkWidth, NeuralGraph.linkWidth; simpl.
  split; [split; lra|].
  split.
  { unfold NeoGraph.lineWidth, NeoGraph.edgeWidth, NeoGraph.edgeOpacity; simpl.
    split; [intros [|]|]; lra. }
  split; [split; lra|].
  intros Hc.
  pose proof (Q.min_le_compat_r _ _ 15 Hc).
  pose proof (Q.min_le_compat_r _ _ 10 Hc).
  split; lra.
Qed.

Lemma stroke_monotone_witness :
  Client.weight Examples.strongIdle < Client.weight Examples.ab /\
  BrainViz.strokeWidth (BrainViz.simLink Examples.strongIdle)
    <= BrainViz.strokeWidth (BrainViz.simLink Examples.ab) /\
  NeuralGraph3D.getLinkWidth (NeuralGraph3D.graphLink Examples.strongIdle)
    <= NeuralGraph3D.getLinkWidth (NeuralGraph3D.graphLink Examples.ab).
Proof.
  assert (Hw : Client.weight Examples.strongIdle < Client.weight Examples.ab)
    by reflexivity.
  destruct (stroke_monotone Examples.strongIdle Examples.ab 0 1 Hw)
    as [[H1 _] [_ [_ H2]]].
  split; [exact Hw|].
  split; [exact H1|].
  apply H2; unfold Qle; simpl; lia.
Defined.

(** ** Selection (C6) *)

(** C6, as stated, fails: in the SVG renderer a click on the empty canvas
    leaves the selection as it is, and in the cytoscape renderer a tap on the
    selected node leaves it selected. *)
Lemma selection_counterexample :
  BrainViz.click BrainViz.ClickCanvas (Some "a"%string) = Some "a"%string /\
  BrainViz.click BrainViz.ClickCanvas (Some "a"%string) <> None /\
  NeoGraph.tap [Examples.a; Examples.b] (NeoGraph.TapNode "a") (Some Examples.a)
    = Some Examples.a /\
  NeoGraph.tap [Examples.a; Examples.b] (NeoGraph.TapNode "a") (Some Examples.a)
    <> None.
Proof.
  repeat split; try reflexivity; intros H; discriminate H.
Qed.

Lemma sameSelection_iff (s1 s2 : option string) :
  BrainViz.sameSelection s1 s2 = true <-> s1 = s2.
Proof.
  destruct s1 as [u|], s2 as [v|]; simpl; try (split; intros H; discriminate H).
  - rewrite String.eqb_eq; split; [now intros -> | now intros [= ->]].
  - split; reflexivity.
Qed.

(** Every circle on screen carries either the stroke the styling effect
    computes for the current selection or the white stroke it was created
    with. *)
Local Abbreviation styled v :=
  (forall c, In c (BrainViz.circles v) ->
     (BrainViz.stroke_colour c, BrainViz.stroke_wide c)
       = BrainViz.stroke (BrainViz.selectedNode v) (BrainViz.datum c) \/
     (BrainViz.stroke_colour c, BrainViz.stroke_wide c) = ("#fff"%string, 2%Z)).

Lemma renderedCircles_white (dims : BrainViz.Dimensions) (ns : list Client.GraphNode)
  (edges : list Client.GraphEdge) (c : BrainViz.Stroked) :
  In c (BrainViz.renderedCircles dims ns edges) ->
  BrainViz.stroke_colour c = "#fff"%string /\ BrainViz.stroke_wide c = 2%Z.
Proof.
  unfold BrainViz.renderedCircles.
  destruct ns as [|n ns]; [intros []|].
  destruct (BrainViz.resolves _ _); [|intros []].
  intros H; apply in_map_iff in H; destruct H as [d [<- _]]; split; reflexivity.
Qed.

Lemma styleCircles_stroke (sel : option string) (cs : list BrainViz.Stroked)
  (c : BrainViz.Stroked) :
  In c (BrainViz.styleCircles sel cs) ->
  (BrainViz.stroke_colour c, BrainViz.stroke_wide c)
    = BrainViz.stroke sel (BrainViz.datum c).
Proof.
  unfold BrainViz.styleCircles; intros H.
  apply in_map_iff in H; destruct H as [c0 [<- _]]; simpl.
  now destruct (BrainViz.stroke sel (BrainViz.datum c0)).
Qed.

Lemma viewStep_styled (v : BrainViz.View) (e : BrainViz.ViewEvent) :
  styled v -> styled (BrainViz.viewStep v e).
Proof.
  intros I c; destruct e as [dims ns edges|k]; cbn [BrainViz.viewStep
    BrainViz.circles BrainViz.selectedNode].
  - intros H; right.
    destruct (renderedCircles_white dims ns edges c H) as [-> ->]; reflexivity.
  - destruct (BrainViz.sameSelection _ _) eqn:E.
    + apply sameSelection_iff in E; rewrite E; apply I.
    + intros H; left; exact (styleCircles_stroke _ _ _ H).
Qed.

Lemma fold_styled (evs : list BrainViz.ViewEvent) (v : BrainViz.View) :
  styled v -> styled (fold_left BrainViz.viewStep evs v).
Proof.
  revert v; induction evs as [|e evs IH]; intros v I; simpl; [exact I|].
  apply IH, viewStep_styled, I.
Qed.

Lemma stroke_green (sel : option string) (d : BrainViz.SimNode) :
  (fst (BrainViz.stroke sel d) = "#22c55e"%string <->
     sel = Some (Client.id (BrainViz.data d))) /\
  (snd (BrainViz.stroke sel d) = 4%Z <->
     sel = Some (Client.id (BrainViz.data d))).
Proof.
  unfold BrainViz.stroke.
  destruct (JS.strictEq sel (Client.id (BrainViz.data d))) eqn:E; simpl.
  - assert (H : sel = Some (Client.id (BrainViz.data d))).
    { destruct sel as [v|]; simpl in E; [|discriminate E].
      apply String.eqb_eq in E; now subst. }
    split; (split; [intros _; exact H | reflexivity]).
  - split; (split; [intros H; discriminate H|]);
      intros ->; simpl in E; rewrite String.eqb_refl in E; discriminate E.
Qed.

(** C6 (amended): the selection holds at most one entity, and a click on
    an entity other than the selected one selects exactly that entity, in
    every renderer that has a selection.  In the SVG and 3D renderers a click
    on the selected entity deselects it and a click on the empty canvas
    leaves the selection unchanged (the close button clears it); in the
    cytoscape renderer a tap on the empty canvas deselects and a tap on an
    entity of the snapshot selects it, also when it is the selected one.  On
    screen, in the SVG renderer, whatever snapshots and clicks follow the
    first render, a circle with the selected stroke (green, width 4) always
    is a circle of the selected entity; right after a click that changes the
    selection the circles with the selected stroke are exactly those of the
    selected entity; and right after a new snapshot every circle has the
    white stroke of width 2, the circle of a selected entity included. *)
Theorem selection_single_toggle (d : string) (prev : option string)
  (st : NeuralGraph3D.State) (ns : list Client.GraphNode)
  (sel : option Client.GraphNode)
  (dims0 : BrainViz.Dimensions) (ns0 : list Client.GraphNode)
  (edges0 : list Client.GraphEdge) (evs : list BrainViz.ViewEvent) :
  (BrainViz.click (BrainViz.ClickNode d) (Some d) = None /\
   (prev <> Some d -> BrainViz.click (BrainViz.ClickNode d) prev = Some d) /\
   BrainViz.click BrainViz.ClickCanvas prev = prev /\
   BrainViz.click BrainViz.ClickClose prev = None) /\
  ((forall c, In c (BrainViz.circles
                      (fold_left BrainViz.viewStep evs
                         (BrainViz.mountView dims0 ns0 edges0))) ->
      (BrainViz.stroke_colour c = "#22c55e"%string \/ BrainViz.stroke_wide c = 4%Z) ->
      BrainViz.selectedNode
        (fold_left BrainViz.viewStep evs (BrainViz.mountView dims0 ns0 edges0))
      = Some (Client.id (BrainViz.data (BrainViz.datum c)))) /\
   (forall (k : BrainViz.Click) (c : BrainViz.Stroked),
      BrainViz.selectedNode
        (fold_left BrainViz.viewStep (evs ++ [BrainViz.Clicked k])
           (BrainViz.mountView dims0 ns0 edges0))
      <> BrainViz.selectedNode
           (fold_left BrainViz.viewStep evs (BrainViz.mountView dims0 ns0 edges0)) ->
      In c (BrainViz.circles
              (fold_left BrainViz.viewStep (evs ++ [BrainViz.Clicked k])
                 (BrainViz.mountView dims0 ns0 edges0))) ->
      (BrainViz.stroke_colour c = "#22c55e"%string <->
         BrainViz.selectedNode
           (fold_left BrainViz.viewStep (evs ++ [BrainViz.Clicked k])
              (BrainViz.mountView dims0 ns0 edges0))
         = Some (Client.id (BrainViz.data (BrainViz.datum c)))) /\
      (BrainViz.stroke_wide c = 4%Z <->
         BrainViz.selectedNode
           (fold_left BrainViz.viewStep (evs ++ [BrainViz.Clicked k])
              (BrainViz.mountView dims0 ns0 edges0))
         = Some (Client.id (BrainViz.data (BrainViz.datum c))))) /\
   (forall (dims : BrainViz.Dimensions) (ms : list Client.GraphNode)
           (edges : list Client.GraphEdge) (c : BrainViz.Stroked),
      In c (BrainViz.circles
              (fold_left BrainViz.viewStep (evs ++ [BrainViz.Snapshot dims ms edges])
                 (BrainViz.mountView dims0 ns0 edges0))) ->
      BrainViz.stroke_colour c = "#fff"%string /\ BrainViz.stroke_wide c = 2%Z)) /\
  ((NeuralGraph3D.selectedNode st = Some d ->
      NeuralGraph3D.selectedNode (NeuralGraph3D.click (NeuralGraph3D.ClickNode d) st) = None) /\
   (NeuralGraph3D.selectedNode st <> Some d ->
      NeuralGraph3D.selectedNode (NeuralGraph3D.click (NeuralGraph3D.ClickNode d) st) = Some d) /\
   NeuralGraph3D.click NeuralGraph3D.ClickCanvas st = st /\
   NeuralGraph3D.selectedNode (NeuralGraph3D.click NeuralGraph3D.ClickClose st) = None) /\
  ((forall n, find (fun n => String.eqb (Client.id n) d) ns = Some n ->
      NeoGraph.tap ns (NeoGraph.TapNode d) sel = Some n /\ Client.id n = d) /\
   NeoGraph.tap ns NeoGraph.TapCanvas sel = None /\
   NeoGraph.tap ns NeoGraph.ClickClose sel = None).
Proof.
  assert (Hst : forall p, JS.strictEq p d = true <-> p = Some d).
  { intros [v|]; simpl; [|split; intros H; discriminate H].
    rewrite String.eqb_eq; split; [now intros -> | now intros [= ->]]. }
  split; [|split; [|split]].
  - simpl; rewrite String.eqb_refl.
    split; [reflexivity|].
    split.
    { intros H; destruct (JS.strictEq prev d) eqn:E; [|reflexivity].
      apply Hst in E; contradiction. }
    split; reflexivity.
  - assert (I : styled (fold_left BrainViz.viewStep evs
                          (BrainViz.mountView dims0 ns0 edges0))).
    { apply fold_styled; intros c H; left.
      exact (styleCircles_stroke _ _ _ H). }
    set (v := fold_left BrainViz.viewStep evs (BrainViz.mountView dims0 ns0 edges0)) in *.
    split; [|split].
    + intros c Hin Hg.
      destruct (I c Hin) as [E|E];
        pose proof (f_equal fst E) as E1; pose proof (f_equal snd E) as E2;
        cbn [fst snd] in E1, E2.
      * destruct Hg as [Hg|Hg].
        -- apply (proj1 (proj1 (stroke_green (BrainViz.selectedNode v)
                                     (BrainViz.datum c)))).
           now rewrite <- E1.
        -- apply (proj1 (proj2 (stroke_green (BrainViz.selectedNode v)
                                     (BrainViz.datum c)))).
           now rewrite <- E2.
      * destruct Hg as [Hg|Hg]; [rewrite E1 in Hg | rewrite E2 in Hg];
          discriminate Hg.
    + intros k c; rewrite fold_left_app; fold v.
      cbn [fold_left BrainViz.viewStep BrainViz.selectedNode BrainViz.circles].
      intros Hne.
      destruct (BrainViz.sameSelection _ _) eqn:E;
        [apply sameSelection_iff in E; contradiction|].
      intros Hin; apply styleCircles_stroke in Hin.
      pose proof (f_equal fst Hin) as E1; pose proof (f_equal snd Hin) as E2;
        cbn [fst snd] in E1, E2.
      rewrite E1, E2; apply stroke_green.
    + intros dims ms edges c; rewrite fold_left_app; fold v.
      cbn [fold_left BrainViz.viewStep BrainViz.circles].
      apply renderedCircles_white.
  - simpl. split.
    { intros H; apply Hst in H; now rewrite H. }
    split.
    { intros H; destruct (JS.strictEq (NeuralGraph3D.selectedNode st) d) eqn:E;
        [apply Hst in E; contradiction | reflexivity]. }
    split; reflexivity.
  - split; [|split; reflexivity].
    intros n H; simpl; rewrite H; split; [reflexivity|].
    apply find_some in H; destruct H as [_ H]; now apply String.eqb_eq in H.
Qed.

Lemma selection_single_toggle_witness :
  BrainViz.click (BrainViz.ClickNode "b") (Some "a"%string) = Some "b"%string /\
  NeuralGraph3D.selectedNode
    (NeuralGraph3D.click (NeuralGraph3D.ClickNode "b")
       {| NeuralGraph3D.selectedNode := Some "b"%string;
          NeuralGraph3D.autoRotate := true |}) = None /\
  NeuralGraph3D.selectedNode
    (NeuralGraph3D.click (NeuralGraph3D.ClickNode "b")
       {| NeuralGraph3D.selectedNode := Some "a"%string;
          NeuralGraph3D.autoRotate := true |}) = Some "b"%string /\
  NeoGraph.tap [Examples.a; Examples.b] (NeoGraph.TapNode "b") (Some Examples.a)
    = Some Examples.b /\
  BrainViz.selectedNode
    (fold_left BrainViz.viewStep [BrainViz.Clicked (BrainViz.ClickNode "b")]
       (BrainViz.mountView Examples.dims [Examples.a; Examples.b] [Examples.ab]))
    = Some "b"%string /\
  map BrainViz.stroke_colour
    (BrainViz.circles
       (fold_left BrainViz.viewStep
          [BrainViz.Clicked (BrainViz.ClickNode "b");
           BrainViz.Snapshot Examples.dims [Examples.a; Examples.b] []]
          (BrainViz.mountView Examples.dims [Examples.a; Examples.b] [Examples.ab])))
    = ["#fff"%string; "#fff"%string].
Proof.
  pose proof (selection_single_toggle "b" (Some "a"%string)
    {| NeuralGraph3D.selectedNode := Some "b"%string; NeuralGraph3D.autoRotate := true |}
    [Examples.a; Examples.b] (Some Examples.a)
    Examples.dims [Examples.a; Examples.b] [Examples.ab]
    [BrainViz.Clicked (BrainViz.ClickNode "b")])
    as [[_ [H1 _]] [[H5 [_ H6]] [[H2 _] [H4 _]]]].
  pose proof (selection_single_toggle "b" (Some "a"%string)
    {| NeuralGraph3D.selectedNode := Some "a"%string; NeuralGraph3D.autoRotate := true |}
    [Examples.a; Examples.b] (Some Examples.a)
    Examples.dims [Examples.a; Examples.b] [Examples.ab] [])
    as [_ [_ [[_ [H3 _]] _]]].
  split; [apply H1; intros H; discriminate H|].
  split; [apply H2; reflexivity|].
  split; [apply H3; intros H; discriminate H|].
  split; [apply (H4 Examples.b); reflexivity|].
  split.
  - apply (H5 {| BrainViz.datum :=
                   BrainViz.initializeNode (BrainViz.simNode Examples.dims Examples.b);
                 BrainViz.stroke_colour := "#22c55e";
                 BrainViz.stroke_wide := 4 |});
      [right; left; reflexivity | left; reflexivity].
  - clear H5.
    pose proof (H6 Examples.dims [Examples.a; Examples.b] []) as H.
    cbn [app] in H; clear H6.
    set (cs := BrainViz.circles _) in *.
    assert (E : List.length cs = 2%nat) by reflexivity.
    destruct cs as [|c1 [|c2 [|c3 cs]]]; try discriminate E.
    cbn [map].
    destruct (H c1 (or_introl eq_refl)) as [-> _].
    destruct (H c2 (or_intror (or_introl eq_refl))) as [-> _].
    reflexivity.
Defined.

(** ** Node fill colour (C7) *)









(** ** Snapshots and simulation state (C2) *)

Lemma simulationRef_rerender (dims : BrainViz.Dimensions) (n : Client.GraphNode)
  (ns : list Client.GraphNode) (edges : list Client.GraphEdge) (page : BrainViz.Page) :
  BrainViz.resolves (BrainViz.simNodes dims (n :: ns)) (BrainViz.simLinks edges) = true ->
  BrainViz.simulationRef (BrainViz.rerender dims (n :: ns) edges page)
  = Some (BrainViz.forceSimulation (BrainViz.simNodes dims (n :: ns))
            (BrainViz.simLinks edges)).
Proof.
  intros H; unfold BrainViz.simulationRef, BrainViz.rerender, BrainViz.mainEffect.
  rewrite H; cbn [BrainViz.runs BrainViz.ref].
  rewrite nth_error_app2, Nat.sub_diag by apply Nat.le_refl; reflexivity.
Qed.

(** A drag of the only node to (410, 260) with one tick of the simulation
    leaves that node at (410, 260), whatever the forces are. *)
Lemma drag_reaches_dragged (alphaDecay velocityDecay : Q)
  (force : Q -> list BrainViz.SimNode -> BrainViz.SimNode -> BrainViz.Push) :
  BrainViz.nodes
    (BrainViz.gesture alphaDecay velocityDecay force 0 0 0
       [BrainViz.Move 410 260; BrainViz.Tick]
       (BrainViz.forceSimulation (BrainViz.simNodes Examples.dims [Examples.a]) []))
  = [Examples.draggedNode].
Proof. reflexivity. Qed.

(** C2, as stated, fails: a was dragged to (410, 260); the next snapshot
    still contains a (and adds b), and applying it puts a back at its
    initial position (400, 250). *)
Lemma resupply_resets_position_counterexample :
  exists d d' s s',
    BrainViz.simulationRef Examples.dragged = Some s /\
    BrainViz.findNode (BrainViz.nodes s) "a" = Some d /\
    BrainViz.simulationRef
      (BrainViz.rerender Examples.dims [Examples.a; Examples.b] [] Examples.dragged)
      = Some s' /\
    BrainViz.findNode (BrainViz.nodes s') "a" = Some d' /\
    BrainViz.x d == 410 /\ BrainViz.y d == 260 /\
    BrainViz.x d' == 400 /\ BrainViz.y d' == 250 /\
    ~ BrainViz.x d' == BrainViz.x d.
Proof.
  do 4 eexists.
  split; [reflexivity|]. split; [reflexivity|].
  split; [reflexivity|]. split; [reflexivity|].
  repeat split; try reflexivity.
  intros H; apply Qeq_bool_iff in H; discriminate H.
Qed.

(** C2 (amended): applying a non-empty snapshot whose relations all name
    nodes of the snapshot builds a new, running simulation from the snapshot
    alone, whatever the state of the page was: every entity, retained or new,
    is placed at (width / 2 + 200 * p0, height / 2 + 200 * p1), where p0 and
    p1 are the coordinates of its position hint (0 when absent), with zero
    velocity and no fixed coordinate; the simulation state of the previous
    snapshot is not carried over. *)
Theorem snapshot_rebuilds_simulation (dims : BrainViz.Dimensions)
  (n : Client.GraphNode) (ns : list Client.GraphNode)
  (edges : list Client.GraphEdge) (page : BrainViz.Page)
  (Hres : BrainViz.resolves (BrainViz.simNodes dims (n :: ns))
            (BrainViz.simLinks edges) = true) :
  (exists s,
     BrainViz.simulationRef (BrainViz.rerender dims (n :: ns) edges page) = Some s /\
     BrainViz.nodes s
       = map (fun m => BrainViz.initializeNode (BrainViz.simNode dims m)) (n :: ns) /\
     BrainViz.links s = BrainViz.simLinks edges /\
     BrainViz.running s = true /\
     BrainViz.alpha s = 1) /\
  (forall page',
     BrainViz.simulationRef (BrainViz.rerender dims (n :: ns) edges page)
     = BrainViz.simulationRef (BrainViz.rerender dims (n :: ns) edges page')) /\
  (forall m : Client.GraphNode,
     let d := BrainViz.initializeNode (BrainViz.simNode dims m) in
     BrainViz.data d = m /\
     BrainViz.x d == BrainViz.width dims / 2 + 200 * (JS.index (Client.position m) 0 ?? 0) /\
     BrainViz.y d == BrainViz.height dims / 2 + 200 * (JS.index (Client.position m) 1 ?? 0) /\
     BrainViz.vx d = Some 0 /\ BrainViz.vy d = Some 0 /\
     BrainViz.fx d = None /\ BrainViz.fy d = None).
Proof.
  split; [|split].
  - eexists; split; [apply simulationRef_rerender, Hres|].
    split; [|repeat split].
    unfold BrainViz.forceSimulation, BrainViz.simNodes; cbn [BrainViz.nodes].
    now rewrite map_map.
  - intros page'; now rewrite !simulationRef_rerender.
  - intros m; cbv zeta; unfold BrainViz.initializeNode, BrainViz.simNode;
      cbn [BrainViz.data BrainViz.x BrainViz.y BrainViz.vx BrainViz.vy
           BrainViz.fx BrainViz.fy JS.nullish].
    repeat split; ring.
Qed.

Lemma snapshot_rebuilds_simulation_witness :
  exists s,
    BrainViz.simulationRef
      (BrainViz.rerender Examples.dims [Examples.a; Examples.b] [Examples.ab]
         Examples.dragged) = Some s /\
    BrainViz.nodes s
      = [BrainViz.initializeNode (BrainViz.simNode Examples.dims Examples.a);
         BrainViz.initializeNode (BrainViz.simNode Examples.dims Examples.b)] /\
    BrainViz.running s = true.
Proof.
  destruct (snapshot_rebuilds_simulation Examples.dims Examples.a [Examples.b]
              [Examples.ab] Examples.dragged eq_refl)
    as [[s [H1 [H2 [_ [H3 _]]]]] _].
  exists s; split; [exact H1|]. split; [exact H2 | exact H3].
Defined.

(** ** Timers and teardown (C4) *)

Lemma cleanup_keeps_timers (run : nat) (page : BrainViz.Page) :
  BrainViz.timers (BrainViz.cleanup run page) = BrainViz.timers page.
Proof. reflexivity. Qed.

Lemma lastRun_keeps_timers (page : BrainViz.Page) :
  BrainViz.timers (BrainViz.lastRun page) = BrainViz.timers page.
Proof.
  unfold BrainViz.lastRun; destruct (BrainViz.pendingCleanup page); reflexivity.
Qed.

(** C4 on the code: neither the cleanup of the main effect nor a new
    snapshot cancels a timer.  In the single-edge scenario the five particle
    timers and the zoom timer are still pending after unmount, the simulation
    is stopped, and the first particle timer then fires, reads the link data
    of the torn-down run and chains itself again; the same happens after a
    snapshot in which the edge no longer exists. *)
Theorem timers_survive_teardown :
  (forall page, BrainViz.timers (BrainViz.unmount page) = BrainViz.timers page) /\
  List.length (BrainViz.timers Examples.shown) = 6%nat /\
  List.length (BrainViz.timers (BrainViz.unmount Examples.shown)) = 6%nat /\
  option_map BrainViz.running
    (BrainViz.simulationRef (BrainViz.unmount Examples.shown)) = Some false /\
  (forall r1 r2, exists src tgt page',
     BrainViz.fire r1 r2 0 (BrainViz.unmount Examples.shown)
       = Some (BrainViz.Animated (BrainViz.simLink Examples.ab) src tgt, page') /\
     List.length (BrainViz.timers page') = 6%nat) /\
  (forall r1 r2, exists src tgt page',
     BrainViz.fire r1 r2 0
       (BrainViz.rerender Examples.dims [Examples.a; Examples.b] [] Examples.shown)
       = Some (BrainViz.Animated (BrainViz.simLink Examples.ab) src tgt, page') /\
     List.length (BrainViz.timers page') = 7%nat).
Proof.
  split; [exact lastRun_keeps_timers|].
  split; [reflexivity|]. split; [reflexivity|]. split; [reflexivity|].
  split; intros r1 r2; do 3 eexists; split; reflexivity.
Qed.

(** ** Pinning and unpinning (C8) *)

Lemma update_nth {A : Type} (f : A -> A) (l : list A) (i : nat) :
  nth_error (BrainViz.update i f l) i = option_map f (nth_error l i).
Proof.
  revert i; induction l as [|a l IH]; intros [|i]; simpl; auto.
Qed.

(** C8, as stated, fails: the drag handlers never write the velocity.  A
    node that drifts with velocity (3, 0) and is pinned and unpinned before
    the simulation ticks is free again with the velocity (3, 0) it had. *)
Lemma unpin_keeps_velocity_counterexample :
  exists d,
    nth_error (BrainViz.nodes
                 (BrainViz.dragEnd 0 0 (BrainViz.dragStart 0 0 Examples.drifting))) 0
      = Some d /\
    BrainViz.fx d = None /\ BrainViz.fy d = None /\
    BrainViz.vx d = Some 3 /\
    ~ (BrainViz.vx d ?? 0) == 0.
Proof.
  eexists; split; [reflexivity|].
  repeat split; intros H; apply Qeq_bool_iff in H; discriminate H.
Qed.

Section PinUnpin.

Variables alphaDecay velocityDecay : Q.
Variable force : Q -> list BrainViz.SimNode -> BrainViz.SimNode -> BrainViz.Push.
Variable i : nat.

Local Abbreviation tick := (BrainViz.tick alphaDecay velocityDecay force).
Local Abbreviation during := (BrainViz.during alphaDecay velocityDecay force i).

Lemma dragStart_pins (a1 : nat) (s : BrainViz.Simulation) (d0 : BrainViz.SimNode) :
  nth_error (BrainViz.nodes s) i = Some d0 ->
  BrainViz.pinnedAt false i (BrainViz.dragStart a1 i s).
Proof.
  intros H; unfold BrainViz.pinnedAt, BrainViz.dragStart.
  destruct (Nat.eqb a1 0); simpl; rewrite update_nth, H; simpl.
  all: eexists; (split; [reflexivity|]); simpl.
  all: repeat split; try discriminate.
Qed.

Lemma dragEnd_frees (a2 : nat) (s : BrainViz.Simulation) (d : BrainViz.SimNode) :
  nth_error (BrainViz.nodes s) i = Some d ->
  nth_error (BrainViz.nodes (BrainViz.dragEnd a2 i s)) i
  = Some (BrainViz.setFixed None None d) /\
  BrainViz.alpha (BrainViz.dragEnd a2 i s) = BrainViz.alpha s.
Proof.
  intros H; unfold BrainViz.dragEnd.
  destruct (Nat.eqb a2 0); simpl; rewrite update_nth, H; split; reflexivity.
Qed.

Lemma dragMove_pinned (z : bool) (ex ey : Q) (s : BrainViz.Simulation) :
  BrainViz.pinnedAt z i s -> BrainViz.pinnedAt z i (BrainViz.dragMove ex ey i s).
Proof.
  intros [d [H [_ [_ Hz]]]]; unfold BrainViz.pinnedAt, BrainViz.dragMove; simpl.
  rewrite update_nth, H; simpl.
  eexists; split; [reflexivity|]; simpl.
  repeat split; try discriminate; now apply Hz.
Qed.

Lemma tick_pinned (z : bool) (s : BrainViz.Simulation) :
  BrainViz.pinnedAt z i s -> BrainViz.pinnedAt true i (tick s).
Proof.
  intros [d [H [Hx [Hy _]]]]; unfold BrainViz.pinnedAt, BrainViz.tick.
  cbn [BrainViz.nodes].
  rewrite nth_error_map, H; simpl.
  eexists; split; [reflexivity|].
  unfold BrainViz.stepNode, BrainViz.integrate; simpl.
  destruct (BrainViz.fx d); [|contradiction].
  destruct (BrainViz.fy d); [|contradiction].
  simpl; repeat split; discriminate.
Qed.

Lemma during_pinned (z : bool) (e : BrainViz.GestureEvent) (s : BrainViz.Simulation) :
  BrainViz.pinnedAt z i s -> BrainViz.pinnedAt z i (during s e).
Proof.
  intros H; destruct e as [ex ey|]; simpl.
  - now apply dragMove_pinned.
  - destruct (tick_pinned z s H) as [d [H1 [H2 [H3 H4]]]].
    exists d; repeat split; auto; now apply H4.
Qed.

Lemma fold_pinned (z : bool) (evs : list BrainViz.GestureEvent) (s : BrainViz.Simulation) :
  BrainViz.pinnedAt z i s -> BrainViz.pinnedAt z i (fold_left during evs s).
Proof.
  revert s; induction evs as [|e evs IH]; intros s H; simpl; [exact H|].
  apply IH, during_pinned, H.
Qed.

Lemma fold_still (evs : list BrainViz.GestureEvent) (s : BrainViz.Simulation) :
  In BrainViz.Tick evs ->
  BrainViz.pinnedAt false i s -> BrainViz.pinnedAt true i (fold_left during evs s).
Proof.
  revert s; induction evs as [|e evs IH]; intros s Hin H; simpl; [destruct Hin|].
  destruct e as [ex ey|].
  - destruct Hin as [Hin|Hin]; [discriminate Hin|].
    apply IH; [exact Hin | now apply dragMove_pinned].
  - apply fold_pinned; simpl; now apply (tick_pinned false).
Qed.

(** C8 (amended): when at least one tick of the simulation runs between
    the drag start and the drag end of an entity, the entity is free again
    after the drag end (no fixed coordinate) with zero velocity, and it takes
    part in the force updates again: the next tick gives it the velocity
    (0 + dv) * velocityDecay, where dv is the velocity change its forces
    accumulate in that tick, and moves it by the translation of the centre
    force and by that velocity.  The handlers themselves only set and clear
    the fixed coordinates. *)
Theorem pin_unpin_roundtrip (a1 a2 : nat) (evs : list BrainViz.GestureEvent)
  (s : BrainViz.Simulation) (d0 : BrainViz.SimNode)
  (Hnode : nth_error (BrainViz.nodes s) i = Some d0)
  (Htick : In BrainViz.Tick evs) :
  let s' := BrainViz.gesture alphaDecay velocityDecay force a1 a2 i evs s in
  exists d d',
    nth_error (BrainViz.nodes s') i = Some d /\
    BrainViz.fx d = None /\ BrainViz.fy d = None /\
    BrainViz.vx d = Some 0 /\ BrainViz.vy d = Some 0 /\
    nth_error (BrainViz.nodes (tick s')) i = Some d' /\
    let f := force (BrainViz.alpha (tick s')) (BrainViz.nodes s') d in
    BrainViz.fx d' = None /\ BrainViz.fy d' = None /\
    BrainViz.vx d' = Some ((0 + BrainViz.dvx f) * velocityDecay) /\
    BrainViz.vy d' = Some ((0 + BrainViz.dvy f) * velocityDecay) /\
    BrainViz.x d' = BrainViz.x d + BrainViz.dx f + (0 + BrainViz.dvx f) * velocityDecay /\
    BrainViz.y d' = BrainViz.y d + BrainViz.dy f + (0 + BrainViz.dvy f) * velocityDecay.
Proof.
  cbv zeta; unfold BrainViz.gesture.
  pose proof (fold_still evs _ Htick (dragStart_pins a1 s d0 Hnode))
    as [d [H [_ [_ Hv]]]].
  destruct (Hv eq_refl) as [Hvx Hvy].
  set (t := fold_left during evs (BrainViz.dragStart a1 i s)) in *.
  destruct (dragEnd_frees a2 t d H) as [E _].
  eexists; eexists.
  split; [exact E|].
  split; [reflexivity|]. split; [reflexivity|].
  split; [exact Hvx|]. split; [exact Hvy|].
  split.
  { unfold BrainViz.tick at 1; cbn [BrainViz.nodes].
    rewrite nth_error_map, E; reflexivity. }
  unfold BrainViz.stepNode, BrainViz.integrate.
  cbn [BrainViz.fx BrainViz.fy BrainViz.vx BrainViz.vy BrainViz.x BrainViz.y
       BrainViz.setFixed fst snd].
  rewrite Hvx, Hvy; cbn [JS.nullish].
  repeat split.
Qed.

End PinUnpin.

Lemma pin_unpin_roundtrip_witness :
  let force := fun (_ : Q) (_ : list BrainViz.SimNode) (_ : BrainViz.SimNode) =>
                 {| BrainViz.dx := 1; BrainViz.dy := 0;
                    BrainViz.dvx := 5; BrainViz.dvy := 0 |} in
  let s' := BrainViz.gesture 0.0228 0.6 force 0 0 0
              [BrainViz.Move 410 260; BrainViz.Tick] Examples.drifting in
  In BrainViz.Tick [BrainViz.Move 410 260; BrainViz.Tick] /\
  exists d d',
    nth_error (BrainViz.nodes s') 0 = Some d /\
    BrainViz.vx d = Some 0 /\
    nth_error (BrainViz.nodes (BrainViz.tick 0.0228 0.6 force s')) 0 = Some d' /\
    BrainViz.vx d' = Some ((0 + 5) * 0.6) /\
    BrainViz.x d' = BrainViz.x d + 1 + (0 + 5) * 0.6.
Proof.
  cbv zeta.
  assert (Hin : In BrainViz.Tick [BrainViz.Move 410 260; BrainViz.Tick])
    by (simpl; auto).
  split; [exact Hin|].
  destruct (pin_unpin_roundtrip 0.0228 0.6
              (fun _ _ _ => {| BrainViz.dx := 1; BrainViz.dy := 0;
                               BrainViz.dvx := 5; BrainViz.dvy := 0 |}) 0 0 0
              [BrainViz.Move 410 260; BrainViz.Tick] Examples.drifting _
              eq_refl Hin)
    as [d [d' [H1 [_ [_ [H2 [_ [H3 [_ [_ [H4 [_ [H5 _]]]]]]]]]]]]].
  exists d, d'; repeat split; assumption.
Defined.

(** * Further properties of the components *)

(** ** BrainViz: circles, hover, forces and colours *)

(** X1: leaving a node with the pointer restores the radius and the filter
    the circle was created with, whatever it showed in between; while the
    pointer is over it the radius is 4 larger and the filter is the pulse
    glow, whatever the energy. *)
Theorem hover_reverts (d : BrainViz.SimNode) (c : BrainViz.Circle) :
  BrainViz.mouseout d c = BrainViz.nodeCircle d /\
  BrainViz.mouseout d (BrainViz.mouseover d (BrainViz.nodeCircle d)) = BrainViz.nodeCircle d /\
  BrainViz.attr_r (BrainViz.nodeCircle d) = BrainViz.radius d /\
  BrainViz.attr_r (BrainViz.mouseover d c) == BrainViz.radius d + 4 /\
  BrainViz.attr_filter (BrainViz.mouseover d c) = Some "url(#pulse-glow)"%string /\
  (BrainViz.attr_filter (BrainViz.nodeCircle d) <> None <-> BrainViz.glowFilter d = true).
Proof.
  repeat (split; [reflexivity|]).
  split.
  { unfold BrainViz.mouseover, BrainViz.radius; simpl; ring. }
  split; [reflexivity|].
  unfold BrainViz.nodeCircle, BrainViz.glowFilter; simpl.
  destruct (JS.gt _ 0.8); split; congruence.
Qed.

(** X2: for a non-negative access count the drawn radius of a node is
    smaller than its hovered radius, which is smaller than its collision
    radius; the label hangs 12 below the radius and the glow circle is 12
    wider than the node. *)
Theorem node_geometry_ordered (d : BrainViz.SimNode)
  (Hac : 0 <= Client.accessCount (BrainViz.data d) ?? 0) :
  BrainViz.radius d < BrainViz.attr_r (BrainViz.mouseover d (BrainViz.nodeCircle d)) /\
  BrainViz.attr_r (BrainViz.mouseover d (BrainViz.nodeCircle d)) < BrainViz.collisionRadius d /\
  BrainViz.labelDy d == BrainViz.radius d + 12 /\
  BrainViz.glowRadius d == BrainViz.radius d + 12.
Proof.
  unfold BrainViz.radius, BrainViz.mouseover, BrainViz.collisionRadius,
    BrainViz.labelDy, BrainViz.glowRadius; simpl.
  repeat split; lra.
Qed.

Lemma node_geometry_ordered_witness :
  BrainViz.radius (BrainViz.simNode Examples.dims Examples.a)
    < BrainViz.collisionRadius (BrainViz.simNode Examples.dims Examples.a).
Proof.
  assert (H : 0 <= Client.accessCount
                     (BrainViz.data (BrainViz.simNode Examples.dims Examples.a)) ?? 0)
    by (unfold Qle; simpl; lia).
  destruct (node_geometry_ordered _ H) as [H1 [H2 _]].
  exact (Qlt_trans _ _ _ H1 H2).
Defined.

(** X3: for a weight between 0 and 1 the rest length of a link lies
    between 50 and 80 and its strength between 0.3 and 0.8; a heavier link is
    never longer and never weaker than a lighter one. *)
Theorem link_force_range (e1 e2 : Client.GraphEdge)
  (H0 : 0 <= Client.weight e1) (H12 : Client.weight e1 <= Client.weight e2)
  (H1 : Client.weight e2 <= 1) :
  50 <= BrainViz.linkDistance (BrainViz.simLink e2) /\
  BrainViz.linkDistance (BrainViz.simLink e2)
    <= BrainViz.linkDistance (BrainViz.simLink e1) /\
  BrainViz.linkDistance (BrainViz.simLink e1) <= 80 /\
  0.3 <= BrainViz.linkStrength (BrainViz.simLink e1) /\
  BrainViz.linkStrength (BrainViz.simLink e1)
    <= BrainViz.linkStrength (BrainViz.simLink e2) /\
  BrainViz.linkStrength (BrainViz.simLink e2) <= 0.8.
Proof.
  unfold BrainViz.linkDistance, BrainViz.linkStrength; simpl.
  repeat split; lra.
Qed.

Lemma link_force_range_witness :
  BrainViz.linkDistance (BrainViz.simLink Examples.ab)
    <= BrainViz.linkDistance (BrainViz.simLink Examples.strongIdle) /\
  BrainViz.linkStrength (BrainViz.simLink Examples.strongIdle)
    <= BrainViz.linkStrength (BrainViz.simLink Examples.ab).
Proof.
  assert (H0 : 0 <= Client.weight Examples.strongIdle) by (unfold Qle; simpl; lia).
  assert (H12 : Client.weight Examples.strongIdle <= Client.weight Examples.ab)
    by (unfold Qle; simpl; lia).
  assert (H1 : Client.weight Examples.ab <= 1) by (unfold Qle; simpl; lia).
  destruct (link_force_range Examples.strongIdle Examples.ab H0 H12 H1)
    as [_ [Hd [_ [_ [Hs _]]]]].
  split; assumption.
Defined.

(** X4: for a weight between 0 and 1 every opacity and alpha the renderers
    compute is a valid one (between 0.2 and 1), and the widths are bounded:
    1 to 5 in the SVG and cytoscape renderers, and for a non-negative
    co-fire count 0.5 to 4 in the 3D renderer and 1 to 6 on the canvas. *)
Theorem link_style_range (e : Client.GraphEdge) (i : nat)
  (H0 : 0 <= Client.weight e) (H1 : Client.weight e <= 1)
  (Hc : 0 <= Client.coFireCount e) :
  (1 <= BrainViz.strokeWidth (BrainViz.simLink e) <= 5 /\
   0.3 <= BrainViz.strokeOpacity (BrainViz.simLink e) <= 0.8 /\
   0.2 <= BrainViz.stop0 (BrainViz.linkGradient i e) <= 0.8 /\
   0.3 <= BrainViz.stop50 (BrainViz.linkGradient i e) <= 0.8) /\
  (1 <= NeoGraph.edgeWidth (NeoGraph.edgeElement i e) <= 5 /\
   0.4 <= NeoGraph.edgeOpacity (NeoGraph.edgeElement i e) <= 0.9) /\
  (0.5 <= NeuralGraph3D.getLinkWidth (NeuralGraph3D.graphLink e) <= 4 /\
   0.3 <= snd (NeuralGraph3D.getLinkColor (NeuralGraph3D.graphLink e)) <= 1 /\
   (100 <= fst (NeuralGraph3D.getLinkColor (NeuralGraph3D.graphLink e)) <= 255)%Z) /\
  (1 <= NeuralGraph.linkWidth (NeuralGraph.graphLink e) <= 6 /\
   0.3 <= NeuralGraph.linkColor (NeuralGraph.graphLink e) <= 1).
Proof.
  unfold BrainViz.strokeWidth, BrainViz.strokeOpacity, BrainViz.linkGradient,
    BrainViz.linkColor, NeoGraph.edgeWidth, NeoGraph.edgeOpacity,
    NeuralGraph3D.getLinkWidth, NeuralGraph3D.getLinkColor,
    NeuralGraph.linkWidth, NeuralGraph.linkColor, JS.floor.
  cbn [BrainViz.simLink BrainViz.weight BrainViz.stop0 BrainViz.stop50
       NeoGraph.edgeElement NeoGraph.weight
       NeuralGraph3D.graphLink NeuralGraph3D.weight NeuralGraph3D.coFireCount
       NeuralGraph.graphLink NeuralGraph.weight NeuralGraph.coFireCount
       JS.nullish fst snd].
  pose proof (Q.le_min_l (Client.coFireCount e) 15) as A1.
  pose proof (Q.le_min_r (Client.coFireCount e) 15) as A2.
  pose proof (Q.le_min_l (Client.coFireCount e) 10) as B1.
  pose proof (Q.le_min_r (Client.coFireCount e) 10) as B2.
  assert (A0 : 0 <= Qmin (Client.coFireCount e) 15)
    by (apply Q.min_glb; [exact Hc | unfold Qle; simpl; lia]).
  assert (B0 : 0 <= Qmin (Client.coFireCount e) 10)
    by (apply Q.min_glb; [exact Hc | unfold Qle; simpl; lia]).
  assert (F : (100 <= Qfloor (100 + Client.weight e * 155) <= 255)%Z).
  { assert (L : 100 <= 100 + Client.weight e * 155) by lra.
    assert (U : 100 + Client.weight e * 155 <= 255) by lra.
    apply Qfloor_resp_le in L; apply Qfloor_resp_le in U.
    change (Qfloor 100) with 100%Z in L; change (Qfloor 255) with 255%Z in U.
    split; assumption. }
  repeat split; try lra; apply F.
Qed.

Lemma link_style_range_witness :
  BrainViz.strokeWidth (BrainViz.simLink Examples.ab) <= 5 /\
  NeuralGraph3D.getLinkWidth (NeuralGraph3D.graphLink Examples.ab) <= 4.
Proof.
  assert (H0 : 0 <= Client.weight Examples.ab) by (unfold Qle; simpl; lia).
  assert (H1 : Client.weight Examples.ab <= 1) by (unfold Qle; simpl; lia).
  assert (Hc : 0 <= Client.coFireCount Examples.ab) by (unfold Qle; simpl; lia).
  destruct (link_style_range Examples.ab 0 H0 H1 Hc) as [[[_ A] _] [_ [[[_ B] _] _]]].
  split; assumption.
Defined.

Lemma round_between (a b : Z) (q : Q) :
  inject_Z a <= q -> q <= inject_Z b -> (a <= JS.round q <= b)%Z.
Proof.
  intros Ha Hb; unfold JS.round.
  pose proof (Qfloor_le (q + (1 # 2))) as L.
  pose proof (Qlt_floor (q + (1 # 2))) as U.
  rewrite inject_Z_plus in U; change (inject_Z 1) with 1 in U.
  split.
  - destruct (Z_le_gt_dec a (Qfloor (q + (1 # 2)))) as [H|H]; [exact H|exfalso].
    assert (H' : (Qfloor (q + (1 # 2)) + 1 <= a)%Z) by lia.
    rewrite Zle_Qle, inject_Z_plus in H'.
    change (inject_Z 1) with 1 in H'. lra.
  - destruct (Z_le_gt_dec (Qfloor (q + (1 # 2))) b) as [H|H]; [exact H|exfalso].
    assert (H' : (b + 1 <= Qfloor (q + (1 # 2)))%Z) by lia.
    rewrite Zle_Qle, inject_Z_plus in H'.
    change (inject_Z 1) with 1 in H'. lra.
Qed.

Lemma clampi_mono (a b : Q) : a <= b -> (BrainViz.clampi a <= BrainViz.clampi b)%Z.
Proof.
  intros H; unfold BrainViz.clampi, JS.round.
  assert (H' : a + (1 # 2) <= b + (1 # 2)) by lra.
  apply Qfloor_resp_le in H'. lia.
Qed.

(** X5: the fill colour of the SVG renderer always has its three channels
    between 0 and 255; for an energy between 0 and 1 they lie between those
    of the two end colours, and a node of higher energy is never more red
    and never less green or blue than one of lower energy. *)
Theorem energy_colour_range (e1 e2 : Q) :
  match BrainViz.energyColor e1 with
  | Rgb r g b => (0 <= r <= 255 /\ 0 <= g <= 255 /\ 0 <= b <= 255)%Z
  | Hex _ => False
  end /\
  (0 <= e1 -> e1 <= 1 ->
   match BrainViz.energyColor e1 with
   | Rgb r g b => (34 <= r <= 239 /\ 68 <= g <= 197 /\ 68 <= b <= 94)%Z
   | Hex _ => False
   end) /\
  (e1 <= e2 ->
   match BrainViz.energyColor e1, BrainViz.energyColor e2 with
   | Rgb r1 g1 b1, Rgb r2 g2 b2 => (r2 <= r1 /\ g1 <= g2 /\ b1 <= b2)%Z
   | _, _ => False
   end).
Proof.
  unfold BrainViz.energyColor, BrainViz.interpolateRgb, BrainViz.formatRgb,
    BrainViz.interpolate, BrainViz.mix.
  cbn [BrainViz.red BrainViz.green BrainViz.blue BrainViz.green500 BrainViz.red500].
  split; [|split].
  - unfold BrainViz.clampi; lia.
  - intros H0 H1.
    assert (C : forall (a b : Z) (q : Q), (0 <= a)%Z -> (b <= 255)%Z ->
                inject_Z a <= q -> q <= inject_Z b ->
                (a <= BrainViz.clampi q <= b)%Z).
    { intros a b q Ha Hb Hl Hu; unfold BrainViz.clampi.
      pose proof (round_between a b q Hl Hu). lia. }
    split; [apply (C 34 239)%Z | split; [apply (C 68 197)%Z | apply (C 68 94)%Z]];
      try lia; unfold inject_Z; lra.
  - intros H; split; [|split]; apply clampi_mono; lra.
Qed.

Lemma energy_colour_range_witness :
  BrainViz.energyColor (1 # 2) = Rgb 137 133 81 /\
  match BrainViz.energyColor (1 # 2), BrainViz.energyColor 1 with
  | Rgb r1 g1 b1, Rgb r2 g2 b2 => (r2 <= r1 /\ g1 <= g2 /\ b1 <= b2)%Z
  | _, _ => False
  end.
Proof.
  split; [reflexivity|].
  destruct (energy_colour_range (1 # 2) 1) as [_ [_ H]].
  apply H; unfold Qle; simpl; lia.
Defined.

(** ** BrainViz: gradients, lines and particles *)

Lemma joinLines_nth (edges : list Client.GraphEdge) (i n : nat) (line : BrainViz.Line) :
  nth_error (BrainViz.joinLines i (BrainViz.simLinks edges)) n = Some line ->
  exists edge,
    nth_error edges n = Some edge /\
    BrainViz.gradient line = (i + n)%nat /\
    BrainViz.stroke_width line = 1 + Client.weight edge * 4 /\
    nth_error (BrainViz.linkGradients i edges) n
      = Some (BrainViz.linkGradient (i + n) edge).
Proof.
  revert i n; induction edges as [|e edges IH]; intros i [|n] H; simpl in H;
    try discriminate H.
  - injection H as <-; exists e; simpl.
    rewrite Nat.add_0_r; repeat split.
  - destruct (IH (S i) n H) as [edge [H1 [H2 [H3 H4]]]].
    exists edge; simpl.
    replace (i + S n)%nat with (S i + n)%nat by lia.
    repeat split; assumption.
Qed.

(** X6: the n-th line of the SVG renderer is stroked with the gradient
    numbered n, and that gradient exists: it was created for the n-th edge,
    from the weight that also gives the line its width. *)
Theorem line_gradient_exists (edges : list Client.GraphEdge) (n : nat)
  (line : BrainViz.Line)
  (H : nth_error (BrainViz.link (BrainViz.simLinks edges)) n = Some line) :
  exists edge g,
    nth_error edges n = Some edge /\
    nth_error (BrainViz.linkGradients 0 edges) n = Some g /\
    BrainViz.gradientId g = BrainViz.gradient line /\
    BrainViz.gradient line = n /\
    BrainViz.stroke_width line = 1 + Client.weight edge * 4 /\
    BrainViz.stop0 g = BrainViz.linkColor (Client.weight edge) /\
    BrainViz.stop100 g = BrainViz.stop0 g.
Proof.
  destruct (joinLines_nth edges 0 n line H) as [edge [H1 [H2 [H3 H4]]]].
  exists edge, (BrainViz.linkGradient n edge).
  repeat split; try assumption.
  simpl; now rewrite H2.
Qed.

Lemma line_gradient_exists_witness :
  exists line g,
    nth_error (BrainViz.link (BrainViz.simLinks [Examples.ab; Examples.dangling])) 1
      = Some line /\
    nth_error (BrainViz.linkGradients 0 [Examples.ab; Examples.dangling]) 1 = Some g /\
    BrainViz.gradientId g = BrainViz.gradient line.
Proof.
  destruct (line_gradient_exists [Examples.ab; Examples.dangling] 1 _ eq_refl)
    as [edge [g [_ [H1 [H2 _]]]]].
  eexists; exists g; repeat split; [exact H1 | exact H2].
Defined.

Lemma numParticles_le_5 (d : BrainViz.SimLink) :
  (Z.to_nat (BrainViz.numParticles d) <= 5)%nat.
Proof. unfold BrainViz.numParticles; lia. Qed.

Lemma particleTimers_delay (run i : nat) (d : BrainViz.SimLink) (t : BrainViz.Timer) :
  In t (BrainViz.particleTimers run i d) ->
  1000 <= BrainViz.delay t /\ BrainViz.delay t <= 1800 /\
  exists p, (p < 5)%nat /\ BrainViz.callback t = BrainViz.animateParticle run i p.
Proof.
  unfold BrainViz.particleTimers; intros H.
  apply in_map_iff in H; destruct H as [p [<- Hp]].
  apply in_seq in Hp; pose proof (numParticles_le_5 d) as L.
  assert (Hp4 : (p <= 4)%nat) by lia.
  cbn [BrainViz.delay BrainViz.callback].
  assert (A : 0 <= inject_Z (Z.of_nat p)).
  { change 0 with (inject_Z 0); rewrite <- Zle_Qle; lia. }
  assert (B : inject_Z (Z.of_nat p) <= 4).
  { change 4 with (inject_Z 4); rewrite <- Zle_Qle; lia. }
  split; [lra|]. split; [lra|].
  exists p; split; [lia | reflexivity].
Qed.

Lemma forEachLink_In (run i : nat) (ls : list BrainViz.SimLink) (t : BrainViz.Timer) :
  In t (BrainViz.forEachLink run i ls) ->
  exists n d, nth_error ls n = Some d /\
              In t (BrainViz.particleTimers run (i + n) d).
Proof.
  revert i; induction ls as [|d ls IH]; intros i H; simpl in H; [destruct H|].
  apply in_app_or in H; destruct H as [H|H].
  - exists 0%nat, d; rewrite Nat.add_0_r; split; [reflexivity | exact H].
  - destruct (IH (S i) H) as [n [d' [H1 H2]]].
    exists (S n), d'; replace (i + S n)%nat with (S i + n)%nat by lia.
    split; assumption.
Qed.

Lemma forEachLink_length (run i : nat) (ls : list BrainViz.SimLink) :
  (List.length (BrainViz.forEachLink run i ls) <= 5 * List.length ls)%nat.
Proof.
  revert i; induction ls as [|d ls IH]; intros i; simpl; [lia|].
  rewrite length_app, particleTimers_length.
  pose proof (numParticles_le_5 d); specialize (IH (S i)); lia.
Qed.

(** X7: one run of the main effect leaves the pending callbacks in place
    and adds at most five particle timers per edge and one zoom timer; every
    timer it adds is due between 1000 and 1800 ms after the run, so nothing
    it schedules fires during the first second. *)
Theorem timers_budget (dims : BrainViz.Dimensions) (ns : list Client.GraphNode)
  (edges : list Client.GraphEdge) (page : BrainViz.Page) :
  exists added,
    BrainViz.timers (BrainViz.mainEffect dims ns edges page)
      = BrainViz.timers page ++ added /\
    (List.length added <= 5 * List.length edges + 1)%nat /\
    (forall t, In t added -> 1000 <= BrainViz.delay t /\ BrainViz.delay t <= 1800).
Proof.
  assert (N : exists added : list BrainViz.Timer,
            BrainViz.timers page = BrainViz.timers page ++ added /\
            (List.length added <= 5 * List.length edges + 1)%nat /\
            (forall t, In t added ->
               1000 <= BrainViz.delay t /\ BrainViz.delay t <= 1800)).
  { exists []; rewrite app_nil_r; split; [reflexivity|].
    split; [simpl; lia | intros t []]. }
  destruct ns as [|n ns]; [exact N|].
  unfold BrainViz.mainEffect.
  destruct (BrainViz.resolves _ _); [clear N | exact N].
  cbn [BrainViz.timers].
  eexists; split; [reflexivity|]. split.
  - rewrite length_app; simpl.
    pose proof (forEachLink_length (List.length (BrainViz.runs page)) 0
                  (BrainViz.simLinks edges)) as L.
    unfold BrainViz.simLinks in L; rewrite length_map in L.
    unfold BrainViz.simLinks; lia.
  - intros t H; apply in_app_or in H; destruct H as [H|[<-|[]]].
    + destruct (forEachLink_In _ _ _ _ H) as [k [d [_ H1]]].
      destruct (particleTimers_delay _ _ _ _ H1) as [A [B _]]; split; assumption.
    + simpl; split; lra.
Qed.

Lemma timers_budget_witness :
  exists t, nth_error (BrainViz.timers Examples.shown) 4 = Some t /\
            1000 <= BrainViz.delay t /\ BrainViz.delay t <= 1800.
Proof.
  destruct (timers_budget Examples.dims [Examples.a; Examples.b] [Examples.ab]
              BrainViz.emptyPage) as [added [E [_ H]]].
  eexists; split; [reflexivity|].
  apply H.
  unfold BrainViz.emptyPage in E; cbn [BrainViz.timers app] in E.
  change (BrainViz.timers Examples.shown = added) in E.
  rewrite <- E; simpl; auto 6.
Defined.

Lemma forEachLink_callback (run i : nat) (ls : list BrainViz.SimLink) (c : BrainViz.Callback) :
  In c (map BrainViz.callback (BrainViz.forEachLink run i ls)) ->
  exists n p, (i <= n)%nat /\ c = BrainViz.animateParticle run n p.
Proof.
  intros H; apply in_map_iff in H; destruct H as [t [<- H]].
  destruct (forEachLink_In _ _ _ _ H) as [n [d [_ H1]]].
  destruct (particleTimers_delay _ _ _ _ H1) as [_ [_ [p [_ Hp]]]].
  exists (i + n)%nat, p; split; [lia | exact Hp].
Qed.

Lemma particleTimers_NoDup (run i : nat) (d : BrainViz.SimLink) :
  NoDup (map BrainViz.callback (BrainViz.particleTimers run i d)).
Proof.
  unfold BrainViz.particleTimers; rewrite map_map; cbn [BrainViz.callback].
  apply NoDup_map_NoDup_ForallPairs; [|apply seq_NoDup].
  intros p q _ _ H; now injection H.
Qed.

(** X8: the main effect never schedules the same particle twice: the
    callbacks it sets for the particles differ pairwise in their edge number
    or their particle number. *)
Theorem particle_callbacks_distinct (run i : nat) (edges : list Client.GraphEdge) :
  NoDup (map BrainViz.callback
           (BrainViz.forEachLink run i (BrainViz.simLinks edges))).
Proof.
  generalize (BrainViz.simLinks edges); intros ls.
  revert i; induction ls as [|d ls IH]; intros i; simpl; [constructor|].
  rewrite map_app. apply NoDup_app; [apply particleTimers_NoDup | apply IH |].
  intros c H1 H2.
  apply in_map_iff in H1; destruct H1 as [t [<- H1]].
  destruct (particleTimers_delay _ _ _ _ H1) as [_ [_ [p [_ Hp]]]].
  destruct (forEachLink_callback _ _ _ _ H2) as [n [q [Hn Hc]]].
  rewrite Hp in Hc; injection Hc as Hi _; lia.
Qed.

(** ** BrainViz: simulations and pending callbacks over time *)

Lemma update_length {A : Type} (f : A -> A) (l : list A) (i : nat) :
  List.length (BrainViz.update i f l) = List.length l.
Proof.
  revert i; induction l as [|a l IH]; intros [|i]; simpl; auto.
Qed.

Lemma update_last {A : Type} (f : A -> A) (l : list A) (a : A) :
  BrainViz.update (List.length l) f (l ++ [a]) = l ++ [f a].
Proof.
  induction l as [|b l IH]; simpl; [reflexivity | now rewrite IH].
Qed.

Lemma Forall_removelast {A : Type} (P : A -> Prop) (l : list A) :
  Forall P l -> Forall P (removelast l).
Proof.
  induction 1 as [|a l Ha Hl IH]; simpl; [constructor|].
  destruct l; constructor; assumption.
Qed.

(** Every simulation is stopped, except the one whose cleanup is held, which
    is the latest. *)
Local Abbreviation tidy page :=
  ((BrainViz.pendingCleanup page = None /\
    Forall (fun s => BrainViz.running s = false) (BrainViz.runs page)) \/
   (exists l s, BrainViz.runs page = l ++ [s] /\
                BrainViz.pendingCleanup page = Some (List.length l) /\
                Forall (fun s => BrainViz.running s = false) l)).

Lemma lastRun_all_stopped (page : BrainViz.Page) :
  tidy page ->
  BrainViz.pendingCleanup (BrainViz.lastRun page) = None /\
  Forall (fun s => BrainViz.running s = false) (BrainViz.runs (BrainViz.lastRun page)).
Proof.
  unfold BrainViz.lastRun.
  intros [[E H]|[l [s [E1 [E2 H]]]]].
  - rewrite E; split; assumption.
  - rewrite E2; unfold BrainViz.cleanup; cbn [BrainViz.pendingCleanup BrainViz.runs].
    split; [reflexivity|].
    rewrite E1, update_last.
    apply Forall_app; split; [exact H | repeat constructor].
Qed.

Lemma rerender_tidy (dims : BrainViz.Dimensions) (ns : list Client.GraphNode)
  (edges : list Client.GraphEdge) (page : BrainViz.Page) :
  BrainViz.completes dims ns edges = true ->
  tidy page -> tidy (BrainViz.rerender dims ns edges page).
Proof.
  intros C H; apply lastRun_all_stopped in H; destruct H as [_ H].
  unfold BrainViz.rerender, BrainViz.mainEffect.
  destruct ns as [|n ns].
  - left; split; [reflexivity | exact H].
  - unfold BrainViz.completes in C; rewrite C.
    right; do 2 eexists; cbn [BrainViz.runs BrainViz.pendingCleanup].
    split; [reflexivity|]. split; [reflexivity | exact H].
Qed.

(** X9: as long as every snapshot the SVG renderer has been given is one on
    which the main effect reaches its end (no node, or every end point of
    every relation among the nodes), every simulation but the one of the
    latest run is stopped, and after unmount all of them are: at most one
    simulation is running at any time.  A snapshot with a dangling relation
    breaks this: the simulation its run started has no cleanup and is still
    running after the unmount. *)
Theorem one_simulation_running
  (snaps : list (BrainViz.Dimensions * list Client.GraphNode * list Client.GraphEdge))
  (Hres : Forall (fun snap =>
                    BrainViz.completes (fst (fst snap)) (snd (fst snap)) (snd snap)
                    = true) snaps) :
  Forall (fun s => BrainViz.running s = false)
         (removelast (BrainViz.runs (BrainViz.rendered snaps))) /\
  Forall (fun s => BrainViz.running s = false)
         (BrainViz.runs (BrainViz.unmount (BrainViz.rendered snaps))) /\
  (exists s,
     In s (BrainViz.runs
             (BrainViz.unmount
                (BrainViz.rendered
                   (snaps ++ [(Examples.dims, [Examples.a; Examples.b],
                               [Examples.ab; Examples.dangling])])))) /\
     BrainViz.running s = true).
Proof.
  assert (H : tidy (BrainViz.rendered snaps)).
  { unfold BrainViz.rendered.
    assert (G : forall page, tidy page ->
      tidy (fold_left (fun page snap =>
              BrainViz.rerender (fst (fst snap)) (snd (fst snap)) (snd snap) page)
              snaps page)).
    { induction Hres as [|snap snaps Hs Hres IH]; intros page Hp; simpl; [exact Hp|].
      apply IH, rerender_tidy; assumption. }
    apply G; left; split; [reflexivity | constructor]. }
  split; [|split].
  - destruct H as [[_ H]|[l [s [E [_ H]]]]].
    + now apply Forall_removelast.
    + now rewrite E, removelast_last.
  - apply lastRun_all_stopped, H.
  - unfold BrainViz.rendered; rewrite fold_left_app; cbn [fold_left fst snd].
    unfold BrainViz.rerender, BrainViz.mainEffect.
    change (BrainViz.resolves
              (BrainViz.simNodes Examples.dims [Examples.a; Examples.b])
              (BrainViz.simLinks [Examples.ab; Examples.dangling])) with false.
    cbv iota.
    unfold BrainViz.unmount, BrainViz.lastRun at 1.
    cbn [BrainViz.pendingCleanup BrainViz.runs].
    eexists; split; [apply in_or_app; right; left; reflexivity | reflexivity].
Qed.

Lemma one_simulation_running_witness :
  Forall (fun s => BrainViz.running s = false)
    (BrainViz.runs
       (BrainViz.unmount
          (BrainViz.rendered
             [(Examples.dims, [Examples.a; Examples.b], [Examples.ab]);
              (Examples.dims, [Examples.a], []);
              (Examples.dims, [], [Examples.ab])]))).
Proof.
  apply (one_simulation_running
           [(Examples.dims, [Examples.a; Examples.b], [Examples.ab]);
            (Examples.dims, [Examples.a], []);
            (Examples.dims, [], [Examples.ab])]).
  repeat constructor.
Defined.

Lemma removeAt_length {A : Type} (l : list A) (k : nat) (a : A) :
  nth_error l k = Some a ->
  S (List.length (BrainViz.removeAt k l)) = List.length l.
Proof.
  intros H; assert (L : (k < List.length l)%nat)
    by (apply nth_error_Some; congruence).
  unfold BrainViz.removeAt; rewrite length_app, length_firstn, length_skipn; lia.
Qed.

Lemma runAnimateParticle_chain (r1 r2 : Q) (run i p : nat) (page : BrainViz.Page) :
  match fst (BrainViz.runAnimateParticle r1 r2 run i p page) with
  | BrainViz.Animated _ _ _ =>
      map BrainViz.callback (snd (BrainViz.runAnimateParticle r1 r2 run i p page))
      = [BrainViz.animateParticle run i p]
  | _ => snd (BrainViz.runAnimateParticle r1 r2 run i p page) = []
  end.
Proof.
  unfold BrainViz.runAnimateParticle.
  destruct (nth_error (BrainViz.runs page) run) as [s|]; [|reflexivity].
  destruct (nth_error (BrainViz.links s) i) as [d|]; [|reflexivity].
  destruct (BrainViz.nodeById _ (BrainViz.source d)); [|reflexivity].
  destruct (BrainViz.nodeById _ (BrainViz.target d)); [|reflexivity].
  destruct (_ && _); reflexivity.
Qed.

(** X10: a pending callback that fires leaves the simulations untouched
    and the pending set never grows: a zoom callback, and a particle callback
    that returns at its guard, leave one callback fewer; a particle callback
    that animates is replaced by itself, so its chain does not end on its
    own.  Nothing fires when the index names no pending callback. *)
Theorem fire_accounting (r1 r2 : Q) (n : nat) (page : BrainViz.Page) :
  ((List.length (BrainViz.timers page) <= n)%nat <->
     BrainViz.fire r1 r2 n page = None) /\
  (forall o page', BrainViz.fire r1 r2 n page = Some (o, page') ->
     BrainViz.runs page' = BrainViz.runs page /\
     match o with
     | BrainViz.Animated _ _ _ =>
         List.length (BrainViz.timers page') = List.length (BrainViz.timers page) /\
         exists t, nth_error (BrainViz.timers page) n = Some t /\
                   last (map BrainViz.callback (BrainViz.timers page'))
                        (BrainViz.callback t) = BrainViz.callback t
     | _ => S (List.length (BrainViz.timers page')) = List.length (BrainViz.timers page)
     end).
Proof.
  unfold BrainViz.fire; split.
  - rewrite <- nth_error_None.
    destruct (nth_error (BrainViz.timers page) n) as [t|]; [|tauto].
    split; [discriminate|].
    destruct (BrainViz.callback t);
      [destruct (BrainViz.runAnimateParticle _ _ _ _ _ _)|]; discriminate.
  - intros o page'.
    destruct (nth_error (BrainViz.timers page) n) as [t|] eqn:E; [|discriminate].
    pose proof (removeAt_length _ _ _ E) as L.
    destruct (BrainViz.callback t) as [run i p|run] eqn:C.
    + pose proof (runAnimateParticle_chain r1 r2 run i p page) as R.
      destruct (BrainViz.runAnimateParticle r1 r2 run i p page) as [o' chained].
      intros [= <- <-]; cbn [BrainViz.runs BrainViz.timers fst snd] in *.
      split; [reflexivity|].
      destruct o'; try (rewrite R, app_nil_r; exact L).
      destruct chained as [|c [|c' rest]]; try discriminate R.
      injection R as R. rewrite length_app; simpl.
      split; [lia|].
      exists t; split; [reflexivity|].
      rewrite map_app; cbn [map]; now rewrite last_last, R, C.
    + intros [= <- <-]; cbn [BrainViz.runs BrainViz.timers].
      split; [reflexivity | exact L].
Qed.

Lemma fire_accounting_witness :
  BrainViz.fire 0 0 6 Examples.shown = None /\
  exists o page', BrainViz.fire 0 0 5 Examples.shown = Some (o, page') /\
    S (List.length (BrainViz.timers page')) = 6%nat.
Proof.
  destruct (fire_accounting 0 0 6 Examples.shown) as [[H _] _].
  split; [apply H; simpl; lia|].
  destruct (fire_accounting 0 0 5 Examples.shown) as [_ G].
  do 2 eexists; split; [reflexivity|].
  exact (proj2 (G _ _ eq_refl)).
Defined.

Lemma lastRun_idempotent (page : BrainViz.Page) :
  BrainViz.lastRun (BrainViz.lastRun page) = BrainViz.lastRun page.
Proof.
  unfold BrainViz.lastRun at 2 3.
  destruct (BrainViz.pendingCleanup page) as [run|] eqn:E.
  - reflexivity.
  - unfold BrainViz.lastRun; now rewrite E.
Qed.

Lemma mainEffect_keeps_timers (dims : BrainViz.Dimensions) (ns : list Client.GraphNode)
  (edges : list Client.GraphEdge) (page : BrainViz.Page) :
  firstn (List.length (BrainViz.timers page))
         (BrainViz.timers (BrainViz.mainEffect dims ns edges page))
  = BrainViz.timers page.
Proof.
  unfold BrainViz.mainEffect.
  destruct ns as [|n ns]; [apply firstn_all|].
  destruct (BrainViz.resolves _ _); cbn [BrainViz.timers]; [|apply firstn_all].
  rewrite firstn_app, Nat.sub_diag, firstn_all; simpl; apply app_nil_r.
Qed.

(** X11: the cleanup composes harmlessly: unmounting twice is unmounting
    once, a snapshot given after an unmount has the effect it has without
    it, and neither the cleanup nor a new snapshot ever removes a pending
    callback. *)
Theorem cleanup_composes (dims : BrainViz.Dimensions) (ns : list Client.GraphNode)
  (edges : list Client.GraphEdge) (page : BrainViz.Page) :
  BrainViz.unmount (BrainViz.unmount page) = BrainViz.unmount page /\
  BrainViz.rerender dims ns edges (BrainViz.unmount page)
    = BrainViz.rerender dims ns edges page /\
  List.length (BrainViz.runs (BrainViz.unmount page)) = List.length (BrainViz.runs page) /\
  firstn (List.length (BrainViz.timers page))
         (BrainViz.timers (BrainViz.rerender dims ns edges page))
    = BrainViz.timers page.
Proof.
  unfold BrainViz.unmount, BrainViz.rerender.
  split; [apply lastRun_idempotent|].
  split; [now rewrite lastRun_idempotent|].
  split.
  { unfold BrainViz.lastRun; destruct (BrainViz.pendingCleanup page);
      [cbn [BrainViz.cleanup BrainViz.runs]; apply update_length | reflexivity]. }
  rewrite <- (lastRun_keeps_timers page).
  apply mainEffect_keeps_timers.
Qed.

(** ** BrainViz and NeuralGraph3D: selection and the detail panel *)

Lemma click_twice_svg (d : string) (n : nat) :
  Nat.iter (2 * n) (BrainViz.click (BrainViz.ClickNode d)) None = None.
Proof.
  induction n as [|n IH]; [reflexivity|].
  replace (2 * S n)%nat with (S (S (2 * n))) by lia.
  cbn [Nat.iter nat_rect]; unfold Nat.iter in IH; rewrite IH.
  cbn [BrainViz.click JS.strictEq]; now rewrite String.eqb_refl.
Qed.

Lemma click_twice_3d (d : string) (n : nat) (rotate : bool) :
  NeuralGraph3D.selectedNode
    (Nat.iter (2 * n) (NeuralGraph3D.click (NeuralGraph3D.ClickNode d))
       {| NeuralGraph3D.selectedNode := None;
          NeuralGraph3D.autoRotate := rotate |}) = None.
Proof.
  induction n as [|n IH]; [reflexivity|].
  replace (2 * S n)%nat with (S (S (2 * n))) by lia.
  cbn [Nat.iter nat_rect]; unfold Nat.iter in IH.
  cbn [NeuralGraph3D.click NeuralGraph3D.selectedNode]; rewrite IH.
  cbn [JS.strictEq]; now rewrite String.eqb_refl.
Qed.

(** X12: in the SVG and 3D renderers, starting with nothing selected, a
    node clicked an even number of times is not selected and a node clicked
    an odd number of times is; after a click on a node the selection is that
    node or empty, whatever was selected before. *)
Theorem click_parity (d : string) (n : nat) (prev : option string) (rotate : bool) :
  Nat.iter (2 * n) (BrainViz.click (BrainViz.ClickNode d)) None = None /\
  Nat.iter (2 * n + 1) (BrainViz.click (BrainViz.ClickNode d)) None = Some d /\
  (BrainViz.click (BrainViz.ClickNode d) prev = None \/
   BrainViz.click (BrainViz.ClickNode d) prev = Some d) /\
  NeuralGraph3D.selectedNode
    (Nat.iter (2 * n) (NeuralGraph3D.click (NeuralGraph3D.ClickNode d))
       {| NeuralGraph3D.selectedNode := None;
          NeuralGraph3D.autoRotate := rotate |}) = None /\
  NeuralGraph3D.selectedNode
    (Nat.iter (2 * n + 1) (NeuralGraph3D.click (NeuralGraph3D.ClickNode d))
       {| NeuralGraph3D.selectedNode := None;
          NeuralGraph3D.autoRotate := rotate |}) = Some d.
Proof.
  pose proof (click_twice_svg d n) as A.
  pose proof (click_twice_3d d n rotate) as B.
  replace (2 * n + 1)%nat with (S (2 * n)) by lia.
  split; [exact A|].
  split; [cbn [Nat.iter nat_rect]; unfold Nat.iter in A; now rewrite A|].
  split; [simpl; destruct (JS.strictEq prev d); auto|].
  split; [exact B|].
  cbn [Nat.iter nat_rect]; unfold Nat.iter in B.
  cbn [NeuralGraph3D.click NeuralGraph3D.selectedNode]; now rewrite B.
Qed.

Lemma filter_orb_length {A : Type} (f g : A -> bool) (l : list A) :
  (List.length (filter (fun a => f a || g a) l)
   + List.length (filter (fun a => f a && g a) l)
   = List.length (filter f l) + List.length (filter g l))%nat.
Proof.
  induction l as [|a l IH]; simpl; [reflexivity|].
  destruct (f a), (g a); simpl; lia.
Qed.

(** X13: the detail panel of the SVG renderer shows a node of the current
    snapshot whose id is the selected one, and no node when the snapshot has
    none with that id; its connection count is the number of edges leaving
    the selected id plus the number entering it, a self-loop counted once,
    and is 0 when nothing is selected. *)
Theorem detail_panel (ns : list Client.GraphNode) (edges : list Client.GraphEdge)
  (sel : option string) :
  (forall n, BrainViz.selectedNodeData ns sel = Some n ->
     In n ns /\ sel = Some (Client.id n)) /\
  (BrainViz.selectedNodeData ns sel = None <->
     forall n, In n ns -> sel <> Some (Client.id n)) /\
  (BrainViz.connections edges sel
   + List.length (filter (fun e => JS.strictEq sel (Client.source e)
                                   && JS.strictEq sel (Client.target e)) edges)
   = List.length (filter (fun e => JS.strictEq sel (Client.source e)) edges)
     + List.length (filter (fun e => JS.strictEq sel (Client.target e)) edges))%nat /\
  (BrainViz.connections edges sel <= List.length edges)%nat /\
  BrainViz.connections edges None = 0%nat.
Proof.
  assert (S : forall i, JS.strictEq sel i = true <-> sel = Some i).
  { intros i; destruct sel as [v|]; simpl; [|split; discriminate].
    rewrite String.eqb_eq; split; [now intros -> | now intros [= ->]]. }
  unfold BrainViz.selectedNodeData, BrainViz.connections.
  split; [|split; [|split; [|split]]].
  - intros n H; apply find_some in H; destruct H as [H1 H2].
    split; [exact H1 | now apply S].
  - split.
    + intros H n Hn E. apply (find_none _ _ H) in Hn.
      apply S in E; congruence.
    + intros H. destruct (find _ ns) as [n|] eqn:E; [|reflexivity].
      apply find_some in E; destruct E as [E1 E2].
      apply S in E2; now apply H in E1.
  - apply filter_orb_length.
  - apply filter_length_le.
  - induction edges as [|e edges IH]; simpl; [reflexivity | exact IH].
Qed.

Lemma detail_panel_witness :
  BrainViz.selectedNodeData [Examples.a; Examples.b] (Some "b"%string) = Some Examples.b /\
  BrainViz.selectedNodeData [Examples.a] (Some "b"%string) = None.
Proof.
  split; [reflexivity|].
  destruct (detail_panel [Examples.a] [] (Some "b"%string)) as [_ [[_ H] _]].
  apply H; intros n [<-|[]] E; discriminate E.
Defined.

(** ** BrainViz: the initial zoom to fit *)

Lemma fit_scale (bw bh w h : Q) :
  0 < w -> 0 < h -> 0 < bw -> 0 < bh ->
  let scale := 0.8 / Qmax (bw / w) (bh / h) in
  0 < scale /\
  scale * bw <= 0.8 * w /\ scale * bh <= 0.8 * h /\
  (scale * bw == 0.8 * w \/ scale * bh == 0.8 * h).
Proof.
  intros Hw Hh Hbw Hbh; cbv zeta.
  assert (Ea : (bw / w) * w == bw) by (field; lra).
  assert (Eb : (bh / h) * h == bh) by (field; lra).
  assert (Pa : 0 < bw / w) by (apply Qlt_shift_div_l; lra).
  pose proof (Q.le_max_l (bw / w) (bh / h)) as La.
  pose proof (Q.le_max_r (bw / w) (bh / h)) as Lb.
  assert (Hm : Qmax (bw / w) (bh / h) == bw / w \/ Qmax (bw / w) (bh / h) == bh / h).
  { destruct (Q.max_spec (bw / w) (bh / h)) as [[_ E]|[_ E]]; auto. }
  set (m := Qmax (bw / w) (bh / h)) in *; clearbody m.
  set (a := bw / w) in *; clearbody a.
  set (b := bh / h) in *; clearbody b.
  assert (Pm : 0 < m) by lra.
  assert (K : (0.8 / m) * m == 0.8) by (field; lra).
  assert (Pk : 0 < 0.8 / m) by (apply Qlt_shift_div_l; lra).
  set (s := 0.8 / m) in *; clearbody s.
  split; [exact Pk|].
  assert (A : s * bw == s * a * w) by (rewrite <- Ea; ring).
  assert (B : s * bh == s * b * h) by (rewrite <- Eb; ring).
  assert (Ka : s * a <= 0.8) by (rewrite <- K; apply Qmult_le_l; assumption).
  assert (Kb : s * b <= 0.8) by (rewrite <- K; apply Qmult_le_l; assumption).
  split; [rewrite A; apply Qmult_le_compat_r; lra|].
  split; [rewrite B; apply Qmult_le_compat_r; lra|].
  destruct Hm as [E|E]; [left; rewrite A | right; rewrite B];
    rewrite <- E, K; reflexivity.
Qed.

(** X14: for a viewport and a content box of positive width and height,
    the initial zoom to fit has a positive scale, shows the centre of the
    content box at the centre of the viewport, and scales the box to at most
    80% of the viewport in both directions and to exactly 80% in one, so the
    whole box is shown with a margin of a tenth of the viewport on each
    side. *)
Theorem fit_centres_content (dims : BrainViz.Dimensions) (bounds : BrainViz.BBox)
  (Hw : 0 < BrainViz.width dims) (Hh : 0 < BrainViz.height dims)
  (Hbw : 0 < BrainViz.bbox_width bounds) (Hbh : 0 < BrainViz.bbox_height bounds) :
  let t := BrainViz.fitTransform dims bounds in
  let left := BrainViz.bbox_x bounds in
  let top := BrainViz.bbox_y bounds in
  let right := BrainViz.bbox_x bounds + BrainViz.bbox_width bounds in
  let bottom := BrainViz.bbox_y bounds + BrainViz.bbox_height bounds in
  0 < BrainViz.k t /\
  BrainViz.applyX t (left + BrainViz.bbox_width bounds / 2) == BrainViz.width dims / 2 /\
  BrainViz.applyY t (top + BrainViz.bbox_height bounds / 2) == BrainViz.height dims / 2 /\
  0.1 * BrainViz.width dims <= BrainViz.applyX t left /\
  BrainViz.applyX t right <= 0.9 * BrainViz.width dims /\
  0.1 * BrainViz.height dims <= BrainViz.applyY t top /\
  BrainViz.applyY t bottom <= 0.9 * BrainViz.height dims /\
  (BrainViz.applyX t right - BrainViz.applyX t left == 0.8 * BrainViz.width dims \/
   BrainViz.applyY t bottom - BrainViz.applyY t top == 0.8 * BrainViz.height dims).
Proof.
  cbv zeta.
  destruct (fit_scale _ _ _ _ Hw Hh Hbw Hbh) as [Pk [Lw [Lh E]]].
  unfold BrainViz.applyX, BrainViz.applyY, BrainViz.fitTransform.
  cbn [BrainViz.k BrainViz.tx BrainViz.ty].
  revert Pk Lw Lh E.
  generalize (0.8 / Qmax (BrainViz.bbox_width bounds / BrainViz.width dims)
                         (BrainViz.bbox_height bounds / BrainViz.height dims)).
  intros s Pk Lw Lh E.
  assert (Hx : BrainViz.bbox_width bounds / 2 == BrainViz.bbox_width bounds * (1 # 2))
    by (field).
  assert (Hy : BrainViz.bbox_height bounds / 2 == BrainViz.bbox_height bounds * (1 # 2))
    by (field).
  assert (Wx : BrainViz.width dims / 2 == BrainViz.width dims * (1 # 2)) by field.
  assert (Wy : BrainViz.height dims / 2 == BrainViz.height dims * (1 # 2)) by field.
  rewrite Hx, Hy, Wx, Wy.
  split; [exact Pk|].
  split; [ring|]. split; [ring|].
  set (X := s * BrainViz.bbox_width bounds) in *.
  set (Y := s * BrainViz.bbox_height bounds) in *.
  assert (R1 : forall p q, s * (p + q) == s * p + s * q) by (intros; ring).
  rewrite !R1. fold X; fold Y.
  assert (R2 : s * (BrainViz.bbox_width bounds * (1 # 2)) == X * (1 # 2))
    by (unfold X; ring).
  assert (R3 : s * (BrainViz.bbox_height bounds * (1 # 2)) == Y * (1 # 2))
    by (unfold Y; ring).
  rewrite R2, R3.
  split; [lra|]. split; [lra|]. split; [lra|]. split; [lra|].
  destruct E as [E|E]; [left | right]; rewrite <- E; ring.
Qed.

Lemma fit_centres_content_witness :
  let bounds := {| BrainViz.bbox_x := 100; BrainViz.bbox_y := 100;
                   BrainViz.bbox_width := 1600; BrainViz.bbox_height := 500 |} in
  BrainViz.k (BrainViz.fitTransform Examples.dims bounds) == 0.4 /\
  BrainViz.applyX (BrainViz.fitTransform Examples.dims bounds) (100 + 1600 / 2)
    == 800 / 2.
Proof.
  cbv zeta. split; [reflexivity|].
  assert (Hw : 0 < BrainViz.width Examples.dims) by reflexivity.
  assert (Hh : 0 < BrainViz.height Examples.dims) by reflexivity.
  pose proof (fit_centres_content Examples.dims
    {| BrainViz.bbox_x := 100; BrainViz.bbox_y := 100;
       BrainViz.bbox_width := 1600; BrainViz.bbox_height := 500 |}
    Hw Hh eq_refl eq_refl) as [_ [H _]].
  exact H.
Defined.

(** ** BrainViz: what the drag handlers touch *)

Lemma update_nth_other {A : Type} (f : A -> A) (l : list A) (i j : nat) :
  i <> j -> nth_error (BrainViz.update i f l) j = nth_error l j.
Proof.
  revert i j; induction l as [|a l IH]; intros [|i] [|j] H; simpl;
    try reflexivity; try (exfalso; now apply H).
  apply IH; congruence.
Qed.

(** X15: the three drag handlers write the fixed coordinates of the dragged
    node and nothing else: every other node, the links and the number of
    nodes are unchanged, and the dragged node keeps its data, its position
    and its velocity. *)
Theorem drag_frame (a : nat) (ex ey : Q) (i j : nat) (s : BrainViz.Simulation)
  (h : BrainViz.Simulation -> BrainViz.Simulation)
  (Hh : h = BrainViz.dragStart a i \/ h = BrainViz.dragMove ex ey i \/
        h = BrainViz.dragEnd a i) :
  (i <> j -> nth_error (BrainViz.nodes (h s)) j = nth_error (BrainViz.nodes s) j) /\
  BrainViz.links (h s) = BrainViz.links s /\
  List.length (BrainViz.nodes (h s)) = List.length (BrainViz.nodes s) /\
  (forall d, nth_error (BrainViz.nodes s) i = Some d ->
     exists d', nth_error (BrainViz.nodes (h s)) i = Some d' /\
       BrainViz.data d' = BrainViz.data d /\
       BrainViz.x d' = BrainViz.x d /\ BrainViz.y d' = BrainViz.y d /\
       BrainViz.vx d' = BrainViz.vx d /\ BrainViz.vy d' = BrainViz.vy d).
Proof.
  destruct Hh as [->|[->| ->]];
    unfold BrainViz.dragStart, BrainViz.dragMove, BrainViz.dragEnd;
    try destruct (Nat.eqb a 0); cbn [BrainViz.setNodes BrainViz.alphaTargetRestart
      BrainViz.setAlphaTarget BrainViz.nodes BrainViz.links];
    (split; [intros H; now apply update_nth_other|]);
    (split; [reflexivity|]);
    (split; [apply update_length|]);
    intros d Hd; rewrite update_nth, Hd; simpl;
    eexists; split; try reflexivity; repeat split.
Qed.

Lemma drag_frame_witness :
  nth_error (BrainViz.nodes
    (BrainViz.dragMove 410 260 0
       (BrainViz.forceSimulation
          (BrainViz.simNodes Examples.dims [Examples.a; Examples.b]) []))) 1
  = Some (BrainViz.initializeNode (BrainViz.simNode Examples.dims Examples.b)).
Proof.
  destruct (drag_frame 0 410 260 0 1
              (BrainViz.forceSimulation
                 (BrainViz.simNodes Examples.dims [Examples.a; Examples.b]) [])
              (BrainViz.dragMove 410 260 0) (or_intror (or_introl eq_refl)))
    as [H _].
  rewrite H; [reflexivity | discriminate].
Defined.

Section Pinned.

Variables alphaDecay velocityDecay : Q.
Variable force : Q -> list BrainViz.SimNode -> BrainViz.SimNode -> BrainViz.Push.

Local Abbreviation tick := (BrainViz.tick alphaDecay velocityDecay force).

(** X16: while a node is dragged, the tick of the simulation puts it
    exactly where the drag handlers fixed it, whatever the forces are: at the
    position it had when the drag started without a move, and at the pointer
    position of the latest move otherwise; its velocity is then zero. *)
Theorem dragged_node_follows_pointer (a i : nat) (ex ey : Q)
  (s : BrainViz.Simulation) (d : BrainViz.SimNode)
  (Hd : nth_error (BrainViz.nodes s) i = Some d) :
  (exists d', nth_error (BrainViz.nodes (tick (BrainViz.dragStart a i s))) i = Some d' /\
     BrainViz.x d' = BrainViz.x d /\ BrainViz.y d' = BrainViz.y d /\
     BrainViz.vx d' = Some 0 /\ BrainViz.vy d' = Some 0) /\
  (exists d', nth_error
       (BrainViz.nodes (tick (BrainViz.dragMove ex ey i (BrainViz.dragStart a i s)))) i
       = Some d' /\
     BrainViz.x d' = ex /\ BrainViz.y d' = ey /\
     BrainViz.vx d' = Some 0 /\ BrainViz.vy d' = Some 0).
Proof.
  assert (S1 : nth_error (BrainViz.nodes (BrainViz.dragStart a i s)) i
               = Some (BrainViz.setFixed (Some (BrainViz.x d)) (Some (BrainViz.y d)) d)).
  { unfold BrainViz.dragStart; destruct (Nat.eqb a 0); simpl;
      now rewrite update_nth, Hd. }
  split.
  - unfold BrainViz.tick; cbn [BrainViz.nodes].
    rewrite nth_error_map, S1; simpl.
    eexists; split; [reflexivity|]; repeat split.
  - unfold BrainViz.tick, BrainViz.dragMove; cbn [BrainViz.nodes BrainViz.setNodes].
    rewrite nth_error_map, update_nth, S1; simpl.
    eexists; split; [reflexivity|]; repeat split.
Qed.

End Pinned.

Lemma dragged_node_follows_pointer_witness :
  exists d', nth_error
      (BrainViz.nodes
         (BrainViz.tick 0.0228 0.6 (fun _ _ _ => {| BrainViz.dx := 1; BrainViz.dy := 2;
                                          BrainViz.dvx := 5; BrainViz.dvy := 7 |})
            (BrainViz.dragMove 410 260 0 (BrainViz.dragStart 0 0 Examples.drifting)))) 0
      = Some d' /\
    BrainViz.x d' = 410 /\ BrainViz.y d' = 260.
Proof.
  destruct (dragged_node_follows_pointer 0.0228 0.6 (fun _ _ _ => {| BrainViz.dx := 1; BrainViz.dy := 2;
                                          BrainViz.dvx := 5; BrainViz.dvy := 7 |}) 0 0 410 260
              Examples.drifting _ eq_refl) as [_ [d' [H [Hx [Hy _]]]]].
  exists d'; repeat split; assumption.
Defined.

(** ** NeuralGraph3D and the canvas: colours, sizes and particles *)

Lemma floor_between (a b : Z) (q : Q) :
  inject_Z a <= q -> q <= inject_Z b -> (a <= Qfloor q <= b)%Z.
Proof.
  intros Ha Hb; apply Qfloor_resp_le in Ha, Hb.
  rewrite Qfloor_Z in Ha, Hb; split; assumption.
Qed.

(** X17: for an energy between 0 and 1 (0.5 when absent) the node colours
    of the 3D and canvas renderers are valid: every channel is an integer
    between 0 and 255, at every depth, and the only other colour is the white
    of the selected node in 3D. *)
Theorem node_colour_valid (sel : option string) (n : Client.GraphNode)
  (H0 : 0 <= Client.energy n ?? 0.5) (H1 : Client.energy n ?? 0.5 <= 1) :
  match NeuralGraph3D.getNodeColor sel (NeuralGraph3D.graphNode n) with
  | Rgb r g b => (0 <= r <= 255 /\ 0 <= g <= 255 /\ 0 <= b <= 255)%Z /\
                 sel <> Some (Client.id n)
  | Hex c => c = "#ffffff"%string /\ sel = Some (Client.id n)
  end /\
  match NeuralGraph.nodeColor n with
  | Rgb r g b => (0 <= r <= 255 /\ 0 <= g <= 255 /\ 0 <= b <= 255)%Z
  | Hex _ => False
  end.
Proof.
  assert (F : forall (a b : Z) (c m : Q), (0 <= a)%Z -> (b <= 255)%Z ->
            inject_Z a <= c + (Client.energy n ?? 0.5) * m ->
            c + (Client.energy n ?? 0.5) * m <= inject_Z b ->
            (0 <= Qfloor (c + (Client.energy n ?? 0.5) * m)%Q <= 255)%Z).
  { intros a b c m Ha Hb L U; pose proof (floor_between _ _ _ L U); lia. }
  assert (G : (0 <= Qfloor (50 + (1 - Client.energy n ?? 0.5) * 200)%Q <= 255)%Z).
  { assert (L : inject_Z 50 <= 50 + (1 - Client.energy n ?? 0.5) * 200)
      by (unfold inject_Z; lra).
    assert (U : 50 + (1 - Client.energy n ?? 0.5) * 200 <= inject_Z 250)
      by (unfold inject_Z; lra).
    pose proof (floor_between _ _ _ L U); lia. }
  unfold NeuralGraph3D.getNodeColor, NeuralGraph.nodeColor, NeuralGraph3D.graphNode,
    JS.floor.
  cbn [NeuralGraph3D.data].
  split.
  - destruct (JS.strictEq sel (Client.id n)) eqn:E.
    + split; [reflexivity|].
      destruct sel as [v|]; simpl in E; [|discriminate E].
      apply String.eqb_eq in E; now subst.
    + assert (N : sel <> Some (Client.id n)).
      { intros ->; simpl in E; rewrite String.eqb_refl in E; discriminate E. }
      destruct (Qeq_bool _ 0); [|destruct (Qeq_bool _ 1)];
        (split; [|exact N]); repeat split; try lia; try apply G;
        first [ solve [apply (F 200 255)%Z; try lia; unfold inject_Z; lra]
              | solve [apply (F 150 255)%Z; try lia; unfold inject_Z; lra]
              | solve [apply (F 120 200)%Z; try lia; unfold inject_Z; lra] ].
  - destruct (Qeq_bool _ 0); [|destruct (Qeq_bool _ 1)];
      repeat split; try lia;
      first [ solve [apply (F 150 255)%Z; try lia; unfold inject_Z; lra]
            | solve [apply (F 100 155)%Z; try lia; unfold inject_Z; lra] ].
Qed.

Lemma node_colour_valid_witness :
  NeuralGraph3D.getNodeColor None (NeuralGraph3D.graphNode Examples.a) = Rgb 50 255 80 /\
  match NeuralGraph.nodeColor Examples.deep with
  | Rgb r g b => (0 <= r <= 255 /\ 0 <= g <= 255 /\ 0 <= b <= 255)%Z
  | Hex _ => False
  end.
Proof.
  split; [reflexivity|].
  assert (H0 : 0 <= Client.energy Examples.deep ?? 0.5) by (unfold Qle; simpl; lia).
  assert (H1 : Client.energy Examples.deep ?? 0.5 <= 1) by (unfold Qle; simpl; lia).
  exact (proj2 (node_colour_valid None Examples.deep H0 H1)).
Defined.

(** X18: in the 3D renderer the size of a node with a non-negative access
    count and an energy between 0 and 1 lies between 4 and 9; the access
    count adds at most 3, so from 15 accesses on the size no longer grows;
    the glow sphere is one and a half times the node. *)
Theorem node_size_range (n : Client.GraphNode)
  (Ha : 0 <= Client.accessCount n ?? 0)
  (H0 : 0 <= Client.energy n ?? 0.5) (H1 : Client.energy n ?? 0.5 <= 1) :
  let node := NeuralGraph3D.graphNode n in
  4 <= NeuralGraph3D.getNodeSize node /\
  NeuralGraph3D.getNodeSize node <= 9 /\
  (15 <= Client.accessCount n ?? 0 ->
     NeuralGraph3D.getNodeSize node == 7 + (Client.energy n ?? 0.5) * 2) /\
  NeuralGraph3D.glowSize node == NeuralGraph3D.getNodeSize node * 1.5.
Proof.
  cbv zeta; unfold NeuralGraph3D.glowSize, NeuralGraph3D.getNodeSize,
    NeuralGraph3D.graphNode.
  cbn [NeuralGraph3D.data].
  assert (D : (Client.accessCount n ?? 0) / 5 == (Client.accessCount n ?? 0) * (1 # 5))
    by reflexivity.
  pose proof (Q.le_min_r ((Client.accessCount n ?? 0) / 5) 3) as U.
  assert (L : 0 <= Qmin ((Client.accessCount n ?? 0) / 5) 3)
    by (apply Q.min_glb; [rewrite D; lra | unfold Qle; simpl; lia]).
  split; [lra|]. split; [lra|]. split; [|reflexivity].
  intros H15.
  assert (E : Qmin ((Client.accessCount n ?? 0) / 5) 3 == 3)
    by (apply Q.min_r; rewrite D; lra).
  rewrite E; ring.
Qed.

Lemma node_size_range_witness :
  NeuralGraph3D.getNodeSize (NeuralGraph3D.graphNode Examples.a) <= 9.
Proof.
  assert (Ha : 0 <= Client.accessCount Examples.a ?? 0) by (unfold Qle; simpl; lia).
  assert (H0 : 0 <= Client.energy Examples.a ?? 0.5) by (unfold Qle; simpl; lia).
  assert (H1 : Client.energy Examples.a ?? 0.5 <= 1) by (unfold Qle; simpl; lia).
  exact (proj1 (proj2 (node_size_range Examples.a Ha H0 H1))).
Defined.

Lemma ceiling_gt (q : Q) (z : Z) : inject_Z z < q -> (z < Qceiling q)%Z.
Proof.
  intros H; pose proof (Qle_ceiling q) as C.
  rewrite Zlt_Qlt; lra.
Qed.

(** X19: the particle counts are capped and grow with the activity: for
    edges with coFireCount c1 <= c2 neither renderer gives the first more
    particles than the second; for a non-negative count the SVG renderer
    gives 0 to 5 particles, none at 0 and 5 above 8, and the 3D renderer 1 to
    5, one at 0 and 5 from 12 on. *)
Theorem particles_capped_monotone (e1 e2 : Client.GraphEdge)
  (H0 : 0 <= Client.coFireCount e1)
  (H12 : Client.coFireCount e1 <= Client.coFireCount e2) :
  (BrainViz.numParticles (BrainViz.simLink e1)
     <= BrainViz.numParticles (BrainViz.simLink e2))%Z /\
  (NeuralGraph3D.getLinkParticles (NeuralGraph3D.graphLink e1)
     <= NeuralGraph3D.getLinkParticles (NeuralGraph3D.graphLink e2))%Z /\
  (0 <= BrainViz.numParticles (BrainViz.simLink e1) <= 5)%Z /\
  (1 <= NeuralGraph3D.getLinkParticles (NeuralGraph3D.graphLink e1) <= 5)%Z /\
  (Client.coFireCount e1 == 0 ->
     BrainViz.numParticles (BrainViz.simLink e1) = 0%Z /\
     NeuralGraph3D.getLinkParticles (NeuralGraph3D.graphLink e1) = 1%Z) /\
  (8 < Client.coFireCount e1 -> BrainViz.numParticles (BrainViz.simLink e1) = 5%Z) /\
  (12 <= Client.coFireCount e1 ->
     NeuralGraph3D.getLinkParticles (NeuralGraph3D.graphLink e1) = 5%Z).
Proof.
  unfold BrainViz.numParticles, NeuralGraph3D.getLinkParticles, JS.ceil, JS.floor.
  cbn [BrainViz.simLink BrainViz.coFireCount NeuralGraph3D.graphLink
       NeuralGraph3D.coFireCount JS.nullish].
  set (c1 := Client.coFireCount e1) in *; set (c2 := Client.coFireCount e2) in *.
  assert (D2 : forall c, c / 2 == c * (1 # 2)) by reflexivity.
  assert (D3 : forall c, c / 3 == c * (1 # 3)) by reflexivity.
  assert (M2 : (Qceiling (c1 / 2) <= Qceiling (c2 / 2))%Z)
    by (apply Qceiling_resp_le; rewrite !D2; lra).
  assert (M3 : (Qfloor (c1 / 3) <= Qfloor (c2 / 3))%Z)
    by (apply Qfloor_resp_le; rewrite !D3; lra).
  assert (P2 : (0 <= Qceiling (c1 / 2))%Z).
  { change 0%Z with (Qceiling 0); apply Qceiling_resp_le; rewrite D2; lra. }
  assert (P3 : (0 <= Qfloor (c1 / 3))%Z).
  { change 0%Z with (Qfloor 0); apply Qfloor_resp_le; rewrite D3; lra. }
  split; [lia|]. split; [lia|]. split; [lia|]. split; [lia|].
  split; [|split].
  - intros E.
    rewrite (Qceiling_comp (c1 / 2) 0) by (rewrite D2, E; reflexivity).
    rewrite (Qfloor_comp (c1 / 3) 0) by (rewrite D3, E; reflexivity).
    split; reflexivity.
  - intros H8.
    assert (C : (4 < Qceiling (c1 / 2))%Z)
      by (apply ceiling_gt; unfold inject_Z; rewrite D2; lra).
    lia.
  - intros H'.
    assert (C : (Qfloor 4 <= Qfloor (c1 / 3))%Z)
      by (apply Qfloor_resp_le; rewrite D3; lra).
    change (Qfloor 4) with 4%Z in C. lia.
Qed.

Lemma particles_capped_monotone_witness :
  (BrainViz.numParticles (BrainViz.simLink Examples.strongIdle)
     <= BrainViz.numParticles (BrainViz.simLink Examples.ab))%Z /\
  BrainViz.numParticles (BrainViz.simLink Examples.ab) = 5%Z.
Proof.
  assert (H0 : 0 <= Client.coFireCount Examples.strongIdle) by (unfold Qle; simpl; lia).
  assert (H12 : Client.coFireCount Examples.strongIdle <= Client.coFireCount Examples.ab)
    by (unfold Qle; simpl; lia).
  split; [exact (proj1 (particles_capped_monotone _ _ H0 H12))|].
  assert (H0' : 0 <= Client.coFireCount Examples.ab) by (unfold Qle; simpl; lia).
  destruct (particles_capped_monotone Examples.ab Examples.ab H0' (Qle_refl _))
    as [_ [_ [_ [_ [_ [H _]]]]]].
  apply H; reflexivity.
Defined.

(** ** Truncated labels of the tooltips and of cytoscape *)

Lemma substring_prefix (s t : string) (n : nat) :
  String.length s = n -> substring 0 n (s ++ t) = s.
Proof.
  revert n; induction s as [|c s IH]; intros [|n] H; simpl in *;
    try discriminate H.
  - destruct t; reflexivity.
  - f_equal; apply IH; congruence.
Qed.

Lemma ellipsis_stable (n : nat) (c : string) :
  (n < String.length c)%nat ->
  let t := (substring 0 n c ++ "...")%string in
  (n < String.length t)%nat /\ (substring 0 n t ++ "...")%string = t /\
  String.length t = (n + 3)%nat.
Proof.
  intros H; cbv zeta.
  assert (L : String.length (substring 0 n c) = n)
    by (rewrite substring_length_min; lia).
  rewrite append_length, L; simpl.
  split; [lia|]. split; [|reflexivity].
  now rewrite (substring_prefix _ _ n L).
Qed.

(** X20: the tooltip title of the 3D renderer (60 characters), that of the
    canvas renderer (50) and the cytoscape label (25) keep a content that
    fits the budget unchanged and cut a longer one to its first 60, 50 or 25
    characters followed by "...", so they are at most three characters
    longer than the budget; truncating the result again changes nothing; an
    absent content gives the empty title in the 3D and canvas renderers. *)
Theorem truncation_stable (n m : Client.GraphNode) :
  ((String.length (NeuralGraph3D.truncated (NeuralGraph3D.graphNode n)) <= 63)%nat /\
   (forall c, Client.content n = Some c -> (String.length c <= 60)%nat ->
      NeuralGraph3D.truncated (NeuralGraph3D.graphNode n) = c) /\
   (forall c, Client.content n = Some c -> (60 < String.length c)%nat ->
      NeuralGraph3D.truncated (NeuralGraph3D.graphNode n)
      = (substring 0 60 c ++ "...")%string) /\
   (Client.content n = None ->
      NeuralGraph3D.truncated (NeuralGraph3D.graphNode n) = EmptyString) /\
   (Client.content m = Some (NeuralGraph3D.truncated (NeuralGraph3D.graphNode n)) ->
      NeuralGraph3D.truncated (NeuralGraph3D.graphNode m)
      = NeuralGraph3D.truncated (NeuralGraph3D.graphNode n))) /\
  ((String.length (NeuralGraph.truncated n) <= 53)%nat /\
   (forall c, Client.content n = Some c -> (String.length c <= 50)%nat ->
      NeuralGraph.truncated n = c) /\
   (forall c, Client.content n = Some c -> (50 < String.length c)%nat ->
      NeuralGraph.truncated n = (substring 0 50 c ++ "...")%string) /\
   (Client.content n = None -> NeuralGraph.truncated n = EmptyString) /\
   (Client.content m = Some (NeuralGraph.truncated n) ->
      NeuralGraph.truncated m = NeuralGraph.truncated n)) /\
  (forall c, Client.content n = Some c ->
     (String.length (NeoGraph.nodeLabel n) <= 28)%nat /\
     ((String.length c <= 25)%nat -> NeoGraph.nodeLabel n = c) /\
     ((25 < String.length c)%nat ->
        NeoGraph.nodeLabel n = (substring 0 25 c ++ "...")%string) /\
     (Client.content m = Some (NeoGraph.nodeLabel n) ->
        NeoGraph.nodeLabel m = NeoGraph.nodeLabel n)).
Proof.
  assert (T : forall (k : nat) (c : string),
    let t := if Nat.ltb k (String.length c)
             then (substring 0 k c ++ "...")%string else c in
    (String.length t <= k + 3)%nat /\
    ((String.length c <= k)%nat -> t = c) /\
    ((k < String.length c)%nat -> t = (substring 0 k c ++ "...")%string) /\
    (if Nat.ltb k (String.length t) then (substring 0 k t ++ "...")%string else t) = t).
  { intros k c; cbv zeta.
    destruct (Nat.ltb_spec k (String.length c)) as [H|H].
    - destruct (ellipsis_stable k c H) as [H1 [H2 H3]]; cbv zeta in *.
      split; [lia|]. split; [lia|]. split; [reflexivity|].
      destruct (Nat.ltb_spec k (String.length (substring 0 k c ++ "..."))); [exact H2 | lia].
    - split; [lia|]. split; [reflexivity|]. split; [lia|].
      destruct (Nat.ltb_spec k (String.length c)); [lia | reflexivity]. }
  split; [|split].
  - unfold NeuralGraph3D.truncated, NeuralGraph3D.graphNode; cbn [NeuralGraph3D.data].
    destruct (T 60%nat (Client.content n ?? EmptyString)) as [T1 [T2 [T4 T3]]].
    split; [exact T1|].
    split; [intros c E; rewrite E in *; exact T2|].
    split; [intros c E; rewrite E in *; exact T4|].
    split; [intros E; rewrite E; reflexivity|].
    intros E; rewrite E; cbn [JS.nullish]; exact T3.
  - unfold NeuralGraph.truncated.
    destruct (T 50%nat (Client.content n ?? EmptyString)) as [T1 [T2 [T4 T3]]].
    split; [exact T1|].
    split; [intros c E; rewrite E in *; exact T2|].
    split; [intros c E; rewrite E in *; exact T4|].
    split; [intros E; rewrite E; reflexivity|].
    intros E; rewrite E; cbn [JS.nullish]; exact T3.
  - intros c E.
    assert (N : forall p s, Client.content p = Some s ->
              NeoGraph.nodeLabel p
              = if Nat.ltb 25 (String.length s)
                then (substring 0 25 s ++ "...")%string else s).
    { intros p s Ep; unfold NeoGraph.nodeLabel; rewrite Ep; simpl.
      destruct (Nat.ltb 25 (String.length s)) eqn:B; [reflexivity|].
      apply Nat.ltb_ge in B. rewrite substring_short by exact B.
      clear; induction s as [|a s IH]; simpl; [reflexivity | now rewrite IH]. }
    destruct (T 25%nat c) as [T1 [T2 [T4 T3]]].
    rewrite (N n c E). split; [exact T1|].
    split; [exact T2|]. split; [exact T4|].
    intros Em; rewrite (N m _ Em); exact T3.
Qed.

Lemma truncation_stable_witness :
  NeuralGraph3D.truncated (NeuralGraph3D.graphNode Examples.a) = "alpha"%string /\
  NeuralGraph.truncated Examples.blank = EmptyString /\
  (String.length (NeoGraph.nodeLabel Examples.long) <= 28)%nat /\
  NeuralGraph3D.truncated (NeuralGraph3D.graphNode Examples.essay)
    = (substring 0 60 Examples.text ++ "...")%string /\
  NeuralGraph.truncated Examples.essay
    = (substring 0 50 Examples.text ++ "...")%string /\
  NeoGraph.nodeLabel Examples.essay
    = (substring 0 25 Examples.text ++ "...")%string.
Proof.
  destruct (truncation_stable Examples.a Examples.a) as [[_ [H1 _]] _].
  destruct (truncation_stable Examples.blank Examples.a) as [_ [[_ [_ [_ [H2 _]]]] _]].
  destruct (truncation_stable Examples.long Examples.a) as [_ [_ H3]].
  destruct (truncation_stable Examples.essay Examples.a)
    as [[_ [_ [H4 _]]] [[_ [_ [H5 _]]] H6]].
  split; [apply H1; [reflexivity | simpl; lia]|].
  split; [apply H2; reflexivity|].
  split; [exact (proj1 (H3 _ eq_refl))|].
  split; [apply H4; [reflexivity | simpl; lia]|].
  split; [apply H5; [reflexivity | simpl; lia]|].
  destruct (H6 _ eq_refl) as [_ [_ [H7 _]]].
  apply H7; simpl; lia.
Defined.

(** ** NeoGraph: palettes and taps *)

(** X21: in the cytoscape renderer the arrow head of an edge always has
    the colour of its line, selected or not, and the palette follows the
    weight: an edge at least as heavy as one drawn in the strongest colour is
    drawn in it too, and an edge at most as heavy as one drawn in the weakest
    colour is drawn in the weakest. *)
Theorem edge_palette (e1 e2 : Client.GraphEdge) (i j : nat) (selected : bool)
  (H : Client.weight e1 <= Client.weight e2) :
  NeoGraph.arrowFill selected (NeoGraph.edgeElement i e1)
    = NeoGraph.lineFill selected (NeoGraph.edgeElement i e1) /\
  (NeoGraph.lineColor (NeoGraph.edgeElement i e1) = Hex "#22d3ee" ->
   NeoGraph.lineColor (NeoGraph.edgeElement j e2) = Hex "#22d3ee") /\
  (NeoGraph.lineColor (NeoGraph.edgeElement j e2) = Hex "#a5f3fc" ->
   NeoGraph.lineColor (NeoGraph.edgeElement i e1) = Hex "#a5f3fc") /\
  (NeoGraph.lineColor (NeoGraph.edgeElement i e1) = Hex "#22d3ee" <->
   0.7 < Client.weight e1).
Proof.
  assert (G : forall a b : Q, JS.gt a b = true <-> b < a).
  { intros a b; unfold JS.gt. rewrite negb_true_iff, <- not_true_iff_false, Qle_bool_iff.
    split; [apply Qnot_le_lt | apply Qlt_not_le]. }
  split; [reflexivity|].
  unfold NeoGraph.lineColor; cbn [NeoGraph.edgeElement NeoGraph.weight].
  destruct (JS.gt (Client.weight e1) 0.7) eqn:A1;
  destruct (JS.gt (Client.weight e1) 0.4) eqn:B1;
  destruct (JS.gt (Client.weight e2) 0.7) eqn:A2;
  destruct (JS.gt (Client.weight e2) 0.4) eqn:B2;
  try apply G in A1; try apply G in B1; try apply G in A2; try apply G in B2;
  try (apply not_true_iff_false in A1; rewrite G in A1);
  try (apply not_true_iff_false in B1; rewrite G in B1);
  try (apply not_true_iff_false in A2; rewrite G in A2);
  try (apply not_true_iff_false in B2; rewrite G in B2);
  (split; [intros E; first [reflexivity | discriminate E | exfalso; lra]|]);
  (split; [intros E; first [reflexivity | discriminate E | exfalso; lra]|]);
  (split; [intros E; first [assumption | discriminate E]
          | intros E; first [reflexivity | exfalso; lra]]).
Qed.

Lemma edge_palette_witness :
  NeoGraph.lineColor (NeoGraph.edgeElement 1 Examples.ab) = Hex "#22d3ee" /\
  NeoGraph.lineColor (NeoGraph.edgeElement 0 Examples.weakBusy) = Hex "#a5f3fc".
Proof.
  assert (H1 : Client.weight Examples.firm <= Client.weight Examples.ab)
    by (unfold Qle; simpl; lia).
  assert (H2 : Client.weight Examples.weakBusy <= Client.weight Examples.faint)
    by (unfold Qle; simpl; lia).
  destruct (edge_palette Examples.firm Examples.ab 0 1 false H1) as [_ [G1 _]].
  destruct (edge_palette Examples.weakBusy Examples.faint 0 1 false H2)
    as [_ [_ [G2 _]]].
  split; [apply G1; reflexivity | apply G2; reflexivity].
Defined.



(** X23: in the cytoscape renderer the panel only ever shows a node of the
    snapshot the tap handlers were created with, or what it showed before: a
    tap on a node selects the first node of that snapshot with its id, a tap
    on an id the snapshot does not have leaves the selection, and a tap on the
    canvas or on the close button empties it. *)
Theorem tap_selects_from_snapshot (ns : list Client.GraphNode) (ev : NeoGraph.Tap)
  (prev : option Client.GraphNode) :
  (forall n, NeoGraph.tap ns ev prev = Some n ->
     (In n ns /\ ev = NeoGraph.TapNode (Client.id n)) \/
     (prev = Some n /\ exists i, ev = NeoGraph.TapNode i /\
        forall m, In m ns -> Client.id m <> i)) /\
  (NeoGraph.tap ns ev prev = None ->
     ev = NeoGraph.TapCanvas \/ ev = NeoGraph.ClickClose \/ prev = None) /\
  (forall older n newer, ns = older ++ n :: newer ->
     (forall m, In m older -> Client.id m <> Client.id n) ->
     NeoGraph.tap ns (NeoGraph.TapNode (Client.id n)) prev = Some n).
Proof.
  split; [|split].
  - intros n; destruct ev as [i| |]; simpl; try discriminate.
    destruct (find _ ns) as [m|] eqn:E.
    + intros [= <-]; apply find_some in E; destruct E as [E1 E2].
      apply String.eqb_eq in E2; left; split; [exact E1 | now rewrite E2].
    + intros ->; right; split; [reflexivity|].
      exists i; split; [reflexivity|].
      intros m Hm Hi. apply (find_none _ _ E) in Hm.
      apply String.eqb_neq in Hm; contradiction.
  - destruct ev as [i| |]; simpl; auto.
    destruct (find _ ns); [discriminate | auto].
  - intros older n newer -> Ho; simpl.
    induction older as [|m older IH]; simpl.
    + now rewrite String.eqb_refl.
    + destruct (String.eqb_spec (Client.id m) (Client.id n)) as [E|_].
      * exfalso; apply (Ho m); [left; reflexivity | exact E].
      * apply IH; intros p Hp; apply Ho; right; exact Hp.
Qed.

Lemma tap_selects_from_snapshot_witness :
  NeoGraph.tap [Examples.a; Examples.b] (NeoGraph.TapNode "b") None = Some Examples.b /\
  NeoGraph.tap [Examples.a] (NeoGraph.TapNode "b") (Some Examples.b) = Some Examples.b.
Proof.
  destruct (tap_selects_from_snapshot [Examples.a; Examples.b]
              (NeoGraph.TapNode "b") None) as [_ [_ H]].
  split; [|reflexivity].
  apply (H [Examples.a] Examples.b [] eq_refl).
  intros m [<-|[]] E; discriminate E.
Defined.

(** ** The canvas renderer: what is drawn at a zoom level *)

(** X24: on the canvas a node is drawn with a radius of at least 4, and of
    at most 12 when its energy is at most 1; at a positive zoom level the
    label text and the border keep their size on screen (10 and 1 once
    multiplied by the zoom), the label is drawn only above the zoom level
    0.8, and it is placed below the node. *)
Theorem canvas_node_drawing (node : Client.GraphNode) (y globalScale : Q)
  (Hg : 0 < globalScale) :
  4 <= NeuralGraph.nodeSize node /\
  (Client.energy node ?? 0.5 <= 1 -> NeuralGraph.nodeSize node <= 12) /\
  NeuralGraph.fontSize globalScale * globalScale == 10 /\
  NeuralGraph.borderWidth globalScale * globalScale == 1 /\
  (NeuralGraph.labelDrawn globalScale = true <-> 0.8 < globalScale) /\
  y + 4 < NeuralGraph.labelY node y globalScale.
Proof.
  unfold NeuralGraph.labelY, NeuralGraph.nodeSize, NeuralGraph.fontSize,
    NeuralGraph.borderWidth, NeuralGraph.labelDrawn.
  pose proof (Q.le_max_l 4 ((Client.energy node ?? 0.5) * 12)) as L.
  split; [exact L|].
  split; [intros H; apply Q.max_lub; lra|].
  split; [field; lra|]. split; [field; lra|].
  split; [apply gt_iff|].
  assert (F : 0 < 10 / globalScale) by (apply Qlt_shift_div_l; lra).
  set (f := 10 / globalScale) in *; clearbody f.
  set (m := Qmax 4 ((Client.energy node ?? 0.5) * 12)) in *; clearbody m.
  lra.
Qed.

Lemma canvas_node_drawing_witness :
  NeuralGraph.fontSize 2 * 2 == 10 /\ NeuralGraph.labelDrawn 2 = true.
Proof.
  assert (Hg : 0 < 2) by reflexivity.
  destruct (canvas_node_drawing Examples.a 0 2 Hg) as [_ [_ [H1 [_ [H2 _]]]]].
  split; [exact H1 | apply H2; reflexivity].
Defined.

(** X25: the SVG, 3D and canvas renderers agree on which nodes get the
    high-energy glow (the glow filter on the node circle, the glow sphere,
    the canvas shadow): a node gets it exactly when it has an energy and that
    energy exceeds 0.8.  Apart from that, the SVG renderer draws an outer
    glow circle behind every node, whatever its energy: it carries the glow
    filter, has the fill of the node, a radius 12 larger than the node circle
    and the opacity 0.3 times the energy (0.5 when absent).  So a node
    without energy has no filter on its circle, but its outer glow circle is
    drawn with the filter at opacity 0.15, and it is coloured and sized as a
    node of energy 0.5. *)
Theorem glow_threshold (dims : BrainViz.Dimensions) (n : Client.GraphNode) :
  (BrainViz.glowFilter (BrainViz.simNode dims n) = true <->
     exists e, Client.energy n = Some e /\ 0.8 < e) /\
  (BrainViz.attr_filter (BrainViz.nodeCircle (BrainViz.simNode dims n))
   = if BrainViz.glowFilter (BrainViz.simNode dims n)
     then Some "url(#glow)"%string else None) /\
  NeuralGraph3D.hasGlow (NeuralGraph3D.graphNode n)
    = BrainViz.glowFilter (BrainViz.simNode dims n) /\
  NeuralGraph.hasGlow n = BrainViz.glowFilter (BrainViz.simNode dims n) /\
  (BrainViz.glow_filter (BrainViz.nodeGlow (BrainViz.simNode dims n))
     = Some "url(#glow)"%string /\
   BrainViz.glow_opacity (BrainViz.nodeGlow (BrainViz.simNode dims n))
     == (Client.energy n ?? 0.5) * 0.3 /\
   BrainViz.glow_r (BrainViz.nodeGlow (BrainViz.simNode dims n))
     == BrainViz.radius (BrainViz.simNode dims n) + 12 /\
   BrainViz.glow_fill (BrainViz.nodeGlow (BrainViz.simNode dims n))
     = BrainViz.fill (BrainViz.simNode dims n)) /\
  (Client.energy n = None ->
     BrainViz.glowFilter (BrainViz.simNode dims n) = false /\
     BrainViz.glow_opacity (BrainViz.nodeGlow (BrainViz.simNode dims n)) == 0.15 /\
     BrainViz.fill (BrainViz.simNode dims n) = BrainViz.energyColor 0.5 /\
     NeuralGraph.nodeSize n == 6).
Proof.
  unfold BrainViz.glowFilter, NeuralGraph3D.hasGlow, NeuralGraph.hasGlow,
    BrainViz.fill, NeuralGraph.nodeSize, BrainViz.nodeGlow, BrainViz.nodeCircle,
    BrainViz.glowOpacity, BrainViz.glowRadius, BrainViz.radius.
  cbn [BrainViz.simNode BrainViz.data NeuralGraph3D.graphNode NeuralGraph3D.data
       BrainViz.glow_filter BrainViz.glow_opacity BrainViz.glow_r BrainViz.glow_fill
       BrainViz.attr_filter].
  split; [|split; [reflexivity | split; [reflexivity | split; [reflexivity|split]]]].
  - rewrite gt_iff; destruct (Client.energy n) as [e|]; cbn [JS.nullish].
    + split; [intros H; exists e; split; [reflexivity | exact H]
             | intros [e' [[= <-] H]]; exact H].
    + split; [intros H; exfalso; revert H; apply Qle_not_lt; unfold Qle; simpl; lia
             | intros [e' [E _]]; discriminate E].
  - split; [reflexivity|]. split; [reflexivity|]. split; [ring | reflexivity].
  - intros ->; cbn [JS.nullish]; repeat split.
Qed.

Lemma glow_threshold_witness :
  BrainViz.glowFilter (BrainViz.simNode Examples.dims Examples.a) = true /\
  BrainViz.glowFilter
    (BrainViz.simNode Examples.dims
       {| Client.id := "n"; Client.content := None; Client.energy := None;
          Client.depth := None; Client.accessCount := None;
          Client.position := None |}) = false /\
  BrainViz.glow_opacity
    (BrainViz.nodeGlow
       (BrainViz.simNode Examples.dims
          {| Client.id := "n"; Client.content := None; Client.energy := None;
             Client.depth := None; Client.accessCount := None;
             Client.position := None |})) == 0.15.
Proof.
  destruct (glow_threshold Examples.dims Examples.a) as [[_ H] _].
  split; [apply H; exists 1; split; reflexivity|].
  destruct (glow_threshold Examples.dims
    {| Client.id := "n"; Client.content := None; Client.energy := None;
       Client.depth := None; Client.accessCount := None;
       Client.position := None |}) as [_ [_ [_ [_ [_ G]]]]].
  destruct (G eq_refl) as [G1 [G2 _]].
  split; [exact G1 | exact G2].
Defined.

(** ** The registry page: paging *)

Lemma totalPages_eq {A : Type} (filtered : list A) :
  Users.totalPages filtered
  = Z.max 1 ((Z.of_nat (List.length filtered) + 9) / 10).
Proof.
  unfold Users.totalPages, JS.ceil, Users.PAGE_SIZE, Qceiling, Qfloor.
  set (n := Z.of_nat (List.length filtered)).
  assert (Hn : (0 <= n)%Z) by (unfold n; lia).
  cbn [inject_Z Qdiv Qinv Qmult Qnum Qden Qopp Z.sgn Pos.mul].
  replace (- (n * 1))%Z with (- n)%Z by lia.
  f_equal. pose proof (Z.div_mod (- n) 10 ltac:(lia)) as D1.
  pose proof (Z.mod_pos_bound (- n) 10 ltac:(lia)) as B1.
  pose proof (Z.div_mod (n + 9) 10 ltac:(lia)) as D2.
  pose proof (Z.mod_pos_bound (n + 9) 10 ltac:(lia)) as B2.
  lia.
Qed.

Lemma firstn_skipn_add {A : Type} (l : list A) (a b : nat) :
  firstn a l ++ firstn b (skipn a l) = firstn (a + b) l.
Proof.
  revert l; induction a as [|a IH]; intros [|x l]; simpl;
    try reflexivity.
  - now rewrite firstn_nil.
  - now rewrite IH.
Qed.

Lemma chunks_concat {A : Type} (l : list A) (pages : nat) :
  List.concat (map (fun p => firstn 10 (skipn (10 * p) l)) (seq 0 pages))
  = firstn (10 * pages) l.
Proof.
  induction pages as [|p IH]; [reflexivity|].
  rewrite seq_S, map_app, concat_app, IH; cbn [map List.concat].
  rewrite app_nil_r, firstn_skipn_add; f_equal; lia.
Qed.

Lemma paged_chunk {A : Type} (filtered : list A) (page : Z) :
  (0 <= page)%Z ->
  let safe := Users.safePage filtered page in
  (0 <= safe < Users.totalPages filtered)%Z /\
  (10 * Z.to_nat safe <= List.length filtered)%nat /\
  (filtered <> [] -> (10 * Z.to_nat safe < List.length filtered)%nat) /\
  Users.paged filtered page = firstn 10 (skipn (10 * Z.to_nat safe) filtered).
Proof.
  intros Hp; cbv zeta.
  unfold Users.paged, Users.slice, Users.sliceIndex, Users.safePage, Users.PAGE_SIZE.
  rewrite totalPages_eq.
  set (n := List.length filtered).
  set (T := Z.max 1 ((Z.of_nat n + 9) / 10)).
  pose proof (Z.div_mod (Z.of_nat n + 9) 10 ltac:(lia)) as D.
  pose proof (Z.mod_pos_bound (Z.of_nat n + 9) 10 ltac:(lia)) as B.
  set (safe := Z.min page (T - 1)).
  assert (S0 : (0 <= safe <= T - 1)%Z) by (unfold safe, T; lia).
  assert (S1 : (safe * 10 <= Z.of_nat n)%Z) by (unfold safe, T in *; lia).
  assert (S2 : filtered <> [] -> (safe * 10 < Z.of_nat n)%Z).
  { intros Hne; assert (0 < n)%nat
      by (unfold n; destruct filtered; [contradiction | simpl; lia]).
    unfold safe, T in *; lia. }
  split; [lia|]. split; [lia|]. split; [intros Hne; specialize (S2 Hne); lia|].
  destruct (Z.ltb_spec (safe * 10) 0) as [?|_]; [lia|].
  destruct (Z.ltb_spec ((safe + 1) * 10) 0) as [?|_]; [lia|].
  replace (Z.to_nat (Z.min (safe * 10) (Z.of_nat n))) with (10 * Z.to_nat safe)%nat by lia.
  set (from := (10 * Z.to_nat safe)%nat).
  assert (L : List.length (skipn from filtered) = (n - from)%nat)
    by (rewrite length_skipn; reflexivity).
  destruct (Z_le_gt_dec ((safe + 1) * 10) (Z.of_nat n)) as [H|H].
  - f_equal; unfold from; lia.
  - replace (Z.to_nat (Z.max (Z.min ((safe + 1) * 10) (Z.of_nat n)
                               - Z.min (safe * 10) (Z.of_nat n)) 0))
      with (n - from)%nat by (unfold from; lia).
    rewrite <- L, firstn_all, firstn_all2; [reflexivity|].
    rewrite L; unfold from; lia.
Qed.

(** X26: for a page number that is not negative, the registry page shows
    at most 10 entries, namely the entries 10 * p to 10 * p + 9 of the
    filtered list where p is the page clamped to the last page; the clamped
    page is a page of the list, and whenever the filtered list is not empty
    the page shown is not empty, also when the stored page number lies past
    the end. *)
Theorem paged_window {A : Type} (filtered : list A) (page : Z) (Hp : (0 <= page)%Z) :
  (0 <= Users.safePage filtered page < Users.totalPages filtered)%Z /\
  Users.paged filtered page
    = firstn 10 (skipn (10 * Z.to_nat (Users.safePage filtered page)) filtered) /\
  (List.length (Users.paged filtered page) <= 10)%nat /\
  (filtered <> [] -> Users.paged filtered page <> []) /\
  (forall x, In x (Users.paged filtered page) -> In x filtered).
Proof.
  destruct (paged_chunk filtered page Hp) as [H1 [H2 [H3 H4]]].
  split; [exact H1|]. split; [exact H4|].
  rewrite H4. split; [rewrite length_firstn; lia|].
  split.
  - intros Hne E; specialize (H3 Hne).
    assert (L : List.length (firstn 10
                  (skipn (10 * Z.to_nat (Users.safePage filtered page)) filtered)) = 0%nat)
      by now rewrite E.
    rewrite length_firstn, length_skipn in L; lia.
  - intros x Hx.
    rewrite <- (firstn_skipn (10 * Z.to_nat (Users.safePage filtered page)) filtered).
    apply in_or_app; right.
    rewrite <- (firstn_skipn 10 (skipn _ filtered)).
    apply in_or_app; left; exact Hx.
Qed.

Lemma paged_window_witness :
  Users.paged [1; 2; 3; 4; 5; 6; 7; 8; 9; 10; 11; 12]%nat 7 = [11; 12]%nat.
Proof.
  destruct (paged_window [1; 2; 3; 4; 5; 6; 7; 8; 9; 10; 11; 12]%nat 7%Z ltac:(lia))
    as [_ [H _]].
  rewrite H; reflexivity.
Defined.

(** X27: the pages of the registry page partition the filtered list: the
    pages 0 to totalPages - 1, one after the other, are the filtered list, so
    every entry is on exactly one page and in its place. *)
Theorem pages_partition {A : Type} (filtered : list A) :
  List.concat (map (fun p => Users.paged filtered (Z.of_nat p))
                   (seq 0 (Z.to_nat (Users.totalPages filtered))))
  = filtered.
Proof.
  rewrite (map_ext_in _ (fun p => firstn 10 (skipn (10 * p) filtered))).
  - rewrite chunks_concat, firstn_all2; [reflexivity|].
    rewrite totalPages_eq.
    pose proof (Z.div_mod (Z.of_nat (List.length filtered) + 9) 10 ltac:(lia)) as D.
    pose proof (Z.mod_pos_bound (Z.of_nat (List.length filtered) + 9) 10 ltac:(lia)) as B.
    lia.
  - intros p Hp; apply in_seq in Hp.
    destruct (paged_chunk filtered (Z.of_nat p) ltac:(lia)) as [_ [_ [_ H]]].
    rewrite H; unfold Users.safePage.
    replace (Z.min (Z.of_nat p) (Users.totalPages filtered - 1)) with (Z.of_nat p) by lia.
    now rewrite Nat2Z.id.
Qed.

(** X28: the paging buttons never leave the pages of the list: from a page
    number that is not negative both give a page between 0 and
    totalPages - 1 that is at most one page away from the page shown, and a
    button is disabled exactly when it would not change the page shown; with
    one page the pager is hidden and neither button moves. *)
Theorem pager_buttons {A : Type} (filtered : list A) (page : Z) (Hp : (0 <= page)%Z) :
  let safe := Users.safePage filtered page in
  (0 <= Users.previous filtered page < Users.totalPages filtered)%Z /\
  (0 <= Users.next filtered page < Users.totalPages filtered)%Z /\
  (safe - 1 <= Users.previous filtered page <= safe)%Z /\
  (safe <= Users.next filtered page <= safe + 1)%Z /\
  (Users.previousDisabled filtered page = true <-> Users.previous filtered page = safe) /\
  (Users.nextDisabled filtered page = true <-> Users.next filtered page = safe) /\
  (Users.pagerShown filtered = false ->
     Users.previous filtered page = 0%Z /\ Users.next filtered page = 0%Z) /\
  (Users.pagerShown filtered = true <-> (10 < List.length filtered)%nat).
Proof.
  cbv zeta.
  destruct (paged_chunk filtered page Hp) as [H1 _]; cbv zeta in H1.
  unfold Users.previous, Users.next, Users.previousDisabled, Users.nextDisabled,
    Users.pagerShown.
  set (safe := Users.safePage filtered page) in *.
  assert (T : Users.totalPages filtered
              = Z.max 1 ((Z.of_nat (List.length filtered) + 9) / 10))
    by apply totalPages_eq.
  pose proof (Z.div_mod (Z.of_nat (List.length filtered) + 9) 10 ltac:(lia)) as D.
  pose proof (Z.mod_pos_bound (Z.of_nat (List.length filtered) + 9) 10 ltac:(lia)) as B.
  set (total := Users.totalPages filtered) in *.
  rewrite Z.eqb_eq, Z.leb_le, Z.ltb_lt.
  repeat split; lia.
Qed.

Lemma pager_buttons_witness :
  (0 <= Users.previous [1; 2; 3; 4; 5; 6; 7; 8; 9; 10; 11; 12]%nat 7
     < Users.totalPages [1; 2; 3; 4; 5; 6; 7; 8; 9; 10; 11; 12]%nat)%Z /\
  Users.nextDisabled [1; 2; 3; 4; 5; 6; 7; 8; 9; 10; 11; 12]%nat 7 = true.
Proof.
  destruct (pager_buttons [1; 2; 3; 4; 5; 6; 7; 8; 9; 10; 11; 12]%nat 7%Z ltac:(lia))
    as [H [_ [_ [_ [_ [Hn _]]]]]].
  split; [exact H | apply Hn; reflexivity].
Defined.

(** ** NeuralGraph3D: the auto-rotate interval *)

Lemma rotor_invariant_step (r : NeuralGraph3D.Rotor) (ev : bool * NeuralGraph3D.RotorEvent) :
  (NeuralGraph3D.armed r = true /\ NeuralGraph3D.rotate r = true /\
   exists a, NeuralGraph3D.intervals r = [a]) \/
  (NeuralGraph3D.armed r = false /\ NeuralGraph3D.intervals r = []) ->
  let r' := NeuralGraph3D.rotorStep r ev in
  (NeuralGraph3D.armed r' = true /\ NeuralGraph3D.rotate r' = true /\
   exists a, NeuralGraph3D.intervals r' = [a]) \/
  (NeuralGraph3D.armed r' = false /\ NeuralGraph3D.intervals r' = []).
Proof.
  destruct r as [rot ints arm], ev as [hasGraph [| |]]; cbn;
    intros [[-> [-> [a ->]]]|[-> ->]]; cbn;
    try destruct rot; try destruct hasGraph; cbn; eauto 6.
Qed.

(** X29: the 3D renderer never leaks its auto-rotate interval: whatever
    node clicks, presses of the Rotate button and interval callbacks follow
    the first render, at most one interval is set, none is set while
    auto-rotate is off, and unmounting clears the one that is. *)
Theorem rotate_interval_single (hasGraph : bool)
  (evs : list (bool * NeuralGraph3D.RotorEvent)) :
  let r := fold_left NeuralGraph3D.rotorStep evs (NeuralGraph3D.mountRotor hasGraph) in
  (List.length (NeuralGraph3D.intervals r) <= 1)%nat /\
  (NeuralGraph3D.rotate r = false -> NeuralGraph3D.intervals r = []) /\
  NeuralGraph3D.intervals (NeuralGraph3D.rotateCleanup r) = [] /\
  (NeuralGraph3D.rotate (NeuralGraph3D.rotorStep r (hasGraph, NeuralGraph3D.NodeClicked))
   = false).
Proof.
  cbv zeta.
  assert (I : forall r,
    (NeuralGraph3D.armed r = true /\ NeuralGraph3D.rotate r = true /\
     exists a, NeuralGraph3D.intervals r = [a]) \/
    (NeuralGraph3D.armed r = false /\ NeuralGraph3D.intervals r = []) ->
    let r' := fold_left NeuralGraph3D.rotorStep evs r in
    (NeuralGraph3D.armed r' = true /\ NeuralGraph3D.rotate r' = true /\
     exists a, NeuralGraph3D.intervals r' = [a]) \/
    (NeuralGraph3D.armed r' = false /\ NeuralGraph3D.intervals r' = [])).
  { induction evs as [|ev evs IH]; intros r H; simpl; [exact H|].
    apply IH, rotor_invariant_step, H. }
  specialize (I (NeuralGraph3D.mountRotor hasGraph)).
  cbv zeta in I.
  set (r := fold_left NeuralGraph3D.rotorStep evs (NeuralGraph3D.mountRotor hasGraph)) in *.
  assert (H : (NeuralGraph3D.armed r = true /\ NeuralGraph3D.rotate r = true /\
               exists a, NeuralGraph3D.intervals r = [a]) \/
              (NeuralGraph3D.armed r = false /\ NeuralGraph3D.intervals r = [])).
  { apply I; destruct hasGraph; cbn; eauto 6. }
  clearbody r; clear I.
  destruct r as [rot ints arm]; cbn in *.
  destruct H as [[-> [-> [a ->]]]|[-> ->]]; cbn;
    repeat split; try lia; try discriminate; try reflexivity;
    try destruct rot; try destruct hasGraph; reflexivity.
Qed.

Lemma rotate_interval_single_witness :
  NeuralGraph3D.intervals
    (fold_left NeuralGraph3D.rotorStep
       [(true, NeuralGraph3D.IntervalFired); (true, NeuralGraph3D.NodeClicked)]
       (NeuralGraph3D.mountRotor true)) = [].
Proof.
  destruct (rotate_interval_single true
    [(true, NeuralGraph3D.IntervalFired); (true, NeuralGraph3D.NodeClicked)])
    as [_ [H _]].
  apply H; reflexivity.
Defined.

Lemma hover_reverts_witness :
  BrainViz.attr_filter (BrainViz.nodeCircle (BrainViz.simNode Examples.dims Examples.a))
    <> None.
Proof.
  destruct (hover_reverts (BrainViz.simNode Examples.dims Examples.a)
              (BrainViz.nodeCircle (BrainViz.simNode Examples.dims Examples.a)))
    as [_ [_ [_ [_ [_ [_ H]]]]]].
  apply H; reflexivity.
Defined.
